(** * PT-MAP, [train_cifar.py]: the two pretraining drivers and their entry point

    A shallow embedding of [train_cifar.py]: the manifold-mixup driver
    [train_manifold_mixup], the rotation driver [train_rotation] and the
    [__main__] block that selects and resumes them.

    The script is glue around a numeric framework.  Everything the script
    itself computes (the epoch range, the checkpoint cadence and file names,
    the loss combinations, the four-way rotation of a batch, the held-out
    subsampling, the dictionary remap on resume, the two flag dispatches) is
    written out below.  What it delegates (networks, optimiser, random
    numbers, data loading, resume-file lookup) is the interface [Framework];
    floating-point numbers are rationals. *)

From Stdlib Require Import ZArith QArith Lia Ascii String DecimalString DecimalZ.
From stdpp Require Import base option list list_numbers strings gmap.

Local Open Scope Z_scope.

(* ===================================================================== *)
(** * Exceptions and fallible computations                                 *)
(* ===================================================================== *)

(** The Python exceptions the script can raise by itself. *)
Inductive exn : Type :=
  | KeyError (key : string)            (* [d[k]] on a missing key *)
  | NameError (var : string)           (* also [UnboundLocalError] *)
  | ZeroDivisionError
  | IndexError
  | RuntimeError (msg : string)        (* raised by the framework *)
  | AttributeError                     (* [torch.load(None)]: [None] is no file *)
  | FileNotFoundError (path : string).

Inductive result (A : Type) : Type :=
  | Ok (a : A)
  | Raise (e : exn).
Arguments Ok {A} a.
Arguments Raise {A} e.

Definition rbind {A B} (m : result A) (k : A → result B) : result B :=
  match m with
  | Ok a => k a
  | Raise e => Raise e
  end.

Notation "x ←r m ; k" := (rbind m (fun x => k))
  (at level 20, m at level 100, k at level 200, only parsing, right associativity).
Notation "' pat ←r m ; k" := (rbind m (fun x => match x with pat => k end))
  (at level 20, pat pattern, m at level 100, k at level 200, only parsing,
   right associativity).

(** A [for] loop whose body may raise: the loop state is threaded from one
    iteration to the next and the first exception ends the loop. *)
Fixpoint for_each {A S} (body : S → A → result S) (l : list A) (s : S) : result S :=
  match l with
  | [] => Ok s
  | a :: l' => s' ←r body s a; for_each body l' s'
  end.

(** [enumerate(xs)] *)
Definition enumerate {A} (l : list A) : list (nat * A) := zip (seq 0 (length l)) l.

(** [range(a, b)] over Python integers. *)
Definition range (a b : Z) : list Z := seqZ a (b - a).

(** Reading a possibly unbound variable. *)
Definition use {A} (var : string) (v : option A) : result A :=
  match v with
  | Some a => Ok a
  | None => Raise (NameError var)
  end.

(** Whether a computation returned. *)
Definition returned {A} (r : result A) : bool :=
  match r with
  | Ok _ => true
  | Raise _ => false
  end.

(** [d[k]] on a dictionary. *)
Definition getitem {V} (d : gmap string V) (k : string) : result V :=
  match d !! k with
  | Some v => Ok v
  | None => Raise (KeyError k)
  end.

(* ===================================================================== *)
(** * Strings: checkpoint file names                                       *)
(* ===================================================================== *)

(** ['{:d}'.format(n)] *)
Definition format_d (n : Z) : string := NilEmpty.string_of_int (Z.to_int n).

Definition starts_with_slash (s : string) : bool :=
  match s with
  | String c _ => Ascii.eqb c "/"%char
  | EmptyString => false
  end.

Fixpoint ends_with_slash (s : string) : bool :=
  match s with
  | EmptyString => false
  | String c EmptyString => Ascii.eqb c "/"%char
  | String _ s' => ends_with_slash s'
  end.

(** [os.path.join(a, b)] on a POSIX system. *)
Definition os_path_join (a b : string) : string :=
  if starts_with_slash b then b
  else if (String.eqb a "" || ends_with_slash a)%bool then a +:+ b
  else a +:+ "/" +:+ b.

(** [os.path.join(params.checkpoint_dir, '{:d}.tar'.format(epoch))] *)
Definition outfile (checkpoint_dir : string) (epoch : Z) : string :=
  os_path_join checkpoint_dir (format_d epoch +:+ ".tar").

(** [s.replace(old, new)] for a non-empty [old]: every non-overlapping
    occurrence, left to right. *)
Fixpoint drop_prefix (p s : string) : option string :=
  match p, s with
  | EmptyString, _ => Some s
  | String a p', String b s' => if Ascii.eqb a b then drop_prefix p' s' else None
  | String _ _, EmptyString => None
  end.

Fixpoint replace_fuel (fuel : nat) (old new s : string) : string :=
  match fuel with
  | O => s
  | S fuel' =>
      match drop_prefix old s with
      | Some rest => new +:+ replace_fuel fuel' old new rest
      | None =>
          match s with
          | EmptyString => EmptyString
          | String c s' => String c (replace_fuel fuel' old new s')
          end
      end
  end.

Definition str_replace (old new s : string) : string :=
  replace_fuel (S (String.length s)) old new s.

(* ===================================================================== *)
(** * Tensors                                                              *)
(* ===================================================================== *)

(** A three-dimensional tensor (one image, [channels x height x width]): its
    sizes and its entries by index.  Entries outside the sizes are never
    read. *)
Record tensor3 (A : Type) : Type := Tensor3 {
  size0 : nat;
  size1 : nat;
  size2 : nat;
  entry : nat → nat → nat → A
}.
Arguments Tensor3 {A} _ _ _ _.
Arguments size0 {A} _.
Arguments size1 {A} _.
Arguments size2 {A} _.
Arguments entry {A} _ _ _ _.

Definition shape {A} (t : tensor3 A) : nat * nat * nat := (size0 t, size1 t, size2 t).

(** [t.transpose(2, 1)] *)
Definition transpose21 {A} (t : tensor3 A) : tensor3 A :=
  Tensor3 (size0 t) (size2 t) (size1 t) (fun c i j => entry t c j i).

(** [t.flip(1)] *)
Definition flip1 {A} (t : tensor3 A) : tensor3 A :=
  Tensor3 (size0 t) (size1 t) (size2 t) (fun c i j => entry t c (size1 t - 1 - i)%nat j).

(** The image turned counter-clockwise by [r] quarter turns, entry by
    entry: the top row of a quarter turn is the last column of the source,
    a half turn reverses rows and columns. *)
Definition turned {A} (r : nat) (t : tensor3 A) : tensor3 A :=
  match r with
  | 0%nat => t
  | 1%nat => Tensor3 (size0 t) (size2 t) (size1 t)
               (fun c i j => entry t c j (size2 t - 1 - i)%nat)
  | 2%nat => Tensor3 (size0 t) (size1 t) (size2 t)
               (fun c i j => entry t c (size1 t - 1 - i)%nat (size2 t - 1 - j)%nat)
  | _ => Tensor3 (size0 t) (size2 t) (size1 t)
               (fun c i j => entry t c (size1 t - 1 - j)%nat i)
  end.

(** Two tensors of one shape with the same entries. *)
Definition same_tensor {A} (t u : tensor3 A) : Prop :=
  shape t = shape u
  ∧ ∀ c i j, (c < size0 t)%nat → (i < size1 t)%nat → (j < size2 t)%nat →
             entry t c i j = entry u c i j.

(** [t[j]] on the first dimension of a tensor held as the list of its slices. *)
Definition index {A} (t : list A) (j : nat) : result A :=
  match t !! j with
  | Some v => Ok v
  | None => Raise IndexError
  end.

(** [torch.stack(ts, 0)]: the list must be non-empty and all its tensors of
    one shape; the result is held as the list of its slices. *)
Definition stack {A S} `{EqDecision S} (shape_of : A → S) (ts : list A) : result (list A) :=
  match ts with
  | [] => Raise (RuntimeError "stack expects a non-empty TensorList")
  | t :: _ =>
      if forallb (fun u => bool_decide (shape_of u = shape_of t)) ts then Ok ts
      else Raise (RuntimeError "stack expects each tensor to be equal size")
  end.

(** [(p == y).sum().item()] on two label vectors. *)
Definition eq_count (p y : list Z) : Z :=
  Z.of_nat (length (filter (fun py => py.1 = py.2) (zip p y))).

(* ===================================================================== *)
(** * Checkpoints, parameters, messages                                    *)
(* ===================================================================== *)

(** The dictionary given to [torch.save]: ['epoch'], ['state'] and, from the
    rotation driver, ['rotate']. *)
Record checkpoint (tensor : Type) : Type := Checkpoint {
  ck_epoch : Z;
  ck_state : gmap string tensor;
  ck_rotate : option (gmap string tensor)
}.
Arguments Checkpoint {tensor} _ _ _.
Arguments ck_epoch {tensor} _.
Arguments ck_state {tensor} _.
Arguments ck_rotate {tensor} _.

(** The namespace returned by [parse_args('train')], with the attribute
    [checkpoint_dir] that the entry point adds. *)
Record Params : Type := mkParams {
  params_dataset : string;
  params_model : string;
  params_method : string;
  params_alpha : Q;
  params_batch_size : Z;
  params_test_batch_size : Z;
  params_start_epoch : Z;
  params_stop_epoch : Z;
  params_save_freq : Z;
  params_train_aug : bool;
  params_resume : bool;
  params_checkpoint_dir : string
}.

Definition set_resume (b : bool) (p : Params) : Params :=
  mkParams (params_dataset p) (params_model p) (params_method p) (params_alpha p)
    (params_batch_size p) (params_test_batch_size p) (params_start_epoch p)
    (params_stop_epoch p) (params_save_freq p) (params_train_aug p) b
    (params_checkpoint_dir p).

Definition set_checkpoint_dir (d : string) (p : Params) : Params :=
  mkParams (params_dataset p) (params_model p) (params_method p) (params_alpha p)
    (params_batch_size p) (params_test_batch_size p) (params_start_epoch p)
    (params_stop_epoch p) (params_save_freq p) (params_train_aug p) (params_resume p) d.

Definition set_start_epoch (n : Z) (p : Params) : Params :=
  mkParams (params_dataset p) (params_model p) (params_method p) (params_alpha p)
    (params_batch_size p) (params_test_batch_size p) n
    (params_stop_epoch p) (params_save_freq p) (params_train_aug p) (params_resume p)
    (params_checkpoint_dir p).

(** What the script prints.  A printed quotient is kept as its numerator and
    denominator. *)
Inductive message : Type :=
  | MsgStopEpoch (start_epoch stop_epoch : Z)
  | MsgEpoch (epoch : Z)
  | MsgMixupTrain (batch_idx len : nat) (train_loss correct : Q) (total : Z)
  | MsgMixupTest (test_loss : Q) (batch_idx : nat) (correct total : Z)
  | MsgRotationTrain (epoch : Z) (i len : nat) (avg_loss avg_rloss : Q)
  | MsgRotationTest (epoch : Z) (correct rcorrect total : Z)
  | MsgLoadingRotate
  | MsgResumeFile (resume_file : option string)
  | MsgRestoredEpoch (epoch : Z)
  | MsgModel
  | MsgKeys (keys : gset string).

(* ===================================================================== *)
(** * The state the script acts on                                         *)
(* ===================================================================== *)

(** The checkpoint files by path, the random generators, and the output. *)
Record worldT (tensor rng : Type) : Type := World {
  fs : gmap string (checkpoint tensor);
  gen : rng;
  stdout : list message
}.
Arguments World {tensor rng} _ _ _.
Arguments fs {tensor rng} _.
Arguments gen {tensor rng} _.
Arguments stdout {tensor rng} _.

(** The variables of the mixup driver that outlive a batch. *)
Record mixup_varsT (module adam tensor rng : Type) : Type := MixupVars {
  mx_model : module;
  mx_optimizer : adam;
  mx_batch_idx : option nat;
  mx_train_loss : Q;
  mx_correct : Q;
  mx_total : Z;
  mx_world : worldT tensor rng
}.
Arguments MixupVars {module adam tensor rng} _ _ _ _ _ _ _.
Arguments mx_model {module adam tensor rng} _.
Arguments mx_optimizer {module adam tensor rng} _.
Arguments mx_batch_idx {module adam tensor rng} _.
Arguments mx_train_loss {module adam tensor rng} _.
Arguments mx_correct {module adam tensor rng} _.
Arguments mx_total {module adam tensor rng} _.
Arguments mx_world {module adam tensor rng} _.

(** The variables of the held-out loop of the mixup driver, lines 75-87. *)
Record mixup_test_vars : Type := MixupTestVars {
  mt_batch_idx : option nat;
  mt_test_loss : Q;
  mt_correct : Z;
  mt_total : Z
}.

(** What the epoch loop of the mixup driver carries from one epoch to the
    next. *)
Record mixup_stateT (module adam tensor rng : Type) : Type := MixupState {
  ms_model : module;
  ms_optimizer : adam;
  ms_batch_idx : option nat;
  ms_world : worldT tensor rng
}.
Arguments MixupState {module adam tensor rng} _ _ _ _.
Arguments ms_model {module adam tensor rng} _.
Arguments ms_optimizer {module adam tensor rng} _.
Arguments ms_batch_idx {module adam tensor rng} _.
Arguments ms_world {module adam tensor rng} _.

(** The variables of the rotation driver that outlive a batch. *)
Record rotation_varsT (module adam tensor rng : Type) : Type := RotationVars {
  rv_model : module;
  rv_rotate_classifier : module;
  rv_optimizer : adam;
  rv_avg_loss : Q;
  rv_avg_rloss : Q;
  rv_world : worldT tensor rng
}.
Arguments RotationVars {module adam tensor rng} _ _ _ _ _ _.
Arguments rv_model {module adam tensor rng} _.
Arguments rv_rotate_classifier {module adam tensor rng} _.
Arguments rv_optimizer {module adam tensor rng} _.
Arguments rv_avg_loss {module adam tensor rng} _.
Arguments rv_avg_rloss {module adam tensor rng} _.
Arguments rv_world {module adam tensor rng} _.

(** What the epoch loop of the rotation driver carries from one epoch to the
    next. *)
Record rotation_stateT (module adam tensor rng : Type) : Type := RotationState {
  rs_model : module;
  rs_rotate_classifier : module;
  rs_optimizer : adam;
  rs_world : worldT tensor rng
}.
Arguments RotationState {module adam tensor rng} _ _ _ _.
Arguments rs_model {module adam tensor rng} _.
Arguments rs_rotate_classifier {module adam tensor rng} _.
Arguments rs_optimizer {module adam tensor rng} _.
Arguments rs_world {module adam tensor rng} _.

(* ===================================================================== *)
(** * The collaborators                                                    *)
(* ===================================================================== *)

(** What [train_cifar.py] imports and calls without defining: [torch],
    [numpy], [configs], [wrn_mixup_model], [res_mixup_model],
    [data.datamgr] and [io_utils].  A [module] is a network together with
    the current values of its parameters. *)
Class Framework : Type := {
  pixel : Type;
  tensor : Type;
  module : Type;
  features : Type;
  logits : Type;
  adam : Type;
  rng : Type;
  loader : Type;
  (* torch.cuda *)
  use_gpu : bool;
  device_count : nat;
  cuda : module → module;
  (* torch.nn *)
  state_dict : module → gmap string tensor;
  load_state_dict : module → gmap string tensor → result module;
  train_mode : bool → module → module;
  DataParallel : module → list nat → module;
  Linear : Z → Z → rng → module * rng;
  forward : module → list (tensor3 pixel) → features * logits;
  forward_mixup : module → list (tensor3 pixel) → list Z → Q → Q → rng →
                  (logits * list Z * list Z) * rng;
  classify : module → features → logits;
  CrossEntropyLoss : logits → list Z → Q;
  argmax : logits → list Z;
  (* torch.optim: [zero_grad], [backward] and [step] on a loss that is given
     as a function of the parameters it is differentiated in *)
  Adam : list module → adam;
  adam_step : adam → (module → Q) → module → adam * module;
  adam_step2 : adam → (module → module → Q) → module → module → adam * (module * module);
  (* numpy *)
  np_random_beta : Q → Q → rng → Q * rng;
  (* wrn_mixup_model, res_mixup_model *)
  wrn28_10 : Z → rng → module * rng;
  resnet18 : Z → rng → module * rng;
  (* configs *)
  save_dir : string;
  data_dir : gmap string string;
  (* data.datamgr: [SimpleDataManager(image_size, batch_size)
     .get_data_loader(base_file, aug)], one pass over a loader, [len] *)
  get_data_loader : Z → Z → string → bool → loader;
  iterate : loader → rng → list (list (tensor3 pixel) * list Z) * rng;
  len : loader → nat;
  (* io_utils: the resume file among the files that exist, [None] if the
     directory holds no checkpoint *)
  get_resume_file : gset string → string → option string;
  (* the class logits have one row per sample *)
  argmax_forward : ∀ m x, length (argmax (forward m x).2) = length x
}.

(** The epochs announced on the output by [print('\nEpoch: %d' % epoch)]. *)
Definition epoch_lines (out : list message) : list Z :=
  omap (fun m => match m with MsgEpoch epoch => Some epoch | _ => None end) out.

(** The epochs of the accuracy lines that lines 210-211 print. *)
Definition rotation_test_lines (out : list message) : list Z :=
  omap (fun m => match m with MsgRotationTest epoch _ _ _ => Some epoch | _ => None end) out.

(** The batch indexes of the progress lines that lines 62-64 print, and the
    epochs and batch indexes of those that lines 162-165 print. *)
Definition mixup_train_lines (out : list message) : list nat :=
  omap (fun m => match m with MsgMixupTrain batch_idx _ _ _ _ => Some batch_idx | _ => None end)
    out.

Definition rotation_train_lines (out : list message) : list (Z * nat) :=
  omap (fun m => match m with MsgRotationTrain epoch i _ _ _ => Some (epoch, i) | _ => None end)
    out.

(** The epochs at which lines 69 and 170 ask for a checkpoint: the multiples
    of the save frequency and the last epoch of the run. *)
Definition checkpoint_epoch (save_freq stop_epoch epoch : Z) : Prop :=
  (save_freq | epoch) ∨ epoch = stop_epoch - 1.

(** The epochs [s], [s + F], [s + 2 F], ... below [e], and [e - 1]. *)
Definition strided_epoch (s e save_freq epoch : Z) : Prop :=
  s ≤ epoch < e
  ∧ ((∃ k, 0 ≤ k ∧ epoch = s + k * save_freq) ∨ epoch = e - 1).

(** An image, and a batch: the images and their class labels. *)
Abbreviation image := (tensor3 pixel).
Abbreviation batch := (list (tensor3 pixel) * list Z)%type.

(** The state records at the types of the framework. *)
Abbreviation world := (worldT tensor rng).
Abbreviation mixup_vars := (mixup_varsT module adam tensor rng).
Abbreviation mixup_state := (mixup_stateT module adam tensor rng).
Abbreviation rotation_vars := (rotation_varsT module adam tensor rng).
Abbreviation rotation_state := (rotation_stateT module adam tensor rng).

Section Script.
Context {F : Framework}.

Definition print (m : message) (w : world) : world :=
  World (fs w) (gen w) (stdout w ++ [m]).

(** A call that draws random numbers. *)
Definition draw {A} (f : rng → A * rng) (w : world) : A * world :=
  let '(a, g) := f (gen w) in (a, World (fs w) g (stdout w)).

(** [torch.save(record, outfile)]; lines 66-67 and 167-168 create the
    directory beforehand, so that the write goes through. *)
Definition torch_save (record : checkpoint tensor) (path : string) (w : world) : world :=
  World (<[path := record]> (fs w)) (gen w) (stdout w).

(** [torch.load(resume_file)] *)
Definition torch_load (resume_file : option string) (w : world) : result (checkpoint tensor) :=
  match resume_file with
  | None => Raise AttributeError
  | Some path =>
      match fs w !! path with
      | Some record => Ok record
      | None => Raise (FileNotFoundError path)
      end
  end.

(** [m.cuda()] *)
Definition module_cuda (m : module) : result module :=
  if use_gpu then Ok (cuda m) else Raise (RuntimeError "no CUDA device").

(** Lines 69 and 170: [(epoch % params.save_freq == 0) or (epoch == stop_epoch - 1)] *)
Definition save_due (epoch stop_epoch save_freq : Z) : result bool :=
  if save_freq =? 0 then Raise ZeroDivisionError
  else Ok ((epoch mod save_freq =? 0) || (epoch =? stop_epoch - 1))%bool.

(** Lines 69-71 and 170-172, which differ in the record only. *)
Definition save_checkpoint (epoch stop_epoch : Z) (params : Params)
    (record : checkpoint tensor) (w : world) : result world :=
  due ←r save_due epoch stop_epoch (params_save_freq params);
  if (due : bool) then
    let outfile := outfile (params_checkpoint_dir params) epoch in
    Ok (torch_save record outfile w)
  else Ok w.

(* ===================================================================== *)
(** * [train_manifold_mixup]                                               *)
(* ===================================================================== *)

(** Lines 27-28. *)
Definition mixup_criterion {P Y} (criterion : P → Y → Q) (pred : P) (y_a y_b : Y) (lam : Q) : Q :=
  (lam * criterion pred y_a + (1 - lam) * criterion pred y_b)%Q.

(** Lines 49-51 as a function of the network: the loss that line 59
    differentiates. *)
Definition mixup_loss (input_var : list image) (target_var : list Z) (alpha lam : Q)
    (g : rng) (model : module) : Q :=
  let '((outputs, target_a, target_b), _) := forward_mixup model input_var target_var alpha lam g in
  mixup_criterion CrossEntropyLoss outputs target_a target_b lam.

(** Lines 44-64: one training batch. *)
Definition mixup_batch (params : Params) (base_loader : loader) (v : mixup_vars)
    (b : nat * batch) : mixup_vars :=
  let '(batch_idx, (input_var, target_var)) := b in
  let '(lam, w) := draw (np_random_beta (params_alpha params) (params_alpha params)) (mx_world v) in
  let g := gen w in
  let '((outputs, target_a, target_b), w) :=
    draw (forward_mixup (mx_model v) input_var target_var (params_alpha params) lam) w in
  let loss := mixup_criterion CrossEntropyLoss outputs target_a target_b lam in
  let train_loss := (mx_train_loss v + loss)%Q in
  let predicted := argmax outputs in
  let total := mx_total v + Z.of_nat (length target_var) in
  let correct := (mx_correct v + (lam * inject_Z (eq_count predicted target_a)
                                   + (1 - lam) * inject_Z (eq_count predicted target_b)))%Q in
  let '(optimizer, model) :=
    adam_step (mx_optimizer v)
      (mixup_loss input_var target_var (params_alpha params) lam g) (mx_model v) in
  let w := if (batch_idx mod 100 =? 0)%nat
           then print (MsgMixupTrain batch_idx (len base_loader) train_loss correct total) w
           else w in
  MixupVars model optimizer (Some batch_idx) train_loss correct total w.

Definition mixup_test_batch (model : module) (v : mixup_test_vars) (b : nat * batch)
    : mixup_test_vars :=
  let '(batch_idx, (inputs, targets)) := b in
  let '(f, outputs) := forward model inputs in
  let loss := CrossEntropyLoss outputs targets in
  let predicted := argmax outputs in
  MixupTestVars (Some batch_idx) (mt_test_loss v + loss)%Q
    (mt_correct v + eq_count predicted targets)
    (mt_total v + Z.of_nat (length targets)).

(** Lines 35-64: the training pass of one epoch. *)
Definition mixup_train (base_loader : loader) (params : Params) (s : mixup_state)
    (epoch : Z) : mixup_vars :=
  let w := print (MsgEpoch epoch) (ms_world s) in
  let model := train_mode true (ms_model s) in
  let '(batches, w) := draw (iterate base_loader) w in
  fold_left (mixup_batch params base_loader) (enumerate batches)
    (MixupVars model (ms_optimizer s) (ms_batch_idx s) 0 0 0 w).

(** Lines 75-90: the held-out pass.  Line 89 divides [test_loss] by
    [batch_idx + 1] and then [100. * correct] by [total]; [correct] and
    [total] are still the integer 0 when the loop has not run, and
    [correct] is a tensor otherwise. *)
Definition mixup_test (model : module) (batch_idx : option nat) (tests : list batch)
    : result (message * option nat) :=
  let t := fold_left (mixup_test_batch model) (enumerate tests)
             (MixupTestVars batch_idx 0 0 0) in
  batch_idx ←r use "batch_idx" (mt_batch_idx t);
  if bool_decide (tests = []) then Raise ZeroDivisionError
  else Ok (MsgMixupTest (mt_test_loss t) batch_idx (mt_correct t) (mt_total t),
           mt_batch_idx t).

(** Lines 35-92: one epoch. *)
Definition mixup_epoch (base_loader base_loader_test : loader) (stop_epoch : Z)
    (params : Params) (s : mixup_state) (epoch : Z) : result mixup_state :=
  let v := mixup_train base_loader params s epoch in
  let model := mx_model v in
  w ←r save_checkpoint epoch stop_epoch params
         (Checkpoint epoch (state_dict model) None) (mx_world v);
  let model := train_mode false model in
  let '(tests, w) := draw (iterate base_loader_test) w in
  '(line, batch_idx) ←r mixup_test model (mx_batch_idx v) tests;
  let w := print line w in
  Ok (MixupState model (mx_optimizer v) batch_idx w).

(** The record that epoch [epoch] of the mixup driver hands to [torch.save]
    from loop state [s]: the epoch and the parameters after its training
    pass. *)
Definition mixup_saved (base_loader : loader) (params : Params) (s : mixup_state)
    (epoch : Z) (r : checkpoint tensor) : Prop :=
  r = Checkpoint epoch (state_dict (mx_model (mixup_train base_loader params s epoch))) None.

(** Lines 26-94. *)
Definition train_manifold_mixup (base_loader base_loader_test : loader) (model : module)
    (start_epoch stop_epoch : Z) (params : Params) (w : world) : result (module * world) :=
  let optimizer := Adam [model] in
  let w := print (MsgStopEpoch start_epoch stop_epoch) w in
  s ←r for_each (mixup_epoch base_loader base_loader_test stop_epoch params)
         (range start_epoch stop_epoch) (MixupState model optimizer None w);
  Ok (ms_model s, ms_world s).

(* ===================================================================== *)
(** * [train_rotation]                                                     *)
(* ===================================================================== *)

(** [x.transpose(2, 1).flip(1)] *)
Definition rot90 (x : image) : image := flip1 (transpose21 x).

(** Lines 133-138 and 186-191: one pass of the loop over [j]. *)
Definition rotate_sample (x : list image) (y : list Z)
    (acc : list image * list Z * list Z) (j : nat) : result (list image * list Z * list Z) :=
  let '(x_, y_, a_) := acc in
  xj ←r index x j;
  let x90 := rot90 xj in
  let x180 := rot90 x90 in
  let x270 := rot90 x180 in
  yj ←r index y j;
  Ok (x_ ++ [xj; x90; x180; x270], y_ ++ replicate 4 yj, a_ ++ [0; 1; 2; 3]).

(** Lines 128-142 and 181-195: the rotated batch [(x_, y_, a_)]. *)
Definition rotate_batch (b : batch) : result (list image * list Z * list Z) :=
  let '(x, y) := b in
  let bs := length x in
  '(x_, y_, a_) ←r for_each (rotate_sample x y) (seq 0 bs) ([], [], []);
  x_ ←r stack shape x_;
  y_ ←r stack (fun _ : Z => ()) y_;
  a_ ←r stack (fun _ : Z => ()) a_;
  Ok (x_, y_, a_).

(** The batches the data loader hands over: at least one image, all images
    of one square shape, one label per image. *)
Definition well_formed (b : batch) : bool :=
  match b.1 with
  | [] => false
  | t :: _ =>
      (size1 t =? size2 t)%nat
      && forallb (fun u => bool_decide (shape u = shape t)) b.1
      && (length b.2 =? length b.1)%nat
  end.

(** The four images that one source image contributes, in order. *)
Definition rotations (x : image) : list image :=
  [x; rot90 x; rot90 (rot90 x); rot90 (rot90 (rot90 x))].

(** Lines 149-155 as a function of the two networks: the loss that line 156
    differentiates. *)
Definition rotation_loss (x_ : list image) (y_ a_ : list Z)
    (model rotate_classifier : module) : Q :=
  let '(f, scores) := forward model x_ in
  let rotate_scores := classify rotate_classifier f in
  let rloss := CrossEntropyLoss rotate_scores a_ in
  let closs := CrossEntropyLoss scores y_ in
  (0.5 * closs + 0.5 * rloss)%Q.

(** Lines 127-165: one training batch. *)
Definition rotation_batch (epoch : Z) (base_loader : loader) (v : rotation_vars)
    (b : nat * batch) : result rotation_vars :=
  let '(i, xy) := b in
  '(x_, y_, a_) ←r rotate_batch xy;
  let '(f, scores) := forward (rv_model v) x_ in
  let rotate_scores := classify (rv_rotate_classifier v) f in
  let rloss := CrossEntropyLoss rotate_scores a_ in
  let closs := CrossEntropyLoss scores y_ in
  let '(optimizer, (model, rotate_classifier)) :=
    adam_step2 (rv_optimizer v) (rotation_loss x_ y_ a_)
      (rv_model v) (rv_rotate_classifier v) in
  let avg_loss := (rv_avg_loss v + closs)%Q in
  let avg_rloss := (rv_avg_rloss v + rloss)%Q in
  let w := if (i mod 50 =? 0)%nat
           then print (MsgRotationTrain epoch i (len base_loader) avg_loss avg_rloss) (rv_world v)
           else rv_world v in
  Ok (RotationVars model rotate_classifier optimizer avg_loss avg_rloss w).

(** Lines 181-208: the evaluation of one held-out batch; the loop state is
    [(correct, rcorrect, total)]. *)
Definition rotation_test_sample (model rotate_classifier : module) (v : Z * Z * Z)
    (xy : batch) : result (Z * Z * Z) :=
  let '(correct, rcorrect, total) := v in
  '(x_, y_, a_) ←r rotate_batch xy;
  let '(f, scores) := forward model x_ in
  let rotate_scores := classify rotate_classifier f in
  let p1 := argmax scores in
  let correct := correct + eq_count p1 y_ in
  let total := total + Z.of_nat (length p1) in
  let p2 := argmax rotate_scores in
  let rcorrect := rcorrect + eq_count p2 a_ in
  Ok (correct, rcorrect, total).

(** Lines 179-208: the body of the held-out loop. *)
Definition rotation_test_batch (model rotate_classifier : module) (v : Z * Z * Z)
    (b : nat * batch) : result (Z * Z * Z) :=
  let '(i, xy) := b in
  if (i <? 10)%nat then rotation_test_sample model rotate_classifier v xy
  else Ok v.

(** Lines 177-211: the evaluation after an epoch. *)
Definition rotation_test (model rotate_classifier : module) (tests : list batch)
    : result (Z * Z * Z) :=
  '(correct, rcorrect, total) ←r
    for_each (rotation_test_batch model rotate_classifier) (enumerate tests) (0, 0, 0);
  (* line 210: [(float(correct) * 100) / total] *)
  if total =? 0 then Raise ZeroDivisionError else Ok (correct, rcorrect, total).

(** Lines 121-165: the training pass of one epoch. *)
Definition rotation_train (base_loader : loader) (s : rotation_state) (epoch : Z)
    : result rotation_vars :=
  let rotate_classifier := train_mode true (rs_rotate_classifier s) in
  let model := train_mode true (rs_model s) in
  let '(batches, w) := draw (iterate base_loader) (rs_world s) in
  for_each (rotation_batch epoch base_loader) (enumerate batches)
    (RotationVars model rotate_classifier (rs_optimizer s) 0 0 w).

(** Lines 121-213: one epoch. *)
Definition rotation_epoch (base_loader base_loader_test : loader) (stop_epoch : Z)
    (params : Params) (s : rotation_state) (epoch : Z) : result rotation_state :=
  v ←r rotation_train base_loader s epoch;
  let model := rv_model v in
  let rotate_classifier := rv_rotate_classifier v in
  w ←r save_checkpoint epoch stop_epoch params
         (Checkpoint epoch (state_dict model) (Some (state_dict rotate_classifier)))
         (rv_world v);
  let model := train_mode false model in
  let rotate_classifier := train_mode false rotate_classifier in
  let '(tests, w) := draw (iterate base_loader_test) w in
  '(correct, rcorrect, total) ←r rotation_test model rotate_classifier tests;
  let w := print (MsgRotationTest epoch correct rcorrect total) w in
  Ok (RotationState model rotate_classifier (rv_optimizer v) w).

(** The record that epoch [epoch] of the rotation driver hands to
    [torch.save] from loop state [s]: the epoch and the parameters of both
    networks after its training pass. *)
Definition rotation_saved (base_loader : loader) (s : rotation_state) (epoch : Z)
    (r : checkpoint tensor) : Prop :=
  ∃ v, rotation_train base_loader s epoch = Ok v
       ∧ r = Checkpoint epoch (state_dict (rv_model v))
               (Some (state_dict (rv_rotate_classifier v))).

(** Lines 98-101: [rotate_classifier] stays unbound for any other name. *)
Definition select_rotate_classifier (params : Params) (w : world) : option module * world :=
  if String.eqb (params_model params) "WideResNet28_10" then
    let '(m, w) := draw (Linear 640 4) w in (Some m, w)
  else if String.eqb (params_model params) "ResNet18" then
    let '(m, w) := draw (Linear 512 4) w in (Some m, w)
  else (None, w).

(** Lines 98-113: the rotation head and the optimiser. *)
Definition init_rotation (model : module) (params : Params)
    (tmp : option (checkpoint tensor)) (w : world) : result (module * adam * world) :=
  let '(rotate_classifier, w) := select_rotate_classifier params w in
  rotate_classifier ←r
    (if use_gpu then rc ←r use "rotate_classifier" rotate_classifier; Ok (Some (cuda rc))
     else Ok rotate_classifier);
  '(rotate_classifier, w) ←r
    match tmp with
    | Some t =>
        match ck_rotate t with
        | Some rotate =>
            let w := print MsgLoadingRotate w in
            rc ←r use "rotate_classifier" rotate_classifier;
            rc ←r load_state_dict rc rotate;
            Ok (Some rc, w)
        | None => Ok (rotate_classifier, w)
        end
    | None => Ok (rotate_classifier, w)
    end;
  rc ←r use "rotate_classifier" rotate_classifier;
  Ok (rc, Adam [model; rc], w).

(** Lines 97-215. *)
Definition train_rotation (base_loader base_loader_test : loader) (model : module)
    (start_epoch stop_epoch : Z) (params : Params) (tmp : option (checkpoint tensor))
    (w : world) : result (module * world) :=
  '(rotate_classifier, optimizer, w) ←r init_rotation model params tmp w;
  let w := print (MsgStopEpoch start_epoch stop_epoch) w in
  s ←r for_each (rotation_epoch base_loader base_loader_test stop_epoch params)
         (range start_epoch stop_epoch)
         (RotationState model rotate_classifier optimizer w);
  Ok (rs_model s, rs_world s).

(* ===================================================================== *)
(** * [__main__]                                                           *)
(* ===================================================================== *)

(** Lines 235-238: [model] stays unbound for any other name. *)
Definition select_model (params : Params) (w : world) : option module * world :=
  if String.eqb (params_model params) "WideResNet28_10" then
    let '(m, w) := draw (wrn28_10 64) w in (Some m, w)
  else if String.eqb (params_model params) "ResNet18" then
    let '(m, w) := draw (resnet18 64) w in (Some m, w)
  else (None, w).

(** Lines 253-254. *)
Definition remap_linear (state : gmap string tensor) : result (gmap string tensor) :=
  weight ←r getitem state "module.linear.weight";
  let state := <["module.linear.L.weight_g" := weight]> state in
  bias ←r getitem state "module.linear.bias";
  let state := <["module.linear.L.weight_v" := bias]> state in
  Ok state.

(** Lines 262-263: [model.state_dict()] updated with [state]. *)
Definition model_dict_load (model : module) (state : gmap string tensor) : gmap string tensor :=
  state ∪ state_dict model.

(** Lines 245-285: the two resume paths of the mixup regimen; the result is
    the loaded network and [start_epoch]. *)
Definition resume_S2M2_R (params : Params) (model : module) (w : world)
    : result (module * Z * world) :=
  if params_resume params then
    let resume_file := get_resume_file (dom (fs w)) (params_checkpoint_dir params) in
    let w := print (MsgResumeFile resume_file) w in
    tmp ←r torch_load resume_file w;
    let start_epoch := ck_epoch tmp + 1 in
    let w := print (MsgRestoredEpoch (ck_epoch tmp)) w in
    let state := ck_state tmp in
    state ←r remap_linear state;
    let w := print MsgModel w in
    let w := print (MsgKeys (dom (state_dict model))) w in
    model ←r load_state_dict model (model_dict_load model state);
    Ok (model, start_epoch, w)
  else
    let resume_rotate_file_dir :=
      str_replace "S2M2_R" "rotation" (params_checkpoint_dir params) in
    let resume_file := get_resume_file (dom (fs w)) resume_rotate_file_dir in
    let w := print (MsgResumeFile resume_file) w in
    tmp ←r torch_load resume_file w;
    let start_epoch := ck_epoch tmp + 1 in
    let w := print (MsgRestoredEpoch (ck_epoch tmp)) w in
    let state := ck_state tmp in
    model ←r load_state_dict model state;
    Ok (model, start_epoch, w).

(** Lines 297-304. *)
Definition resume_rotation (params : Params) (model : option module) (start_epoch : Z)
    (w : world) : result (module * Z * world) :=
  if params_resume params then
    let resume_file := get_resume_file (dom (fs w)) (params_checkpoint_dir params) in
    let w := print (MsgResumeFile resume_file) w in
    tmp ←r torch_load resume_file w;
    let start_epoch := ck_epoch tmp + 1 in
    let w := print (MsgRestoredEpoch (ck_epoch tmp)) w in
    let state := ck_state tmp in
    model ←r use "model" model;
    model ←r load_state_dict model state;
    Ok (model, start_epoch, w)
  else
    model ←r use "model" model;
    Ok (model, start_epoch, w).

(** Line 226: ['%s/checkpoints/%s/%s_%s' % (configs.save_dir, params.dataset,
    params.model, params.method)] *)
Definition checkpoint_dir_of (params : Params) : string :=
  save_dir +:+ "/checkpoints/" +:+ params_dataset params +:+ "/"
  +:+ params_model params +:+ "_" +:+ params_method params.

(** Lines 220 and 226: the parameters as the rest of the entry point and the
    drivers see them. *)
Definition main_params (params : Params) : Params :=
  let params := set_resume true params in
  set_checkpoint_dir (checkpoint_dir_of params) params.

(** Lines 230-233: the two loaders, for the data directory [dir] of the
    dataset. *)
Definition main_base_loader (params : Params) (dir : string) : loader :=
  get_data_loader 32 (params_batch_size params) (dir +:+ "base.json") (params_train_aug params).

Definition main_base_loader_test (params : Params) (dir : string) : loader :=
  get_data_loader 32 (params_test_batch_size params) (dir +:+ "base.json") false.

(** Lines 218-306.  The result is the last binding of [model], if any. *)
Definition main (params : Params) (w : world) : result (option module * world) :=
  let params := set_resume true params in
  let image_size := 32 in
  dir ←r getitem data_dir (params_dataset params);
  let base_file := dir +:+ "base.json" in
  let params := set_checkpoint_dir (checkpoint_dir_of params) params in
  let start_epoch := params_start_epoch params in
  let stop_epoch := params_stop_epoch params in
  let base_loader :=
    get_data_loader image_size (params_batch_size params) base_file (params_train_aug params) in
  let base_loader_test :=
    get_data_loader image_size (params_test_batch_size params) base_file false in
  let '(model, w) := select_model params w in
  if String.eqb (params_method params) "S2M2_R" then
    model ←r use "model" model;
    let model := DataParallel model (seq 0 device_count) in
    model ←r module_cuda model;
    '(model, start_epoch, w) ←r resume_S2M2_R params model w;
    '(model, w) ←r train_manifold_mixup base_loader base_loader_test model start_epoch
                     (start_epoch + stop_epoch) params w;
    Ok (Some model, w)
  else if String.eqb (params_method params) "rotation" then
    model ←r
      (if use_gpu then
         model ←r (if (1 <? device_count)%nat
                   then model ←r use "model" model;
                        Ok (DataParallel model (seq 0 device_count))
                   else use "model" model);
         model ←r module_cuda model;
         Ok (Some model)
       else Ok model);
    '(model, start_epoch, w) ←r resume_rotation params model start_epoch w;
    '(model, w) ←r train_rotation base_loader base_loader_test model start_epoch stop_epoch
                     params None w;
    Ok (Some model, w)
  else Ok (model, w).

End Script.

(* ===================================================================== *)
(** * A small instance of the collaborators                                *)
(* ===================================================================== *)

(** Networks are their own state dictionaries over integer "tensors", every
    optimiser step adds one to each parameter, the class scores of a sample
    are its predicted label, a loader is the list of its batches, and the
    resume file is the checkpoint of the highest epoch below 10. *)
Module Toy.

Definition predict (n : nat) : list Z := replicate n 0.

Definition errors (p y : list Z) : Q := inject_Z (Z.of_nat (length y) - eq_count p y).

Definition strict_load (m d : gmap string Z) : result (gmap string Z) :=
  if bool_decide (dom d = dom m) then Ok d
  else Raise (RuntimeError "Error(s) in loading state_dict").

Definition backbone (n : Z) (g : nat) : gmap string Z * nat :=
  ({[ "module.conv1.weight" := n;
      "module.linear.weight" := 0; "module.linear.bias" := 0;
      "module.linear.L.weight_g" := 0; "module.linear.L.weight_v" := 0 ]}, S g).

Definition head (i o : Z) (g : nat) : gmap string Z * nat :=
  ({[ "0.weight" := i; "0.bias" := o ]}, S g).

Definition resume_file (files : gset string) (dir : string) : option string :=
  find (fun f => bool_decide (f ∈ files)) (outfile dir <$> reverse (seqZ 0 10)).

Definition img (k : Z) : tensor3 Z :=
  Tensor3 1 2 2 (fun c i j => k + 10 * Z.of_nat i + Z.of_nat j).

Definition batches : list (list (tensor3 Z) * list Z) :=
  [([img 100; img 200], [7; 8]); ([img 300], [9])].

#[refine] Definition framework (gpu : bool) : Framework := {|
  pixel := Z;
  tensor := Z;
  module := gmap string Z;
  features := nat;
  logits := list Z;
  adam := nat;
  rng := nat;
  loader := list (list (tensor3 Z) * list Z);
  use_gpu := gpu;
  device_count := 1;
  cuda := id;
  state_dict := id;
  load_state_dict := strict_load;
  train_mode := fun _ m => m;
  DataParallel := fun m _ => m;
  Linear := head;
  forward := fun _ x => (length x, predict (length x));
  forward_mixup := fun _ x y _ _ g => ((predict (length x), y, reverse y), S g);
  classify := fun _ f => predict f;
  CrossEntropyLoss := errors;
  argmax := id;
  Adam := fun _ => O;
  adam_step := fun o _ m => (S o, Z.succ <$> m);
  adam_step2 := fun o _ m h => (S o, (Z.succ <$> m, Z.succ <$> h));
  np_random_beta := fun _ _ g => ((1 # 4)%Q, S g);
  wrn28_10 := backbone;
  resnet18 := backbone;
  save_dir := "out";
  data_dir := {[ "cifar" := "data/cifar/" ]};
  get_data_loader := fun _ _ _ _ => batches;
  iterate := fun l g => (l, g);
  len := length;
  get_resume_file := resume_file
|}.
Proof. intros m x. simpl. unfold predict. by rewrite length_replicate. Defined.

Definition params (model method : string) (stop_epoch save_freq : Z) : Params :=
  mkParams "cifar" model method 1 16 2 0 stop_epoch save_freq false false "ckpt".

Definition empty_world : worldT Z nat := World ∅ O [].

(** A world whose only file is the checkpoint of [epoch] in [dir]. *)
Definition resume_world (dir : string) (epoch : Z) (state : gmap string Z)
    (rotate : option (gmap string Z)) : worldT Z nat :=
  World {[ outfile dir epoch := Checkpoint epoch state rotate ]} O [].

(** The variables of the rotation driver before its first batch. *)
Definition rotation_vars0 : rotation_varsT (gmap string Z) nat Z nat :=
  RotationVars (backbone 3 0).1 (head 512 4 0).1 O 0 0 empty_world.

(** The checkpoint directory of the entry point for ResNet18 under a method. *)
Definition main_dir (method : string) : string :=
  "out/checkpoints/cifar/ResNet18_" +:+ method.

Definition plain_state : gmap string Z :=
  {[ "module.conv1.weight" := 1; "module.linear.weight" := 5; "module.linear.bias" := 6 ]}.

Definition full_state : gmap string Z := (backbone 1 0).1.

End Toy.

(* ===================================================================== *)
(** * File names                                                           *)
(* ===================================================================== *)

Example str_replace_dir :
  str_replace "S2M2_R" "rotation" "ckpt/cifar/WideResNet28_10_S2M2_R"
  = "ckpt/cifar/WideResNet28_10_rotation"%string.
Proof. reflexivity. Qed.

Example outfile_samples :
  outfile "a/b" 12 = "a/b/12.tar"%string ∧ outfile "a/" (-3) = "a/-3.tar"%string
  ∧ outfile "" 0 = "0.tar"%string.
Proof. repeat split; reflexivity. Qed.

Lemma string_length_app (s t : string) :
  String.length (s +:+ t) = (String.length s + String.length t)%nat.
Proof. induction s as [|c s IH]; simpl; [done | by rewrite IH]. Qed.

Lemma string_app_inj_r (s x y : string) : x +:+ s = y +:+ s → x = y.
Proof.
  revert y. induction x as [|c x IH]; intros [|d y] H.
  - done.
  - apply (f_equal String.length) in H.
    rewrite !string_length_app in H. simpl in H. lia.
  - apply (f_equal String.length) in H.
    rewrite !string_length_app in H. simpl in H. lia.
  - change (String c (x +:+ s) = String d (y +:+ s)) in H.
    injection H as -> H. f_equal. by apply IH.
Qed.

Lemma format_d_inj (a b : Z) : format_d a = format_d b → a = b.
Proof.
  unfold format_d. intros H. apply to_int_inj.
  apply (f_equal NilEmpty.int_of_string) in H.
  rewrite !NilEmpty.isi in H. congruence.
Qed.

Lemma format_d_no_slash (n : Z) :
  starts_with_slash (format_d n +:+ ".tar") = false.
Proof.
  unfold format_d. destruct (Z.to_int n) as [d|d]; [|done].
  destruct d; done.
Qed.

Lemma os_path_join_inj (a b b' : string) :
  starts_with_slash b = false → starts_with_slash b' = false →
  os_path_join a b = os_path_join a b' → b = b'.
Proof.
  unfold os_path_join. intros -> ->.
  destruct (_ || _)%bool; intros H.
  - by apply (inj (String.app a)) in H.
  - apply (inj (String.app a)), (inj (String.app "/")) in H. done.
Qed.

(** Two epochs never share a checkpoint file. *)
Lemma outfile_inj (dir : string) (e1 e2 : Z) :
  outfile dir e1 = outfile dir e2 → e1 = e2.
Proof.
  unfold outfile. intros H.
  apply os_path_join_inj in H; try by apply format_d_no_slash.
  by apply string_app_inj_r, format_d_inj in H.
Qed.

(* ===================================================================== *)
(** * Loops and the world                                                  *)
(* ===================================================================== *)

Lemma for_each_app {A S} (body : S → A → result S) (l1 l2 : list A) (s : S) :
  for_each body (l1 ++ l2) s = (s' ←r for_each body l1 s; for_each body l2 s').
Proof.
  revert s. induction l1 as [|a l1 IH]; intros s; simpl; [done|].
  destruct (body s a); simpl; [apply IH | done].
Qed.

(** A loop whose body cannot fail on the states it meets runs to its end. *)
Lemma for_each_total {A S} (I : S → Prop) (body : S → A → result S) (l : list A) (s : S) :
  I s →
  (∀ s a, a ∈ l → I s → ∃ s', body s a = Ok s' ∧ I s') →
  ∃ s', for_each body l s = Ok s' ∧ I s'.
Proof.
  revert s. induction l as [|a l IH]; intros s Hs Hbody; simpl; [eauto|].
  destruct (Hbody s a) as (s1 & -> & Hs1); [left | done |]. simpl.
  apply IH; [done|]. intros s2 b Hb. apply Hbody. by right.
Qed.

(** A property kept by every iteration holds at the end of the loop. *)
Lemma for_each_invariant {A S} (I : S → Prop) (body : S → A → result S) (l : list A)
    (s s' : S) :
  I s →
  (∀ s a s', a ∈ l → I s → body s a = Ok s' → I s') →
  for_each body l s = Ok s' → I s'.
Proof.
  revert s. induction l as [|a l IH]; intros s Hs Hbody; simpl.
  - by intros [= <-].
  - destruct (body s a) as [s1|] eqn:E; simpl; [|done].
    apply IH; [eapply Hbody; [left | done | done] |].
    intros s2 b s3 Hb. apply Hbody. by right.
Qed.

Lemma fold_left_invariant {A S} (I : S → Prop) (body : S → A → S) (l : list A) (s : S) :
  I s → (∀ s a, I s → I (body s a)) → I (fold_left body l s).
Proof. revert s. induction l; simpl; auto. Qed.


Lemma elem_of_range (a b k : Z) : k ∈ range a b ↔ a ≤ k < b.
Proof. unfold range. rewrite elem_of_seqZ. lia. Qed.

Lemma NoDup_range (a b : Z) : NoDup (range a b).
Proof. apply NoDup_seqZ. Qed.

Section World.
Context {F : Framework}.

Lemma fs_print m (w : world) : fs (print m w) = fs w.
Proof. done. Qed.

Lemma fs_draw {A} (f : rng → A * rng) (w : world) : fs (draw f w).2 = fs w.
Proof. unfold draw. by destruct (f (gen w)). Qed.

Lemma stdout_draw {A} (f : rng → A * rng) (w : world) : stdout (draw f w).2 = stdout w.
Proof. unfold draw. by destruct (f (gen w)). Qed.

Lemma torch_load_save record path (w : world) :
  torch_load (Some path) (torch_save record path w) = Ok record.
Proof. unfold torch_load, torch_save. simpl. by rewrite lookup_insert_eq. Qed.

End World.

(* ===================================================================== *)
(** * The mixup loss                                                       *)
(* ===================================================================== *)

(** C3.  The loss of a mixup batch is [lam] times the cross-entropy against
    the first label ordering plus [1 - lam] times the cross-entropy against
    the second, for every [lam]; it is the cross-entropy against the second
    ordering at [lam = 0] and against the first at [lam = 1].  This holds of
    [mixup_criterion] for any criterion, of the loss the driver
    differentiates, and of the loss it adds to [train_loss]. *)
Theorem mixup_loss_is_lam_blend {F : Framework} :
  (∀ (P Y : Type) (criterion : P → Y → Q) (pred : P) (y_a y_b : Y) (lam : Q),
      (mixup_criterion criterion pred y_a y_b lam
       == lam * criterion pred y_a + (1 - lam) * criterion pred y_b)%Q
      ∧ (mixup_criterion criterion pred y_a y_b 0 == criterion pred y_b)%Q
      ∧ (mixup_criterion criterion pred y_a y_b 1 == criterion pred y_a)%Q)
  ∧ (∀ (input_var : list image) (target_var : list Z) (alpha lam : Q) (g : rng)
       (model : module),
      let '((outputs, target_a, target_b), _) :=
        forward_mixup model input_var target_var alpha lam g in
      (mixup_loss input_var target_var alpha lam g model
       == lam * CrossEntropyLoss outputs target_a
          + (1 - lam) * CrossEntropyLoss outputs target_b)%Q)
  ∧ (∀ (params : Params) (base_loader : loader) (v : mixup_vars) (batch_idx : nat)
       (input_var : list image) (target_var : list Z),
      let '(lam, w) :=
        draw (np_random_beta (params_alpha params) (params_alpha params)) (mx_world v) in
      (mx_train_loss (mixup_batch params base_loader v (batch_idx, (input_var, target_var)))
       == mx_train_loss v
          + mixup_loss input_var target_var (params_alpha params) lam (gen w) (mx_model v))%Q).
Proof.
  split; [|split].
  - intros. unfold mixup_criterion. repeat split; ring.
  - intros. unfold mixup_loss.
    destruct (forward_mixup _ _ _ _ _ _) as [[[outputs target_a] target_b] g'].
    unfold mixup_criterion. ring.
  - intros. unfold mixup_batch, mixup_loss.
    destruct (draw (np_random_beta _ _) _) as [lam w].
    unfold draw at 1.
    destruct (forward_mixup _ _ _ _ _ _) as [[[outputs target_a] target_b] g'].
    destruct (adam_step _ _ _) as [optimizer model]. simpl. ring.
Qed.

(* ===================================================================== *)
(** * The rotated batch                                                    *)
(* ===================================================================== *)

Lemma lookup_chunks {A B} (f : A → list B) (n : nat) (l : list A) (k r : nat) (a : A) :
  (∀ a, length (f a) = n) → l !! k = Some a → (r < n)%nat →
  (l ≫= f) !! (n * k + r)%nat = f a !! r.
Proof.
  intros Hf. revert k. induction l as [|b l IH]; intros k Hk Hr; [done|].
  rewrite bind_cons. destruct k as [|k]; simpl in Hk.
  - injection Hk as ->. rewrite Nat.mul_0_r. simpl.
    apply lookup_app_l. by rewrite Hf.
  - rewrite lookup_app_r by (rewrite Hf; lia).
    rewrite Hf. replace (n * S k + r - n)%nat with (n * k + r)%nat by lia.
    by apply IH.
Qed.

Lemma length_chunks {A B} (f : A → list B) (n : nat) (l : list A) :
  (∀ a, length (f a) = n) → length (l ≫= f) = (n * length l)%nat.
Proof.
  intros Hf. induction l as [|b l IH]; [simpl; lia|].
  rewrite bind_cons, length_app, Hf, IH. simpl. lia.
Qed.

Lemma nonempty_chunks {A B} (f : A → list B) (n : nat) (l : list A) :
  l ≠ [] → (∀ a, length (f a) = S n) → l ≫= f ≠ [].
Proof.
  intros Hl Hf E. apply (f_equal length) in E.
  rewrite (length_chunks f (S n)) in E by done.
  destruct l; simpl in E; [done | lia].
Qed.

Section Rotation.
Context {F : Framework}.

Lemma rot90_turned (t : image) :
  same_tensor (rot90 t) (turned 1 t)
  ∧ same_tensor (rot90 (rot90 t)) (turned 2 t)
  ∧ same_tensor (rot90 (rot90 (rot90 t))) (turned 3 t).
Proof.
  repeat split; simpl; intros c i j Hc Hi Hj; f_equal; lia.
Qed.

Lemma rotations_turned (t u : image) (r : nat) :
  rotations t !! r = Some u → same_tensor u (turned r t).
Proof.
  destruct (rot90_turned t) as (H1 & H2 & H3).
  destruct r as [|[|[|[|r]]]]; simpl; intros [= <-]; try done.
Qed.

(** The loop over [j], started at sample [k] for [n] samples. *)
Lemma rotate_samples (x : list image) (y : list Z) (n k : nat) x_ y_ a_ :
  (k + n ≤ length x)%nat → (k + n ≤ length y)%nat →
  for_each (rotate_sample x y) (seq k n) (x_, y_, a_)
  = Ok (x_ ++ (take n (drop k x) ≫= rotations),
        y_ ++ (take n (drop k y) ≫= replicate 4),
        a_ ++ (take n (drop k x) ≫= fun _ => [0; 1; 2; 3])).
Proof.
  revert k x_ y_ a_. induction n as [|n IH]; intros k x_ y_ a_ Hx Hy; simpl.
  - by rewrite !app_nil_r.
  - destruct (lookup_lt_is_Some_2 x k) as [xk Hxk]; [lia|].
    destruct (lookup_lt_is_Some_2 y k) as [yk Hyk]; [lia|].
    unfold index. rewrite Hxk, Hyk. simpl.
    rewrite IH by lia.
    rewrite (drop_S x xk k Hxk), (drop_S y yk k Hyk). simpl.
    by rewrite <- !app_assoc.
Qed.

Lemma well_formed_inv (x : list image) (y : list Z) :
  well_formed (x, y) = true →
  x ≠ [] ∧ length y = length x
  ∧ ∃ c s, Forall (fun t => shape t = (c, s, s)) x.
Proof.
  unfold well_formed. simpl. destruct x as [|t x]; [done|].
  rewrite !andb_true_iff, !Nat.eqb_eq, forallb_forall.
  intros [[Hsq Hall] Hlen]. split; [done|]. split; [done|].
  exists (size0 t), (size1 t). apply Forall_forall. intros u Hu.
  apply list_elem_of_In, Hall, bool_decide_eq_true in Hu.
  rewrite Hu. unfold shape. by rewrite <- Hsq.
Qed.

Lemma stack_same_shape {A S} `{EqDecision S} (shape_of : A → S) (ts : list A) (sh : S) :
  ts ≠ [] → Forall (fun t => shape_of t = sh) ts → stack shape_of ts = Ok ts.
Proof.
  destruct ts as [|t ts]; [done|]. intros _ Hall. unfold stack.
  assert (forallb (fun u => bool_decide (shape_of u = shape_of t)) (t :: ts) = true) as ->;
    [|done].
  apply forallb_forall. intros u Hu. apply bool_decide_eq_true.
  apply list_elem_of_In in Hu.
  rewrite Forall_forall in Hall. rewrite (Hall u Hu). symmetry. apply Hall. left.
Qed.

(** The rotated batch of a well-formed batch: the loop and the three
    [torch.stack] calls go through, and the lists are the concatenation,
    sample by sample, of the four rotations, the label four times, and
    [0, 1, 2, 3]. *)
Lemma rotate_batch_ok (x : list image) (y : list Z) :
  well_formed (x, y) = true →
  rotate_batch (x, y)
  = Ok (x ≫= rotations, y ≫= replicate 4, x ≫= fun _ => [0; 1; 2; 3]).
Proof.
  intros (Hne & Hlen & c & s & Hall)%well_formed_inv. unfold rotate_batch.
  rewrite rotate_samples by (simpl; lia). simpl.
  rewrite drop_0, firstn_all. rewrite <- Hlen, firstn_all.
  assert (y ≠ []) as Hney by (destruct x, y; done).
  rewrite (stack_same_shape shape _ (c, s, s)); first last.
  - apply Forall_bind. eapply Forall_impl; [exact Hall|].
    intros u Hu. unfold shape in *. injection Hu as <- <- Hs.
    repeat constructor; simpl; unfold shape; simpl; congruence.
  - by apply (nonempty_chunks _ 3).
  - simpl. rewrite (stack_same_shape _ _ ()); first last.
    { by apply Forall_true. } { by apply (nonempty_chunks _ 3). }
    simpl. rewrite (stack_same_shape _ _ ()); first last.
    { by apply Forall_true. } { by apply (nonempty_chunks _ 3). }
    done.
Qed.

End Rotation.

Lemma bind_const_replicate {A B} (l : list A) (c : list B) :
  (l ≫= fun _ => c) = mjoin (replicate (length l) c).
Proof. induction l as [|a l IH]; [done|]. rewrite bind_cons, IH. done. Qed.

(** C4.  The rotated batch of a batch of [n] images has [4 n] samples; the
    samples [4 k], [4 k + 1], [4 k + 2], [4 k + 3] are image [k] turned by
    0, 90, 180 and 270 degrees, carry the class label of image [k], and carry
    the rotation labels 0, 1, 2, 3: the rotation labels are [0, 1, 2, 3]
    repeated once per image. *)
Theorem rotate_batch_four_rotations {F : Framework} (x : list image) (y : list Z) :
  well_formed (x, y) = true →
  ∃ x_ y_ a_,
    rotate_batch (x, y) = Ok (x_, y_, a_)
    ∧ length x_ = (4 * length x)%nat
    ∧ length y_ = (4 * length x)%nat
    ∧ length a_ = (4 * length x)%nat
    ∧ a_ = mjoin (replicate (length x) [0; 1; 2; 3])
    ∧ ∀ k r xk yk, x !! k = Some xk → y !! k = Some yk → (r < 4)%nat →
        ∃ t, x_ !! (4 * k + r)%nat = Some t
             ∧ same_tensor t (turned r xk)
             ∧ y_ !! (4 * k + r)%nat = Some yk
             ∧ a_ !! (4 * k + r)%nat = Some (Z.of_nat r).
Proof.
  intros Hwf. destruct (well_formed_inv x y Hwf) as (_ & Hlen & _).
  eexists _, _, _. split; [by apply rotate_batch_ok|].
  split; [by apply length_chunks|].
  split; [rewrite <- Hlen; by apply length_chunks|].
  split; [by apply length_chunks|].
  split; [apply bind_const_replicate|].
  intros k r xk yk Hxk Hyk Hr.
  destruct (lookup_lt_is_Some_2 (rotations xk) r) as [t Ht]; [simpl; lia|].
  exists t. split; [|split; [|split]].
  - by rewrite (lookup_chunks rotations 4 x k r xk).
  - by apply rotations_turned.
  - rewrite (lookup_chunks (replicate 4) 4 y k r yk); [| done | done | done].
    by apply lookup_replicate_2.
  - rewrite (lookup_chunks (fun _ => [0; 1; 2; 3]) 4 x k r xk); [| done | done | done].
    by destruct r as [|[|[|[|r]]]]; [.. | lia].
Qed.

(** A batch of two 2 x 2 images: eight samples, rotation labels
    0, 1, 2, 3, 0, 1, 2, 3. *)
Lemma rotate_batch_four_rotations_witness :
  ∃ x_ y_ a_,
    @rotate_batch (Toy.framework true) ([Toy.img 100; Toy.img 200], [7; 8]) = Ok (x_, y_, a_)
    ∧ length x_ = 8%nat ∧ a_ = [0; 1; 2; 3; 0; 1; 2; 3].
Proof.
  destruct (@rotate_batch_four_rotations (Toy.framework true)
    [Toy.img 100; Toy.img 200] [7; 8]) as (x_ & y_ & a_ & H & Hx & _ & _ & Ha & _);
    [reflexivity|].
  exists x_, y_, a_. split; [exact H|]. split; [exact Hx | exact Ha].
Defined.

(** C5.  On a batch the rotation driver differentiates
    [0.5 * CE(scores, y_) + 0.5 * CE(rotate_scores, a_)], where [y_] is the
    class labels, each four times, and [a_] is [0, 1, 2, 3] once per image:
    that function of the two networks is what the optimiser step receives. *)
Theorem rotation_loss_is_half_sum {F : Framework} (epoch : Z) (base_loader : loader)
    (v : rotation_vars) (i : nat) (x : list image) (y : list Z) :
  well_formed (x, y) = true →
  let x_ := x ≫= rotations in
  let y_ := y ≫= replicate 4 in
  let a_ := mjoin (replicate (length x) [0; 1; 2; 3]) in
  rotate_batch (x, y) = Ok (x_, y_, a_)
  ∧ (∀ model rotate_classifier : module,
        (rotation_loss x_ y_ a_ model rotate_classifier
         == (1 # 2) * CrossEntropyLoss (forward model x_).2 y_
            + (1 # 2) * CrossEntropyLoss (classify rotate_classifier (forward model x_).1) a_)%Q)
  ∧ ∃ v', rotation_batch epoch base_loader v (i, (x, y)) = Ok v'
          ∧ (rv_optimizer v', (rv_model v', rv_rotate_classifier v'))
            = adam_step2 (rv_optimizer v) (rotation_loss x_ y_ a_)
                (rv_model v) (rv_rotate_classifier v).
Proof.
  intros Hwf x_ y_ a_.
  assert (rotate_batch (x, y) = Ok (x_, y_, a_)) as Hrot.
  { rewrite rotate_batch_ok by done. unfold a_. by rewrite bind_const_replicate. }
  split; [done|]. split.
  - intros model rotate_classifier. unfold rotation_loss.
    destruct (forward model x_) as [f scores]. simpl.
    unfold Qeq. simpl. lia.
  - unfold rotation_batch. rewrite Hrot. simpl.
    destruct (forward (rv_model v) x_) as [f scores].
    destruct (adam_step2 _ _ _ _) as [optimizer [model rotate_classifier]].
    eexists. split; [done|]. done.
Qed.

(** The same batch in the rotation driver. *)
Lemma rotation_loss_is_half_sum_witness :
  ∃ v', @rotation_batch (Toy.framework true) 0 Toy.batches
          Toy.rotation_vars0 (O, ([Toy.img 100; Toy.img 200], [7; 8])) = Ok v'.
Proof.
  destruct (@rotation_loss_is_half_sum (Toy.framework true) 0 Toy.batches
    Toy.rotation_vars0 O [Toy.img 100; Toy.img 200] [7; 8]) as (_ & _ & v' & Hv' & _); [reflexivity|].
  exists v'. exact Hv'.
Defined.

Lemma rotate_loop {F : Framework} (x : list image) (y : list Z) :
  for_each (rotate_sample x y) (seq 0 (length x)) ([], [], [])
  = if decide (length x ≤ length y)%nat
    then Ok (x ≫= rotations, take (length x) y ≫= replicate 4,
             x ≫= fun _ => [0; 1; 2; 3])
    else Raise IndexError.
Proof.
  destruct (decide _) as [Hle|Hlt].
  - rewrite rotate_samples by (simpl; lia). simpl. by rewrite drop_0, firstn_all.
  - replace (length x) with (length y + S (length x - S (length y)))%nat at 1 by lia.
    rewrite seq_app, for_each_app, rotate_samples by (simpl; lia). simpl.
    destruct (lookup_lt_is_Some_2 x (length y)) as [xk Hxk]; [lia|].
    unfold index. rewrite Hxk. simpl. by rewrite lookup_ge_None_2.
Qed.

Lemma stack_labels {A} (l : list A) :
  l ≠ [] → stack (fun _ : A => ()) l = Ok l.
Proof. intros Hl. apply (stack_same_shape _ _ ()); [done | by apply Forall_true]. Qed.

(** What a rotated batch is when there is one. *)
Lemma rotate_batch_inv {F : Framework} (x : list image) (y : list Z) x_ y_ a_ :
  rotate_batch (x, y) = Ok (x_, y_, a_) →
  x ≠ [] ∧ (length x ≤ length y)%nat
  ∧ x_ = x ≫= rotations
  ∧ y_ = take (length x) y ≫= replicate 4
  ∧ a_ = x ≫= fun _ => [0; 1; 2; 3].
Proof.
  destruct (decide (x = [])) as [->|Hne]; [done|].
  unfold rotate_batch. rewrite rotate_loop.
  destruct (decide _) as [Hle|]; simpl; [|done].
  destruct (stack shape (x ≫= rotations)) as [x1|] eqn:Hx; simpl; [|done].
  assert (take (length x) y ≠ []) as Hney.
  { intros E%(f_equal length). rewrite length_take in E. destruct x; [done | cbn [length] in *; lia]. }
  rewrite stack_labels by (by apply (nonempty_chunks _ 3)). simpl.
  rewrite stack_labels by (by apply (nonempty_chunks _ 3)). simpl.
  intros [= <- <- <-]. repeat split; try done.
  unfold stack in Hx. destruct (x ≫= rotations); [done|].
  by destruct (forallb _ _); simplify_eq.
Qed.

Lemma eq_count_bounds (p y : list Z) :
  0 ≤ eq_count p y ∧ eq_count p y ≤ Z.of_nat (length p)
  ∧ eq_count p y ≤ Z.of_nat (length y).
Proof.
  unfold eq_count.
  pose proof (length_filter (fun py : Z * Z => py.1 = py.2) (zip p y)) as H.
  rewrite length_zip_with in H. lia.
Qed.

Lemma rotation_test_samples_counts {F : Framework} (model rotate_classifier : module)
    (l : list batch) (c r t c' r' t' : Z) :
  for_each (rotation_test_sample model rotate_classifier) l (c, r, t) = Ok (c', r', t') →
  t' = t + 4 * Z.of_nat (length (l ≫= fst))
  ∧ c ≤ c' ≤ c + (t' - t) ∧ r ≤ r' ≤ r + (t' - t)
  ∧ Forall (fun xy => xy.1 ≠ [] ∧ (length xy.1 ≤ length xy.2)%nat) l.
Proof.
  revert c r t. induction l as [|[x y] l IH]; intros c r t.
  - simpl. intros [= <- <- <-]. rewrite Forall_nil. lia.
  - change (for_each (rotation_test_sample model rotate_classifier) ((x, y) :: l) (c, r, t))
      with (s' ←r rotation_test_sample model rotate_classifier (c, r, t) (x, y);
            for_each (rotation_test_sample model rotate_classifier) l s').
    unfold rotation_test_sample at 1.
    destruct (rotate_batch (x, y)) as [[[x_ y_] a_]|] eqn:Hrot; [|done].
    apply rotate_batch_inv in Hrot as (Hne & Hle & -> & -> & ->).
    pose proof (argmax_forward model (x ≫= rotations)) as Hlen.
    cbn [rbind].
    destruct (forward model (x ≫= rotations)) as [f scores]. cbn [snd] in Hlen. cbn [rbind].
    intros (-> & Hc & Hr & Hall)%IH. rewrite Forall_cons.
    rewrite bind_cons, length_app. cbn [fst snd].
    pose proof (eq_count_bounds (argmax scores) (take (length x) y ≫= replicate 4)) as Hb1.
    pose proof (eq_count_bounds (argmax (classify rotate_classifier f))
                  (x ≫= fun _ => [0; 1; 2; 3])) as Hb2.
    rewrite Hlen, (length_chunks rotations 4) in * by done.
    rewrite (length_chunks (fun _ : image => [0; 1; 2; 3]) 4) in Hb2 by done.
    repeat split; try done; lia.
Qed.

Lemma rotation_test_from {F : Framework} (model rotate_classifier : module)
    (tests : list batch) (k : nat) (v : Z * Z * Z) :
  for_each (rotation_test_batch model rotate_classifier)
    (zip (seq k (length tests)) tests) v
  = for_each (rotation_test_sample model rotate_classifier) (take (10 - k) tests) v.
Proof.
  revert k v. induction tests as [|xy tests IH]; intros k v; simpl.
  - by destruct (10 - k)%nat.
  - destruct (Nat.ltb_spec k 10) as [Hk|Hk].
    + replace (10 - k)%nat with (S (10 - S k)) by lia. simpl.
      destruct (rotation_test_sample _ _ _ _); simpl; [apply IH | done].
    + simpl. rewrite IH.
      replace (10 - k)%nat with 0%nat by lia.
      by replace (10 - S k)%nat with 0%nat by lia.
Qed.

(** C6.  The evaluation after an epoch of the rotation driver processes the
    first [min(10, n)] of the [n] held-out batches and no other.  The guarded
    loop over the whole stream is the loop, without the guard, over its first
    ten batches, so that the evaluation is the fold of the per-batch
    evaluation over those batches followed by the division by [total];
    cutting the stream after its tenth batch or later, or changing it after
    its tenth batch, changes nothing.  When the evaluation returns, each of
    the first ten batches has been rotated and [total] is four times the
    number of their images.  In every epoch of the driver that finishes, the
    accuracy line is that evaluation of the held-out stream of the epoch. *)
Theorem rotation_test_first_ten {F : Framework} (model rotate_classifier : module)
    (tests : list batch) :
  (∀ v, for_each (rotation_test_batch model rotate_classifier) (enumerate tests) v
        = for_each (rotation_test_sample model rotate_classifier) (take 10 tests) v)
  ∧ length (take 10 tests) = (10 `min` length tests)%nat
  ∧ rotation_test model rotate_classifier tests
    = ('(correct, rcorrect, total) ←r
         for_each (rotation_test_sample model rotate_classifier) (take 10 tests) (0, 0, 0);
       if total =? 0 then Raise ZeroDivisionError else Ok (correct, rcorrect, total))
  ∧ rotation_test model rotate_classifier tests
    = rotation_test model rotate_classifier (take 10 tests)
  ∧ (∀ k, rotation_test model rotate_classifier (take (10 + k) tests)
          = rotation_test model rotate_classifier tests)
  ∧ (∀ tests', take 10 tests' = take 10 tests →
               rotation_test model rotate_classifier tests'
               = rotation_test model rotate_classifier tests)
  ∧ (∀ correct rcorrect total,
        rotation_test model rotate_classifier tests = Ok (correct, rcorrect, total) →
        total = 4 * Z.of_nat (length (take 10 tests ≫= fst))
        ∧ Forall (fun xy => ∃ x_ y_ a_, rotate_batch xy = Ok (x_, y_, a_)) (take 10 tests))
  ∧ (∀ (base_loader base_loader_test : loader) (stop_epoch : Z) (params : Params)
       (s s' : rotation_state) (epoch : Z),
        rotation_epoch base_loader base_loader_test stop_epoch params s epoch = Ok s' →
        ∃ v w1 correct rcorrect total,
          rotation_train base_loader s epoch = Ok v
          ∧ save_checkpoint epoch stop_epoch params
              (Checkpoint epoch (state_dict (rv_model v))
                 (Some (state_dict (rv_rotate_classifier v)))) (rv_world v) = Ok w1
          ∧ rotation_test (train_mode false (rv_model v))
              (train_mode false (rv_rotate_classifier v))
              (iterate base_loader_test (gen w1)).1 = Ok (correct, rcorrect, total)
          ∧ total
            = 4 * Z.of_nat (length (take 10 (iterate base_loader_test (gen w1)).1 ≫= fst))
          ∧ stdout (rs_world s')
            = stdout w1 ++ [MsgRotationTest epoch correct rcorrect total]).
Proof.
  assert (∀ m h l v, for_each (rotation_test_batch m h) (enumerate l) v
      = for_each (rotation_test_sample m h) (take 10 l) v) as Hloop.
  { intros m h l v. unfold enumerate. by rewrite rotation_test_from. }
  assert (∀ m h l, rotation_test m h l
      = ('(correct, rcorrect, total) ←r
           for_each (rotation_test_sample m h) (take 10 l) (0, 0, 0);
         if total =? 0 then Raise ZeroDivisionError else Ok (correct, rcorrect, total)))
    as Htest.
  { intros m h l. unfold rotation_test. by rewrite Hloop. }
  assert (∀ m h l correct rcorrect total,
      rotation_test m h l = Ok (correct, rcorrect, total) →
      total = 4 * Z.of_nat (length (take 10 l ≫= fst))
      ∧ Forall (fun xy => ∃ x_ y_ a_, rotate_batch xy = Ok (x_, y_, a_)) (take 10 l))
    as Hcount.
  { intros m h l correct rcorrect total. rewrite Htest.
    destruct (for_each _ _ _) as [[[c r] t]|] eqn:Hrun; simpl; [|done].
    destruct (t =? 0); [done|]. intros [= -> -> ->]. split.
    - apply rotation_test_samples_counts in Hrun as (-> & _). lia.
    - clear Htest Hloop. revert Hrun. generalize (0, 0, 0).
      induction (take 10 l) as [|xy l' IH]; intros v; [constructor|].
      simpl. destruct (rotation_test_sample m h v xy) as [v1|] eqn:Hxy; simpl; [|done].
      intros Hrest. constructor; [|by eapply IH].
      unfold rotation_test_sample in Hxy. destruct v as [[c0 r0] t0].
      destruct (rotate_batch xy) as [[[x_ y_] a_]|]; [eauto | done]. }
  split; [apply Hloop|]. split; [apply length_take|]. split; [apply Htest|].
  split; [by rewrite (Htest _ _ (take 10 tests)), take_take, Htest|].
  split.
  { intros k. rewrite (Htest _ _ (take (10 + k) tests)), take_take, Htest.
    by replace (10 `min` (10 + k))%nat with 10%nat by lia. }
  split; [by intros tests' Heq; rewrite !Htest, Heq|].
  split; [apply Hcount|].
  intros base_loader base_loader_test stop_epoch params s s' epoch. unfold rotation_epoch.
  destruct (rotation_train base_loader s epoch) as [v|]; simpl; [|done].
  destruct (save_checkpoint _ _ _ _ _) as [w1|] eqn:Hsave; simpl; [|done].
  unfold draw. destruct (iterate base_loader_test (gen w1)) as [held_out g] eqn:Hiter.
  destruct (rotation_test _ _ held_out) as [[[correct rcorrect] total]|] eqn:Heval;
    simpl; [|done].
  intros [= <-]. exists v, w1, correct, rcorrect, total. rewrite Hiter. simpl.
  destruct (Hcount _ _ _ _ _ _ Heval) as [Htotal _]. done.
Qed.

(** A stream of twelve batches of one image: the evaluation counts the forty
    samples of its first ten batches. *)
Lemma rotation_test_first_ten_witness :
  ∃ correct rcorrect,
    @rotation_test (Toy.framework true) (Toy.backbone 3 0).1 (Toy.head 512 4 0).1
      (replicate 12 ([Toy.img 100], [7])) = Ok (correct, rcorrect, 40).
Proof.
  destruct (@rotation_test (Toy.framework true) (Toy.backbone 3 0).1 (Toy.head 512 4 0).1
              (replicate 12 ([Toy.img 100], [7]))) as [[[correct rcorrect] total]|] eqn:Htest;
    [|vm_compute in Htest; discriminate Htest].
  destruct (@rotation_test_first_ten (Toy.framework true) (Toy.backbone 3 0).1
              (Toy.head 512 4 0).1 (replicate 12 ([Toy.img 100], [7])))
    as (_ & _ & _ & _ & _ & _ & Hcount & _).
  destruct (Hcount correct rcorrect total Htest) as [Htotal _].
  simpl in Htotal. subst total. exists correct, rcorrect. reflexivity.
Defined.

(* ===================================================================== *)
(** * The checkpoint cadence                                               *)
(* ===================================================================== *)

Lemma save_due_spec (epoch stop_epoch save_freq : Z) :
  save_freq ≠ 0 →
  ∃ b, save_due epoch stop_epoch save_freq = Ok b
       ∧ (b = true ↔ checkpoint_epoch save_freq stop_epoch epoch).
Proof.
  intros HF. unfold save_due. destruct (Z.eqb_spec save_freq 0) as [|_]; [done|].
  eexists. split; [done|]. unfold checkpoint_epoch.
  rewrite orb_true_iff, !Z.eqb_eq, Z.mod_divide by done. done.
Qed.

Lemma save_due_inv (epoch stop_epoch save_freq : Z) (b : bool) :
  save_due epoch stop_epoch save_freq = Ok b →
  save_freq ≠ 0 ∧ (b = true ↔ checkpoint_epoch save_freq stop_epoch epoch).
Proof.
  intros H. assert (save_freq ≠ 0) as HF.
  { intros ->. by unfold save_due in H. }
  split; [done|]. destruct (save_due_spec epoch stop_epoch save_freq HF) as (b' & Hb' & Hiff).
  congruence.
Qed.

Section Cadence.
Context {F : Framework} {S : Type}.
Variable the_world : S → world.
Variable step : S → Z → result S.
Variable params : Params.
Variable stop_epoch : Z.
(** [saved s epoch r]: from state [s], epoch [epoch] hands [r] to [torch.save]. *)
Variable saved : S → Z → checkpoint tensor → Prop.

Hypothesis step_saves : ∀ s epoch s',
  step s epoch = Ok s' →
  params_save_freq params ≠ 0
  ∧ ∃ r, saved s epoch r
    ∧ ((checkpoint_epoch (params_save_freq params) stop_epoch epoch
        ∧ fs (the_world s') = <[outfile (params_checkpoint_dir params) epoch := r]> (fs (the_world s)))
       ∨ (¬ checkpoint_epoch (params_save_freq params) stop_epoch epoch
          ∧ fs (the_world s') = fs (the_world s))).

(** Files that are not the checkpoint of a due epoch of the loop are left as
    they were. *)
Lemma loop_frame (l : list Z) (s s' : S) (path : string) :
  for_each step l s = Ok s' →
  (∀ epoch, epoch ∈ l →
     checkpoint_epoch (params_save_freq params) stop_epoch epoch →
     path ≠ outfile (params_checkpoint_dir params) epoch) →
  fs (the_world s') !! path = fs (the_world s) !! path.
Proof.
  revert s. induction l as [|epoch l IH]; intros s; simpl.
  - by intros [= <-].
  - destruct (step s epoch) as [s1|] eqn:Hstep; simpl; [|done].
    intros Hrun Hpath. rewrite (IH s1 Hrun).
    + destruct (step_saves _ _ _ Hstep) as (_ & r & _ & [[Hdue ->] | [_ ->]]); [|done].
      apply lookup_insert_ne. symmetry. apply Hpath; [left | done].
    + intros e He. apply Hpath. by right.
Qed.

(** The checkpoint of a due epoch is, at the end of the loop, the record that
    the epoch saved. *)
Lemma loop_written (l : list Z) (s s' : S) (epoch : Z) :
  NoDup l →
  for_each step l s = Ok s' →
  epoch ∈ l →
  checkpoint_epoch (params_save_freq params) stop_epoch epoch →
  ∃ l1 l2 s1 r,
    l = l1 ++ epoch :: l2
    ∧ for_each step l1 s = Ok s1
    ∧ saved s1 epoch r
    ∧ fs (the_world s') !! outfile (params_checkpoint_dir params) epoch = Some r.
Proof.
  revert s. induction l as [|e l IH]; intros s Hnd; [by intros _ ?%elem_of_nil|].
  apply NoDup_cons in Hnd as [Hfresh Hnd]. simpl.
  destruct (step s e) as [s1|] eqn:Hstep; simpl; [|done].
  intros Hrun [->|Hin]%elem_of_cons Hdue.
  - exists [], l, s.
    destruct (step_saves _ _ _ Hstep) as (_ & r & Hr & [[_ Hfs] | [Hn _]]); [|done].
    exists r. repeat split; [done|].
    rewrite (loop_frame l s1 s' _ Hrun).
    + rewrite Hfs. apply lookup_insert_eq.
    + intros e' He' _ Heq%outfile_inj. by subst.
  - destruct (IH s1 Hnd Hrun Hin Hdue) as (l1 & l2 & s2 & r & -> & Hl1 & Hr & Hfs).
    exists (e :: l1), l2, s2, r. repeat split; [|done|done].
    simpl. by rewrite Hstep.
Qed.

End Cadence.

(* ===================================================================== *)
(** * Runs of the mixup driver                                             *)
(* ===================================================================== *)

Section MixupRun.
Context {F : Framework}.
Variables base_loader base_loader_test : loader.
Variable params : Params.

Lemma mixup_batch_world (v : mixup_vars) (b : nat * batch) :
  fs (mx_world (mixup_batch params base_loader v b)) = fs (mx_world v)
  ∧ epoch_lines (stdout (mx_world (mixup_batch params base_loader v b)))
    = epoch_lines (stdout (mx_world v)).
Proof.
  destruct b as [batch_idx [input_var target_var]]. unfold mixup_batch.
  destruct (draw (np_random_beta _ _) _) as [lam w1] eqn:H1.
  destruct (draw (forward_mixup _ _ _ _ _) _) as [[[outputs target_a] target_b] w2] eqn:H2.
  destruct (adam_step _ _ _) as [optimizer model].
  pose proof (fs_draw (np_random_beta (params_alpha params) (params_alpha params)) (mx_world v)) as Hf1.
  pose proof (stdout_draw (np_random_beta (params_alpha params) (params_alpha params)) (mx_world v)) as Ho1.
  rewrite H1 in Hf1, Ho1. simpl in Hf1, Ho1.
  pose proof (fs_draw (forward_mixup (mx_model v) input_var target_var (params_alpha params) lam) w1) as Hf2.
  pose proof (stdout_draw (forward_mixup (mx_model v) input_var target_var (params_alpha params) lam) w1) as Ho2.
  rewrite H2 in Hf2, Ho2. simpl in Hf2, Ho2.
  destruct (_ =? _)%nat; simpl; unfold epoch_lines; rewrite ?omap_app; simpl;
    rewrite ?app_nil_r, ?Hf2, ?Ho2, ?Hf1, ?Ho1; done.
Qed.

Lemma mixup_train_world (s : mixup_state) (epoch : Z) :
  fs (mx_world (mixup_train base_loader params s epoch)) = fs (ms_world s)
  ∧ epoch_lines (stdout (mx_world (mixup_train base_loader params s epoch)))
    = epoch_lines (stdout (ms_world s)) ++ [epoch].
Proof.
  unfold mixup_train.
  destruct (draw (iterate base_loader) _) as [batches w1] eqn:H1.
  pose proof (fs_draw (iterate base_loader) (print (MsgEpoch epoch) (ms_world s))) as Hf1.
  pose proof (stdout_draw (iterate base_loader) (print (MsgEpoch epoch) (ms_world s))) as Ho1.
  rewrite H1 in Hf1, Ho1. simpl in Hf1, Ho1.
  apply (fold_left_invariant
    (fun v => fs (mx_world v) = fs (ms_world s)
              ∧ epoch_lines (stdout (mx_world v)) = epoch_lines (stdout (ms_world s)) ++ [epoch])).
  - simpl. split; [done|]. rewrite Ho1. unfold epoch_lines. by rewrite omap_app.
  - intros v b [Hfs Hout]. destruct (mixup_batch_world v b) as [-> ->]. done.
Qed.

Lemma mixup_test_batch_idx (model : module) (l : list (nat * batch)) (t : mixup_test_vars) :
  l ≠ [] → is_Some (mt_batch_idx (fold_left (mixup_test_batch model) l t)).
Proof.
  revert t. induction l as [|b l IH]; intros t Hl; [done|]. simpl.
  destruct l as [|b' l]; [|by apply IH].
  simpl. destruct b as [batch_idx [inputs targets]]. unfold mixup_test_batch.
  destruct (forward model inputs). simpl. eauto.
Qed.

Lemma enumerate_nil {A} (l : list A) : enumerate l = [] → l = [].
Proof. by destruct l. Qed.

Lemma mixup_test_inv (model : module) (batch_idx : option nat) (tests : list batch) line idx :
  mixup_test model batch_idx tests = Ok (line, idx) →
  tests ≠ [] ∧ ∃ a b c d, line = MsgMixupTest a b c d.
Proof.
  unfold mixup_test. destruct (mt_batch_idx _); simpl; [|done].
  case_bool_decide; [done|]. intros [= <- <-]. eauto 10.
Qed.

Lemma mixup_test_ok (model : module) (batch_idx : option nat) (tests : list batch) :
  tests ≠ [] → ∃ r, mixup_test model batch_idx tests = Ok r.
Proof.
  intros Hne. unfold mixup_test.
  destruct (mixup_test_batch_idx model (enumerate tests) (MixupTestVars batch_idx 0 0 0))
    as [idx ->]; [by intros ?%enumerate_nil|].
  simpl. rewrite bool_decide_eq_false_2 by done. eauto.
Qed.

Lemma save_checkpoint_inv (epoch stop_epoch : Z) record (w w' : world) :
  save_checkpoint epoch stop_epoch params record w = Ok w' →
  params_save_freq params ≠ 0
  ∧ stdout w' = stdout w
  ∧ ((checkpoint_epoch (params_save_freq params) stop_epoch epoch
      ∧ fs w' = <[outfile (params_checkpoint_dir params) epoch := record]> (fs w))
     ∨ (¬ checkpoint_epoch (params_save_freq params) stop_epoch epoch ∧ fs w' = fs w)).
Proof.
  unfold save_checkpoint.
  destruct (save_due _ _ _) as [b|] eqn:Hdue; simpl; [|done].
  apply save_due_inv in Hdue as [HF Hb]. intros Hw. split; [done|].
  destruct b; injection Hw as <-; (split; [done|]).
  - left. split; [by apply Hb | done].
  - right. split; [|done]. intros H%Hb. done.
Qed.

Lemma save_checkpoint_ok (epoch stop_epoch : Z) record (w : world) :
  params_save_freq params ≠ 0 →
  ∃ w', save_checkpoint epoch stop_epoch params record w = Ok w'.
Proof.
  intros HF. unfold save_checkpoint.
  destruct (save_due_spec epoch stop_epoch _ HF) as (b & -> & _). simpl.
  destruct b; eauto.
Qed.

Lemma mixup_epoch_inv (stop_epoch : Z) (s s' : mixup_state) (epoch : Z) :
  mixup_epoch base_loader base_loader_test stop_epoch params s epoch = Ok s' →
  params_save_freq params ≠ 0
  ∧ epoch_lines (stdout (ms_world s')) = epoch_lines (stdout (ms_world s)) ++ [epoch]
  ∧ ∃ r, mixup_saved base_loader params s epoch r
    ∧ ((checkpoint_epoch (params_save_freq params) stop_epoch epoch
        ∧ fs (ms_world s') = <[outfile (params_checkpoint_dir params) epoch := r]> (fs (ms_world s)))
       ∨ (¬ checkpoint_epoch (params_save_freq params) stop_epoch epoch
          ∧ fs (ms_world s') = fs (ms_world s))).
Proof.
  unfold mixup_epoch. destruct (mixup_train_world s epoch) as [Hfs Hout].
  destruct (save_checkpoint _ _ _ _ _) as [w1|] eqn:Hsave; simpl; [|done].
  apply save_checkpoint_inv in Hsave as (HF & Hout1 & Hfs1).
  destruct (draw (iterate base_loader_test) w1) as [tests w2] eqn:H2.
  pose proof (fs_draw (iterate base_loader_test) w1) as Hf2.
  pose proof (stdout_draw (iterate base_loader_test) w1) as Ho2.
  rewrite H2 in Hf2, Ho2. simpl in Hf2, Ho2.
  destruct (mixup_test _ _ _) as [[line idx]|] eqn:Htest; simpl; [|done].
  apply mixup_test_inv in Htest as (_ & a & b & c & d & ->).
  intros [= <-]. simpl. split; [done|]. split.
  - rewrite Ho2, Hout1. unfold epoch_lines in *. rewrite omap_app. simpl.
    by rewrite app_nil_r.
  - eexists. split; [done|]. rewrite Hf2, <- Hfs. exact Hfs1.
Qed.

Lemma mixup_epoch_ok (stop_epoch : Z) (s : mixup_state) (epoch : Z) :
  params_save_freq params ≠ 0 →
  (∀ g, (iterate base_loader_test g).1 ≠ []) →
  ∃ s', mixup_epoch base_loader base_loader_test stop_epoch params s epoch = Ok s'.
Proof.
  intros HF Htests. unfold mixup_epoch.
  destruct (save_checkpoint_ok epoch stop_epoch
    (Checkpoint epoch (state_dict (mx_model (mixup_train base_loader params s epoch))) None)
    (mx_world (mixup_train base_loader params s epoch)) HF) as [w1 ->]. simpl.
  pose proof (Htests (gen w1)) as Hne. unfold draw.
  destruct (iterate base_loader_test (gen w1)) as [tests g]. simpl in Hne.
  destruct (mixup_test_ok (train_mode false (mx_model (mixup_train base_loader params s epoch)))
    (mx_batch_idx (mixup_train base_loader params s epoch)) tests Hne) as [[line idx] ->].
  simpl. eauto.
Qed.


Lemma mixup_loop_ok (stop_epoch : Z) (l : list Z) (s : mixup_state) :
  params_save_freq params ≠ 0 →
  (∀ g, (iterate base_loader_test g).1 ≠ []) →
  ∃ s', for_each (mixup_epoch base_loader base_loader_test stop_epoch params) l s = Ok s'.
Proof.
  intros HF Htests.
  destruct (for_each_total (fun _ => True)
    (mixup_epoch base_loader base_loader_test stop_epoch params) l s) as (s' & Hs' & _);
    [done | | eauto].
  intros s1 epoch _ _. destruct (mixup_epoch_ok stop_epoch s1 epoch HF Htests) as [s2 ->].
  eauto.
Qed.

End MixupRun.

(* ===================================================================== *)
(** * Runs of the rotation driver                                          *)
(* ===================================================================== *)

Section RotationRun.
Context {F : Framework}.
Variables base_loader base_loader_test : loader.
Variable params : Params.

Lemma rotation_batch_inv (epoch : Z) (v v' : rotation_vars) (b : nat * batch) :
  rotation_batch epoch base_loader v b = Ok v' → fs (rv_world v') = fs (rv_world v).
Proof.
  destruct b as [i xy]. unfold rotation_batch.
  destruct (rotate_batch xy) as [[[x_ y_] a_]|]; simpl; [|done].
  destruct (forward _ _) as [f scores].
  destruct (adam_step2 _ _ _ _) as [optimizer [model rotate_classifier]].
  intros [= <-]. simpl. by destruct (_ =? _)%nat.
Qed.

Lemma rotation_batch_run (epoch : Z) (v : rotation_vars) (i : nat) (xy : batch) :
  well_formed xy = true → ∃ v', rotation_batch epoch base_loader v (i, xy) = Ok v'.
Proof.
  destruct xy as [x y]. intros Hwf. unfold rotation_batch.
  rewrite rotate_batch_ok by done. simpl.
  destruct (forward _ _) as [f scores].
  destruct (adam_step2 _ _ _ _) as [optimizer [model rotate_classifier]]. eauto.
Qed.

Lemma rotation_train_inv (s : rotation_state) (epoch : Z) (v : rotation_vars) :
  rotation_train base_loader s epoch = Ok v → fs (rv_world v) = fs (rs_world s).
Proof.
  unfold rotation_train.
  destruct (draw (iterate base_loader) _) as [batches w1] eqn:H1.
  pose proof (fs_draw (iterate base_loader) (rs_world s)) as Hf1.
  rewrite H1 in Hf1. simpl in Hf1.
  apply (for_each_invariant (fun v => fs (rv_world v) = fs (rs_world s))); [done|].
  intros v1 b v2 _ Hv1 Hb. by rewrite (rotation_batch_inv _ _ _ _ Hb).
Qed.

Lemma rotation_train_run (s : rotation_state) (epoch : Z) :
  (∀ g, Forall (fun xy => well_formed xy = true) (iterate base_loader g).1) →
  ∃ v, rotation_train base_loader s epoch = Ok v.
Proof.
  intros Hwf. unfold rotation_train, draw.
  pose proof (Hwf (gen (rs_world s))) as Hall.
  destruct (iterate base_loader (gen (rs_world s))) as [batches g]. simpl in Hall.
  edestruct (for_each_total (fun _ => True) (rotation_batch epoch base_loader)
    (enumerate batches)) as (v & Hv & _); [done | | eauto].
  intros v [i xy] Hin _.
  apply elem_of_zip_r in Hin. rewrite Forall_forall in Hall.
  destruct (rotation_batch_run epoch v i xy (Hall _ Hin)) as [v' ->]. eauto.
Qed.

Lemma rotation_test_sample_run (model rotate_classifier : module) (v : Z * Z * Z)
    (xy : batch) :
  well_formed xy = true →
  ∃ v', rotation_test_sample model rotate_classifier v xy = Ok v' ∧ v.2 < v'.2.
Proof.
  destruct xy as [x y], v as [[correct rcorrect] total]. intros Hwf.
  unfold rotation_test_sample. rewrite rotate_batch_ok by done. simpl.
  pose proof (argmax_forward model (x ≫= rotations)) as Hlen.
  destruct (forward _ _) as [f scores]. simpl in Hlen.
  eexists. split; [done|]. simpl. rewrite Hlen, (length_chunks rotations 4) by done.
  apply well_formed_inv in Hwf as (Hne & _). destruct x; [done | simpl; lia].
Qed.

Lemma rotation_test_samples_run (model rotate_classifier : module) (l : list batch)
    (v : Z * Z * Z) :
  Forall (fun xy => well_formed xy = true) l →
  ∃ v', for_each (rotation_test_sample model rotate_classifier) l v = Ok v'
        ∧ v.2 ≤ v'.2 ∧ (l ≠ [] → v.2 < v'.2).
Proof.
  revert v. induction l as [|xy l IH]; intros v Hall; simpl.
  - exists v. split; [done|]. split; [lia | done].
  - apply Forall_cons in Hall as [Hxy Hall].
    destruct (rotation_test_sample_run model rotate_classifier v xy Hxy) as (v1 & -> & Hlt).
    simpl. destruct (IH v1 Hall) as (v2 & -> & Hle & _).
    exists v2. split; [done|]. split; [lia | intros _; lia].
Qed.

Lemma rotation_test_run (model rotate_classifier : module) (tests : list batch) :
  tests ≠ [] → Forall (fun xy => well_formed xy = true) (take 10 tests) →
  ∃ r, rotation_test model rotate_classifier tests = Ok r.
Proof.
  intros Hne Hall. unfold rotation_test, enumerate. rewrite rotation_test_from.
  change (10 - 0)%nat with 10%nat.
  destruct (rotation_test_samples_run model rotate_classifier (take 10 tests) (0, 0, 0) Hall)
    as ([[correct rcorrect] total] & -> & _ & Hlt). simpl in *.
  destruct (Z.eqb_spec total 0) as [->|_]; [|eauto].
  exfalso. assert (take 10 tests ≠ []) as H by (by destruct tests). apply Hlt in H. lia.
Qed.

Lemma rotation_epoch_inv (stop_epoch : Z) (s s' : rotation_state) (epoch : Z) :
  rotation_epoch base_loader base_loader_test stop_epoch params s epoch = Ok s' →
  params_save_freq params ≠ 0
  ∧ ∃ r, rotation_saved base_loader s epoch r
    ∧ ((checkpoint_epoch (params_save_freq params) stop_epoch epoch
        ∧ fs (rs_world s') = <[outfile (params_checkpoint_dir params) epoch := r]> (fs (rs_world s)))
       ∨ (¬ checkpoint_epoch (params_save_freq params) stop_epoch epoch
          ∧ fs (rs_world s') = fs (rs_world s))).
Proof.
  unfold rotation_epoch.
  destruct (rotation_train base_loader s epoch) as [v|] eqn:Htrain; simpl; [|done].
  pose proof (rotation_train_inv _ _ _ Htrain) as Hfs.
  destruct (save_checkpoint _ _ _ _ _) as [w1|] eqn:Hsave; simpl; [|done].
  apply save_checkpoint_inv in Hsave as (HF & _ & Hfs1).
  destruct (draw (iterate base_loader_test) w1) as [tests w2] eqn:H2.
  pose proof (fs_draw (iterate base_loader_test) w1) as Hf2.
  rewrite H2 in Hf2. simpl in Hf2.
  destruct (rotation_test _ _ _) as [[[correct rcorrect] total]|]; simpl; [|done].
  intros [= <-]. simpl. split; [done|].
  eexists. split; [by exists v|]. rewrite Hf2, <- Hfs. exact Hfs1.
Qed.

Lemma rotation_epoch_run (stop_epoch : Z) (s : rotation_state) (epoch : Z) :
  params_save_freq params ≠ 0 →
  (∀ g, Forall (fun xy => well_formed xy = true) (iterate base_loader g).1) →
  (∀ g, (iterate base_loader_test g).1 ≠ []
        ∧ Forall (fun xy => well_formed xy = true) (take 10 (iterate base_loader_test g).1)) →
  ∃ s', rotation_epoch base_loader base_loader_test stop_epoch params s epoch = Ok s'.
Proof.
  intros HF Htrain Htests. unfold rotation_epoch.
  destruct (rotation_train_run s epoch Htrain) as [v ->]. simpl.
  destruct (save_checkpoint_ok params epoch stop_epoch
    (Checkpoint epoch (state_dict (rv_model v)) (Some (state_dict (rv_rotate_classifier v))))
    (rv_world v) HF) as [w1 ->]. simpl.
  pose proof (Htests (gen w1)) as [Hne Hall]. unfold draw.
  destruct (iterate base_loader_test (gen w1)) as [tests g]. simpl in Hne, Hall.
  destruct (rotation_test_run (train_mode false (rv_model v))
    (train_mode false (rv_rotate_classifier v)) tests Hne Hall) as [[[correct rcorrect] total] ->].
  simpl. eauto.
Qed.

Lemma rotation_loop_run (stop_epoch : Z) (l : list Z) (s : rotation_state) :
  params_save_freq params ≠ 0 →
  (∀ g, Forall (fun xy => well_formed xy = true) (iterate base_loader g).1) →
  (∀ g, (iterate base_loader_test g).1 ≠ []
        ∧ Forall (fun xy => well_formed xy = true) (take 10 (iterate base_loader_test g).1)) →
  ∃ s', for_each (rotation_epoch base_loader base_loader_test stop_epoch params) l s = Ok s'.
Proof.
  intros HF Htrain Htests.
  destruct (for_each_total (fun _ => True)
    (rotation_epoch base_loader base_loader_test stop_epoch params) l s) as (s' & Hs' & _);
    [done | | eauto].
  intros s1 epoch _ _.
  destruct (rotation_epoch_run stop_epoch s1 epoch HF Htrain Htests) as [s2 ->]. eauto.
Qed.

Lemma select_rotate_classifier_fs (w : world) :
  fs (select_rotate_classifier params w).2 = fs w.
Proof.
  unfold select_rotate_classifier.
  pose proof (fs_draw (Linear 640 4) w). pose proof (fs_draw (Linear 512 4) w).
  repeat case_match; simplify_eq; simpl in *; done.
Qed.

Lemma init_rotation_inv (model : module) tmp (w w' : world) rotate_classifier optimizer :
  init_rotation model params tmp w = Ok (rotate_classifier, optimizer, w') →
  fs w' = fs w.
Proof.
  unfold init_rotation. pose proof (select_rotate_classifier_fs w) as Hsel.
  destruct (select_rotate_classifier params w) as [rc0 w1]. simpl in Hsel.
  destruct use_gpu, rc0 as [rc0|], tmp as [[epoch state [rotate|]]|]; simpl; try done.
  all: try (destruct (load_state_dict _ _); simpl; [|done]).
  all: intros [= _ _ <-]; done.
Qed.

End RotationRun.

(* ===================================================================== *)
(** * Whole runs                                                           *)
(* ===================================================================== *)

Lemma NoDup_split_unique {A} (x : A) (l1 l2 l1' l2' : list A) :
  NoDup (l1 ++ x :: l2) → l1 ++ x :: l2 = l1' ++ x :: l2' → l1 = l1'.
Proof.
  revert l1'. induction l1 as [|a l1 IH]; intros [|a' l1'] Hnd Heq; simpl in *.
  - done.
  - injection Heq as <- ->. apply NoDup_cons in Hnd as [Hx _].
    exfalso. apply Hx, elem_of_app. right. left.
  - injection Heq as -> _. apply NoDup_cons in Hnd as [Hx _].
    exfalso. apply Hx, elem_of_app. right. left.
  - injection Heq as -> Heq. apply NoDup_cons in Hnd as [_ Hnd].
    f_equal. by apply IH.
Qed.

Lemma range_split (s e epoch : Z) :
  s ≤ epoch < e → range s e = range s epoch ++ epoch :: range (epoch + 1) e.
Proof.
  intros H. unfold range.
  replace (e - s) with ((epoch - s) + (e - epoch)) by lia.
  rewrite seqZ_app by lia. f_equal.
  replace (s + (epoch - s)) with epoch by lia.
  rewrite (seqZ_cons epoch) by lia. f_equal. f_equal; lia.
Qed.

Lemma range_prefix (s e epoch : Z) (l1 l2 : list Z) :
  s ≤ epoch < e → range s e = l1 ++ epoch :: l2 → l1 = range s epoch.
Proof.
  intros H Heq. symmetry. eapply NoDup_split_unique.
  - rewrite <- range_split by done. apply NoDup_range.
  - rewrite <- range_split by done. exact Heq.
Qed.

Section Runs.
Context {F : Framework}.
Variables base_loader base_loader_test : loader.
Variable params : Params.

(** A run of the mixup driver: it finishes, it leaves every file alone
    except the checkpoints of its due epochs, and the checkpoint of a due
    epoch is the record saved in that epoch. *)
Lemma train_manifold_mixup_run (model : module) (s e : Z) (w : world) :
  params_save_freq params ≠ 0 →
  (∀ g, (iterate base_loader_test g).1 ≠ []) →
  let s0 := MixupState model (Adam [model]) None (print (MsgStopEpoch s e) w) in
  ∃ s',
    for_each (mixup_epoch base_loader base_loader_test e params) (range s e) s0 = Ok s'
    ∧ train_manifold_mixup base_loader base_loader_test model s e params w
      = Ok (ms_model s', ms_world s')
    ∧ (∀ path,
         (∀ epoch, s ≤ epoch < e → checkpoint_epoch (params_save_freq params) e epoch →
                   path ≠ outfile (params_checkpoint_dir params) epoch) →
         fs (ms_world s') !! path = fs w !! path)
    ∧ (∀ epoch, s ≤ epoch < e → checkpoint_epoch (params_save_freq params) e epoch →
         ∃ s1, for_each (mixup_epoch base_loader base_loader_test e params) (range s epoch) s0
               = Ok s1
               ∧ fs (ms_world s') !! outfile (params_checkpoint_dir params) epoch
                 = Some (Checkpoint epoch
                           (state_dict (mx_model (mixup_train base_loader params s1 epoch)))
                           None)).
Proof.
  intros HF Htests s0.
  destruct (mixup_loop_ok base_loader base_loader_test params e (range s e) s0 HF Htests)
    as [s' Hrun].
  assert (∀ st epoch st',
    mixup_epoch base_loader base_loader_test e params st epoch = Ok st' →
    params_save_freq params ≠ 0
    ∧ ∃ r, mixup_saved base_loader params st epoch r
      ∧ ((checkpoint_epoch (params_save_freq params) e epoch
          ∧ fs (ms_world st') = <[outfile (params_checkpoint_dir params) epoch := r]> (fs (ms_world st)))
         ∨ (¬ checkpoint_epoch (params_save_freq params) e epoch
            ∧ fs (ms_world st') = fs (ms_world st)))) as Hstep.
  { intros st epoch st' (H1 & _ & H2)%mixup_epoch_inv. done. }
  exists s'. split; [done|]. split; [|split].
  - unfold train_manifold_mixup. fold s0. by rewrite Hrun.
  - intros path Hpath.
    rewrite (loop_frame ms_world _ params e _ Hstep _ _ _ path Hrun); [done|].
    intros epoch Hin%elem_of_range. by apply Hpath.
  - intros epoch Hin Hdue.
    destruct (loop_written ms_world _ params e _ Hstep (range s e) s0 s' epoch)
      as (l1 & l2 & s1 & r & Hl & Hl1 & -> & Hfs);
      [apply NoDup_range | done | by apply elem_of_range | done |].
    apply range_prefix in Hl as ->; [|done]. eauto.
Qed.

(** The same for the rotation driver, from the state that [init_rotation]
    leaves. *)
Lemma train_rotation_run (model : module) (s e : Z) tmp (w w0 : world)
    (rotate_classifier : module) (optimizer : adam) :
  params_save_freq params ≠ 0 →
  (∀ g, Forall (fun xy => well_formed xy = true) (iterate base_loader g).1) →
  (∀ g, (iterate base_loader_test g).1 ≠ []
        ∧ Forall (fun xy => well_formed xy = true) (take 10 (iterate base_loader_test g).1)) →
  init_rotation model params tmp w = Ok (rotate_classifier, optimizer, w0) →
  let s0 := RotationState model rotate_classifier optimizer (print (MsgStopEpoch s e) w0) in
  ∃ s',
    for_each (rotation_epoch base_loader base_loader_test e params) (range s e) s0 = Ok s'
    ∧ train_rotation base_loader base_loader_test model s e params tmp w
      = Ok (rs_model s', rs_world s')
    ∧ (∀ path,
         (∀ epoch, s ≤ epoch < e → checkpoint_epoch (params_save_freq params) e epoch →
                   path ≠ outfile (params_checkpoint_dir params) epoch) →
         fs (rs_world s') !! path = fs w !! path)
    ∧ (∀ epoch, s ≤ epoch < e → checkpoint_epoch (params_save_freq params) e epoch →
         ∃ s1 v,
           for_each (rotation_epoch base_loader base_loader_test e params) (range s epoch) s0
           = Ok s1
           ∧ rotation_train base_loader s1 epoch = Ok v
           ∧ fs (rs_world s') !! outfile (params_checkpoint_dir params) epoch
             = Some (Checkpoint epoch (state_dict (rv_model v))
                       (Some (state_dict (rv_rotate_classifier v))))).
Proof.
  intros HF Htrain Htests Hinit s0.
  destruct (rotation_loop_run base_loader base_loader_test params e (range s e) s0
    HF Htrain Htests) as [s' Hrun].
  pose proof (fun st epoch st' =>
    rotation_epoch_inv base_loader base_loader_test params e st st' epoch) as Hstep.
  exists s'. split; [done|]. split; [|split].
  - unfold train_rotation. rewrite Hinit. simpl. fold s0. by rewrite Hrun.
  - intros path Hpath.
    rewrite (loop_frame rs_world _ params e _ Hstep _ _ _ path Hrun).
    + simpl. by rewrite (init_rotation_inv params _ _ _ _ _ _ Hinit).
    + intros epoch Hin%elem_of_range. by apply Hpath.
  - intros epoch Hin Hdue.
    destruct (loop_written rs_world _ params e _ Hstep (range s e) s0 s' epoch)
      as (l1 & l2 & s1 & r & Hl & Hl1 & (v & Hv & ->) & Hfs);
      [apply NoDup_range | done | by apply elem_of_range | done |].
    apply range_prefix in Hl as ->; [|done]. eauto.
Qed.

End Runs.

(* ===================================================================== *)
(** * The entry point                                                      *)
(* ===================================================================== *)

Section Entry.
Context {F : Framework}.

Lemma select_model_fs (params : Params) (w : world) : fs (select_model params w).2 = fs w.
Proof.
  unfold select_model.
  pose proof (fs_draw (wrn28_10 64) w). pose proof (fs_draw (resnet18 64) w).
  repeat case_match; simplify_eq; simpl in *; done.
Qed.

Lemma select_model_unsupported (params : Params) (w : world) :
  params_model params ≠ "WideResNet28_10"%string → params_model params ≠ "ResNet18"%string →
  select_model params w = (None, w).
Proof.
  intros H1%String.eqb_neq H2%String.eqb_neq. unfold select_model. by rewrite H1, H2.
Qed.

Lemma select_rotate_classifier_unsupported (params : Params) (w : world) :
  params_model params ≠ "WideResNet28_10"%string → params_model params ≠ "ResNet18"%string →
  select_rotate_classifier params w = (None, w).
Proof.
  intros H1%String.eqb_neq H2%String.eqb_neq. unfold select_rotate_classifier.
  by rewrite H1, H2.
Qed.

Lemma remap_linear_inv (state state' : gmap string tensor) :
  remap_linear state = Ok state' →
  ∃ weight bias,
    state !! "module.linear.weight" = Some weight
    ∧ state !! "module.linear.bias" = Some bias
    ∧ state' = <["module.linear.L.weight_v" := bias]>
                 (<["module.linear.L.weight_g" := weight]> state).
Proof.
  unfold remap_linear, getitem.
  destruct (state !! "module.linear.weight") as [weight|] eqn:Hw; simpl; [|done].
  rewrite lookup_insert_ne by done.
  destruct (state !! "module.linear.bias") as [bias|] eqn:Hb; simpl; [|done].
  intros [= <-]. eauto.
Qed.

Lemma remap_linear_run (state : gmap string tensor) (weight bias : tensor) :
  state !! "module.linear.weight" = Some weight →
  state !! "module.linear.bias" = Some bias →
  remap_linear state
  = Ok (<["module.linear.L.weight_v" := bias]>
          (<["module.linear.L.weight_g" := weight]> state)).
Proof.
  intros Hw Hb. unfold remap_linear, getitem. rewrite Hw. simpl.
  rewrite lookup_insert_ne by done. by rewrite Hb.
Qed.

(** The resume path of the mixup regimen that the entry point takes: the
    record of the resume file gives [start_epoch] and, remapped and laid
    over the network's own dictionary, the state that is loaded. *)
Lemma resume_S2M2_R_inv (params : Params) (model model1 : module) (start_epoch : Z)
    (w w1 : world) :
  params_resume params = true →
  resume_S2M2_R params model w = Ok (model1, start_epoch, w1) →
  ∃ path tmp state,
    get_resume_file (dom (fs w)) (params_checkpoint_dir params) = Some path
    ∧ fs w !! path = Some tmp
    ∧ start_epoch = ck_epoch tmp + 1
    ∧ remap_linear (ck_state tmp) = Ok state
    ∧ load_state_dict model (model_dict_load model state) = Ok model1
    ∧ fs w1 = fs w
    ∧ epoch_lines (stdout w1) = epoch_lines (stdout w).
Proof.
  intros Hres. unfold resume_S2M2_R. rewrite Hres. unfold torch_load.
  destruct (get_resume_file _ _) as [path|]; simpl; [|done].
  destruct (fs w !! path) as [tmp|] eqn:Hpath; simpl; [|done].
  destruct (remap_linear (ck_state tmp)) as [state|] eqn:Hremap; simpl; [|done].
  destruct (load_state_dict _ _) as [m|] eqn:Hload; simpl; [|done].
  intros [= <- <- <-]. exists path, tmp, state. repeat split; try done.
  simpl. unfold epoch_lines. rewrite !omap_app. simpl. by rewrite !app_nil_r.
Qed.

Lemma resume_rotation_inv (params : Params) (model : option module) (model1 : module)
    (start_epoch0 start_epoch : Z) (w w1 : world) :
  params_resume params = true →
  resume_rotation params model start_epoch0 w = Ok (model1, start_epoch, w1) →
  ∃ path tmp model0,
    get_resume_file (dom (fs w)) (params_checkpoint_dir params) = Some path
    ∧ fs w !! path = Some tmp
    ∧ start_epoch = ck_epoch tmp + 1
    ∧ model = Some model0
    ∧ load_state_dict model0 (ck_state tmp) = Ok model1
    ∧ fs w1 = fs w.
Proof.
  intros Hres. unfold resume_rotation. rewrite Hres. unfold torch_load.
  destruct (get_resume_file _ _) as [path|]; simpl; [|done].
  destruct (fs w !! path) as [tmp|] eqn:Hpath; simpl; [|done].
  destruct model as [model0|]; simpl; [|done].
  destruct (load_state_dict _ _) as [m|] eqn:Hload; simpl; [|done].
  intros [= <- <- <-]. exists path, tmp, model0. done.
Qed.

(** A finished run of the entry point under the mixup regimen. *)
Lemma main_S2M2_R_inv (params : Params) (w : world) r :
  params_method params = "S2M2_R"%string →
  main params w = Ok r →
  ∃ dir model0 w0 model1 start_epoch w1 model' w',
    data_dir !! params_dataset params = Some dir
    ∧ select_model (main_params params) w = (Some model0, w0)
    ∧ resume_S2M2_R (main_params params) (cuda (DataParallel model0 (seq 0 device_count))) w0
      = Ok (model1, start_epoch, w1)
    ∧ train_manifold_mixup (main_base_loader params dir) (main_base_loader_test params dir)
        model1 start_epoch (start_epoch + params_stop_epoch params) (main_params params) w1
      = Ok (model', w')
    ∧ r = (Some model', w').
Proof.
  intros Hmethod. unfold main, getitem. simpl.
  destruct (data_dir !! params_dataset params) as [dir|]; simpl; [|done].
  fold (main_params params).
  destruct (select_model (main_params params) w) as [model w0] eqn:Hsel.
  rewrite Hmethod. simpl.
  destruct model as [model0|]; simpl; [|done].
  unfold module_cuda. destruct use_gpu; simpl; [|done].
  destruct (resume_S2M2_R _ _ _) as [[[model1 start_epoch] w1]|] eqn:Hres; simpl; [|done].
  destruct (train_manifold_mixup _ _ _ _ _ _ _) as [[model' w']|] eqn:Hrun; simpl; [|done].
  intros [= <-]. exists dir, model0, w0, model1, start_epoch, w1, model', w'.
  done.
Qed.

End Entry.

(* ===================================================================== *)
(** * Checkpoints of a run                                                 *)
(* ===================================================================== *)

(** C2, as the code has it.  A finished run of either driver with a non-zero
    save frequency [F] over the epochs [s, e) leaves a checkpoint, holding
    its epoch number, at every epoch of the range that is a multiple of [F]
    and at epoch [e - 1]; the file of any other epoch, and any other file,
    is as it was before the run.  (The drivers finish on a held-out stream
    that is never empty and, for the rotation driver, on well-formed
    batches.) *)
Theorem checkpoints_at_multiples_and_last_epoch {F : Framework}
    (base_loader base_loader_test : loader) (model : module) (s e : Z) (params : Params)
    (tmp : option (checkpoint tensor)) (w w0 : world)
    (rotate_classifier : module) (optimizer : adam) :
  params_save_freq params ≠ 0 →
  (∀ g, (iterate base_loader_test g).1 ≠ []) →
  let due epoch := s ≤ epoch < e ∧ checkpoint_epoch (params_save_freq params) e epoch in
  let file := outfile (params_checkpoint_dir params) in
  let cadence (w' : world) :=
    (∀ epoch, due epoch → ∃ r, fs w' !! file epoch = Some r ∧ ck_epoch r = epoch)
    ∧ (∀ epoch, ¬ due epoch → fs w' !! file epoch = fs w !! file epoch)
    ∧ (∀ path, (∀ epoch, due epoch → path ≠ file epoch) → fs w' !! path = fs w !! path) in
  (∃ model' w',
      train_manifold_mixup base_loader base_loader_test model s e params w = Ok (model', w')
      ∧ cadence w')
  ∧ ((∀ g, Forall (fun xy => well_formed xy = true) (iterate base_loader g).1) →
     (∀ g, Forall (fun xy => well_formed xy = true) (take 10 (iterate base_loader_test g).1)) →
     init_rotation model params tmp w = Ok (rotate_classifier, optimizer, w0) →
     ∃ model' w',
       train_rotation base_loader base_loader_test model s e params tmp w = Ok (model', w')
       ∧ cadence w').
Proof.
  intros HF Htests due file cadence.
  assert (∀ w' : world,
    (∀ epoch, due epoch → ∃ r, fs w' !! file epoch = Some r ∧ ck_epoch r = epoch) →
    (∀ path, (∀ epoch, due epoch → path ≠ file epoch) → fs w' !! path = fs w !! path) →
    cadence w') as Hcadence.
  { intros w' Hdue Hframe. split; [done|]. split; [|done].
    intros epoch Hn. apply Hframe. intros epoch' Hdue' Heq%outfile_inj. by subst. }
  split.
  - destruct (train_manifold_mixup_run base_loader base_loader_test params model s e w HF
      Htests) as (s' & _ & Hrun & Hframe & Hwritten).
    exists (ms_model s'), (ms_world s'). split; [done|]. apply Hcadence.
    + intros epoch [Hin Hdue]. destruct (Hwritten epoch Hin Hdue) as (s1 & _ & Hfs).
      unfold file. rewrite Hfs. eauto.
    + intros path Hpath. apply Hframe. intros epoch Hin Hdue. by apply Hpath.
  - intros Htrain Hten Hinit.
    destruct (train_rotation_run base_loader base_loader_test params model s e tmp w w0
      rotate_classifier optimizer HF Htrain) as (s' & _ & Hrun & Hframe & Hwritten);
      [intros g; split; [apply Htests | apply Hten] | done |].
    exists (rs_model s'), (rs_world s'). split; [done|]. apply Hcadence.
    + intros epoch [Hin Hdue]. destruct (Hwritten epoch Hin Hdue) as (s1 & v & _ & _ & Hfs).
      unfold file. rewrite Hfs. eauto.
    + intros path Hpath. apply Hframe. intros epoch Hin Hdue. by apply Hpath.
Qed.

(** A run of both drivers over the epochs 0, 1, 2, 3, 4 with save frequency
    2: checkpoints at 0, 2 and 4, none at 1 and 3. *)
Lemma checkpoints_at_multiples_and_last_epoch_witness :
  ∃ m1 w1 m2 w2,
    @train_manifold_mixup (Toy.framework true) Toy.batches Toy.batches (Toy.backbone 3 0).1
      0 5 (Toy.params "ResNet18" "S2M2_R" 5 2) Toy.empty_world = Ok (m1, w1)
    ∧ @train_rotation (Toy.framework true) Toy.batches Toy.batches (Toy.backbone 3 0).1
        0 5 (Toy.params "ResNet18" "S2M2_R" 5 2) None Toy.empty_world = Ok (m2, w2)
    ∧ is_Some (fs w1 !! "ckpt/4.tar") ∧ fs w1 !! "ckpt/3.tar" = None
    ∧ is_Some (fs w2 !! "ckpt/2.tar") ∧ fs w2 !! "ckpt/1.tar" = None.
Proof.
  edestruct (@checkpoints_at_multiples_and_last_epoch (Toy.framework true)
    Toy.batches Toy.batches (Toy.backbone 3 0).1 0 5 (Toy.params "ResNet18" "S2M2_R" 5 2)
    None Toy.empty_world) as [(m1 & w1 & Hrun1 & Hdue1 & Hnot1 & _) Hrotation].
  - simpl. lia.
  - intros g. simpl. discriminate.
  - edestruct Hrotation as (m2 & w2 & Hrun2 & Hdue2 & Hnot2 & _).
    { intros g. simpl. repeat constructor. }
    { intros g. simpl. repeat constructor. }
    { reflexivity. }
    exists m1, w1, m2, w2. split; [exact Hrun1|]. split; [exact Hrun2|].
    split; [|split; [|split]].
    { destruct (Hdue1 4) as (r & Hr & _); [|exists r; exact Hr].
      split; [lia | right; simpl; lia]. }
    { change ("ckpt/3.tar"%string) with (outfile (params_checkpoint_dir
        (Toy.params "ResNet18" "S2M2_R" 5 2)) 3). rewrite Hnot1; [done|].
      intros [_ [[k Hk] | Hk]]; simpl in *; lia. }
    { destruct (Hdue2 2) as (r & Hr & _); [|exists r; exact Hr].
      split; [lia | left; by exists 1]. }
    { change ("ckpt/1.tar"%string) with (outfile (params_checkpoint_dir
        (Toy.params "ResNet18" "S2M2_R" 5 2)) 1). rewrite Hnot2; [done|].
      intros [_ [[k Hk] | Hk]]; simpl in *; lia. }
Defined.

(** C2, as the spec has it, fails: over the epochs 1, 2, 3 with save
    frequency 2 it asks for checkpoints at the epochs 1 and 3; both drivers,
    started in an empty directory, write no checkpoint at epoch 1 (they write
    those of the epochs 2 and 3). *)
Lemma checkpoints_not_strided :
  ¬ (∀ model' w',
       @train_manifold_mixup (Toy.framework true) Toy.batches Toy.batches (Toy.backbone 3 0).1
         1 4 (Toy.params "ResNet18" "S2M2_R" 3 2) Toy.empty_world = Ok (model', w') →
       ∀ epoch, strided_epoch 1 4 2 epoch ↔ is_Some (fs w' !! outfile "ckpt" epoch))
  ∧ ¬ (∀ model' w',
         @train_rotation (Toy.framework true) Toy.batches Toy.batches (Toy.backbone 3 0).1
           1 4 (Toy.params "ResNet18" "rotation" 3 2) None Toy.empty_world = Ok (model', w') →
         ∀ epoch, strided_epoch 1 4 2 epoch ↔ is_Some (fs w' !! outfile "ckpt" epoch)).
Proof.
  assert (strided_epoch 1 4 2 1) as H1 by (split; [lia | left; exists 0; lia]).
  split; intros H.
  - assert (match @train_manifold_mixup (Toy.framework true) Toy.batches Toy.batches
                    (Toy.backbone 3 0).1 1 4 (Toy.params "ResNet18" "S2M2_R" 3 2)
                    Toy.empty_world with
            | Ok (_, w') => Some (fs w' !! outfile "ckpt" 1)
            | Raise _ => None
            end = Some None) as Hfile by (vm_compute; reflexivity).
    destruct (train_manifold_mixup _ _ _ _ _ _ _) as [[model' w']|]; [|done].
    injection Hfile as Hfile. apply (H model' w' eq_refl 1) in H1 as [r Hr].
    pose proof (eq_trans (eq_sym Hfile) Hr) as Hno. discriminate Hno.
  - assert (match @train_rotation (Toy.framework true) Toy.batches Toy.batches
                    (Toy.backbone 3 0).1 1 4 (Toy.params "ResNet18" "rotation" 3 2) None
                    Toy.empty_world with
            | Ok (_, w') => Some (fs w' !! outfile "ckpt" 1)
            | Raise _ => None
            end = Some None) as Hfile by (vm_compute; reflexivity).
    destruct (train_rotation _ _ _ _ _ _ _ _) as [[model' w']|]; [|done].
    injection Hfile as Hfile. apply (H model' w' eq_refl 1) in H1 as [r Hr].
    pose proof (eq_trans (eq_sym Hfile) Hr) as Hno. discriminate Hno.
Qed.

(* ===================================================================== *)
(** * The number of epochs                                                 *)
(* ===================================================================== *)

Lemma main_params_facts {F : Framework} (params : Params) :
  params_resume (main_params params) = true
  ∧ params_checkpoint_dir (main_params params) = checkpoint_dir_of params
  ∧ params_stop_epoch (main_params params) = params_stop_epoch params
  ∧ params_save_freq (main_params params) = params_save_freq params
  ∧ params_model (main_params params) = params_model params.
Proof. done. Qed.



(** The entry point, resumed from the checkpoint of epoch 0 with
    [stop_epoch = 3], announces the epochs 1, 2, 3. *)
Example main_mixup_resumes :
  match @main (Toy.framework true) (Toy.params "ResNet18" "S2M2_R" 3 2)
          (Toy.resume_world (Toy.main_dir "S2M2_R") 0 Toy.plain_state None) with
  | Ok (_, w') => Some (epoch_lines (stdout w'))
  | Raise _ => None
  end = Some [1; 2; 3].
Proof. vm_compute. reflexivity. Qed.

(* ===================================================================== *)
(** * Saving and loading checkpoints                                       *)
(* ===================================================================== *)

(** C10.  What [torch.load] returns from a checkpoint file is the record
    that [torch.save] was given.  After a finished run of either driver, the
    file of every epoch that saved holds that epoch number and the
    parameters (for the rotation driver, of both networks) as they were
    after the training pass of that epoch; and the resume paths of the entry
    point take the epoch and the parameters from the record they load. *)
Theorem checkpoint_save_load_round_trip {F : Framework}
    (base_loader base_loader_test : loader) (model : module) (s e : Z) (params : Params)
    (tmp : option (checkpoint tensor)) (w w0 : world)
    (rotate_classifier : module) (optimizer : adam) :
  params_save_freq params ≠ 0 →
  (∀ g, (iterate base_loader_test g).1 ≠ []) →
  let due epoch := s ≤ epoch < e ∧ checkpoint_epoch (params_save_freq params) e epoch in
  let file := outfile (params_checkpoint_dir params) in
  let mixup0 := MixupState model (Adam [model]) None (print (MsgStopEpoch s e) w) in
  let rotation0 :=
    RotationState model rotate_classifier optimizer (print (MsgStopEpoch s e) w0) in
  (∀ record path (w1 : world), torch_load (Some path) (torch_save record path w1) = Ok record)
  ∧ (∃ model' w',
        train_manifold_mixup base_loader base_loader_test model s e params w = Ok (model', w')
        ∧ ∀ epoch, due epoch →
            ∃ s1,
              for_each (mixup_epoch base_loader base_loader_test e params) (range s epoch) mixup0
              = Ok s1
              ∧ torch_load (Some (file epoch)) w'
                = Ok (Checkpoint epoch
                        (state_dict (mx_model (mixup_train base_loader params s1 epoch))) None))
  ∧ ((∀ g, Forall (fun xy => well_formed xy = true) (iterate base_loader g).1) →
     (∀ g, Forall (fun xy => well_formed xy = true) (take 10 (iterate base_loader_test g).1)) →
     init_rotation model params tmp w = Ok (rotate_classifier, optimizer, w0) →
     ∃ model' w',
       train_rotation base_loader base_loader_test model s e params tmp w = Ok (model', w')
       ∧ ∀ epoch, due epoch →
           ∃ s1 v,
             for_each (rotation_epoch base_loader base_loader_test e params) (range s epoch)
               rotation0 = Ok s1
             ∧ rotation_train base_loader s1 epoch = Ok v
             ∧ torch_load (Some (file epoch)) w'
               = Ok (Checkpoint epoch (state_dict (rv_model v))
                       (Some (state_dict (rv_rotate_classifier v)))))
  ∧ (∀ (p : Params) (m : module) (start_epoch : Z) (w1 : world) path record,
        params_resume p = true →
        get_resume_file (dom (fs w1)) (params_checkpoint_dir p) = Some path →
        torch_load (Some path) w1 = Ok record →
        let w2 := print (MsgRestoredEpoch (ck_epoch record))
                    (print (MsgResumeFile (Some path)) w1) in
        resume_rotation p (Some m) start_epoch w1
        = (m' ←r load_state_dict m (ck_state record); Ok (m', ck_epoch record + 1, w2))
        ∧ resume_S2M2_R p m w1
          = (state ←r remap_linear (ck_state record);
             m' ←r load_state_dict m (model_dict_load m state);
             Ok (m', ck_epoch record + 1,
                 print (MsgKeys (dom (state_dict m))) (print MsgModel w2)))).
Proof.
  intros HF Htests due file mixup0 rotation0.
  split; [intros; apply torch_load_save|]. split; [|split].
  - destruct (train_manifold_mixup_run base_loader base_loader_test params model s e w HF
      Htests) as (s' & _ & Hrun & _ & Hwritten).
    exists (ms_model s'), (ms_world s'). split; [done|].
    intros epoch [Hin Hdue]. destruct (Hwritten epoch Hin Hdue) as (s1 & Hs1 & Hfs).
    exists s1. split; [done|]. unfold torch_load, file. by rewrite Hfs.
  - intros Htrain Hten Hinit.
    destruct (train_rotation_run base_loader base_loader_test params model s e tmp w w0
      rotate_classifier optimizer HF Htrain) as (s' & _ & Hrun & _ & Hwritten);
      [intros g; split; [apply Htests | apply Hten] | done |].
    exists (rs_model s'), (rs_world s'). split; [done|].
    intros epoch [Hin Hdue]. destruct (Hwritten epoch Hin Hdue) as (s1 & v & Hs1 & Hv & Hfs).
    exists s1, v. split; [done|]. split; [done|]. unfold torch_load, file. by rewrite Hfs.
  - intros p m start_epoch w1 path record Hres Hfile Hload w2.
    unfold resume_rotation, resume_S2M2_R. rewrite Hres, Hfile.
    assert (torch_load (Some path) (print (MsgResumeFile (Some path)) w1) = Ok record) as ->
      by exact Hload.
    simpl. split; [done|].
    destruct (remap_linear (ck_state record)); simpl; [|done].
    by destruct (load_state_dict _ _).
Qed.

(** Both drivers over the epochs 0, 1, 2, 3, 4 with save frequency 2: the
    file of epoch 4 holds epoch 4. *)
Lemma checkpoint_save_load_round_trip_witness :
  ∃ m1 w1 m2 w2 r1 r2,
    @train_manifold_mixup (Toy.framework true) Toy.batches Toy.batches (Toy.backbone 3 0).1
      0 5 (Toy.params "ResNet18" "S2M2_R" 5 2) Toy.empty_world = Ok (m1, w1)
    ∧ @train_rotation (Toy.framework true) Toy.batches Toy.batches (Toy.backbone 3 0).1
        0 5 (Toy.params "ResNet18" "S2M2_R" 5 2) None Toy.empty_world = Ok (m2, w2)
    ∧ @torch_load (Toy.framework true) (Some "ckpt/4.tar"%string) w1 = Ok r1 ∧ ck_epoch r1 = 4
    ∧ @torch_load (Toy.framework true) (Some "ckpt/4.tar"%string) w2 = Ok r2 ∧ ck_epoch r2 = 4.
Proof.
  edestruct (@checkpoint_save_load_round_trip (Toy.framework true)
    Toy.batches Toy.batches (Toy.backbone 3 0).1 0 5 (Toy.params "ResNet18" "S2M2_R" 5 2)
    None Toy.empty_world) as (_ & (m1 & w1 & Hrun1 & Hload1) & Hrotation & _).
  - simpl. lia.
  - intros g. simpl. discriminate.
  - edestruct Hrotation as (m2 & w2 & Hrun2 & Hload2).
    { intros g. simpl. repeat constructor. }
    { intros g. simpl. repeat constructor. }
    { reflexivity. }
    destruct (Hload1 4) as (s1 & _ & Hr1); [split; [lia | right; simpl; lia]|].
    destruct (Hload2 4) as (s2 & v & _ & _ & Hr2); [split; [lia | right; simpl; lia]|].
    eexists m1, w1, m2, w2, _, _.
    split; [exact Hrun1|]. split; [exact Hrun2|].
    split; [exact Hr1|]. split; [reflexivity|]. split; [exact Hr2 | reflexivity].
Defined.

(* ===================================================================== *)
(** * The remap on resume                                                  *)
(* ===================================================================== *)

(** C1, as the code has it.  On a loaded state that holds
    ['module.linear.weight'] and ['module.linear.bias'], the remap succeeds
    and adds ['module.linear.L.weight_g'] with the value of the weight and
    ['module.linear.L.weight_v'] with the value of the bias; the two original
    entries and every other entry stay.  The remapped state, laid over the
    network's own dictionary, is what the resume path hands to
    [load_state_dict]. *)
Theorem remap_copies_weight_and_bias {F : Framework} (state : gmap string tensor)
    (weight bias : tensor) :
  state !! "module.linear.weight" = Some weight →
  state !! "module.linear.bias" = Some bias →
  ∃ state',
    remap_linear state = Ok state'
    ∧ state' !! "module.linear.L.weight_g" = Some weight
    ∧ state' !! "module.linear.L.weight_v" = Some bias
    ∧ state' !! "module.linear.weight" = Some weight
    ∧ state' !! "module.linear.bias" = Some bias
    ∧ (∀ k : string, k ≠ "module.linear.L.weight_g"%string →
                     k ≠ "module.linear.L.weight_v"%string → state' !! k = state !! k)
    ∧ (∀ model : module,
          model_dict_load model state' !! "module.linear.L.weight_g" = Some weight
          ∧ model_dict_load model state' !! "module.linear.L.weight_v" = Some bias)
    ∧ (∀ (params : Params) (model : module) (w : world) path tmp,
          params_resume params = true →
          get_resume_file (dom (fs w)) (params_checkpoint_dir params) = Some path →
          fs w !! path = Some tmp →
          ck_state tmp = state →
          ∃ w', resume_S2M2_R params model w
                = (m ←r load_state_dict model (model_dict_load model state');
                   Ok (m, ck_epoch tmp + 1, w'))).
Proof.
  intros Hw Hb. eexists. split; [by apply remap_linear_run|].
  assert (∀ k v (m : gmap string tensor), m !! k = Some v →
            ∀ model, model_dict_load model m !! k = Some v) as Hdict.
  { intros k v m Hk model. unfold model_dict_load. by apply lookup_union_Some_l. }
  repeat split.
  - by rewrite lookup_insert_ne, lookup_insert_eq.
  - by rewrite lookup_insert_eq.
  - by rewrite !lookup_insert_ne.
  - by rewrite !lookup_insert_ne.
  - intros k Hg Hv. by rewrite !lookup_insert_ne.
  - apply Hdict. by rewrite lookup_insert_ne, lookup_insert_eq.
  - apply Hdict. by rewrite lookup_insert_eq.
  - intros params model w path tmp Hres Hfile Hpath Hstate.
    unfold resume_S2M2_R. rewrite Hres, Hfile. unfold torch_load. simpl.
    rewrite Hpath. simpl. rewrite Hstate, (remap_linear_run state weight bias Hw Hb). simpl.
    eexists. reflexivity.
Qed.

(** The remap of a state with weight 5 and bias 6. *)
Lemma remap_copies_weight_and_bias_witness :
  ∃ state',
    @remap_linear (Toy.framework true) Toy.plain_state = Ok state'
    ∧ state' !! "module.linear.L.weight_g" = Some 5
    ∧ state' !! "module.linear.L.weight_v" = Some 6.
Proof.
  destruct (@remap_copies_weight_and_bias (Toy.framework true) Toy.plain_state 5 6)
    as (state' & Hremap & Hg & Hv & _); [reflexivity | reflexivity |].
  exists state'. split; [exact Hremap|]. split; [exact Hg | exact Hv].
Defined.

(** C1, as the spec has it, fails: the two new entries are not a split of the
    original weight.  For the weight 1 there is no pair of values that the
    remap produces whatever the bias, since [weight_v] is the bias: 2 for
    the bias 2 and 3 for the bias 3. *)
Lemma remap_is_not_a_split_of_the_weight :
  ¬ ∃ g v : Z, ∀ bias : Z,
      ∃ state',
        @remap_linear (Toy.framework true)
          {[ "module.linear.weight" := 1; "module.linear.bias" := bias ]} = Ok state'
        ∧ state' !! "module.linear.L.weight_g" = Some g
        ∧ state' !! "module.linear.L.weight_v" = Some v.
Proof.
  intros (g & v & H).
  assert (∀ bias : Z, v = bias) as Hv.
  { intros bias. destruct (H bias) as (state' & Hremap & _ & Hlook).
    rewrite (@remap_linear_run (Toy.framework true) _ 1 bias) in Hremap; [| done | done].
    injection Hremap as <-. rewrite lookup_insert_eq in Hlook. congruence. }
  pose proof (Hv 2). pose proof (Hv 3). lia.
Qed.

(* ===================================================================== *)
(** * Unsupported flags                                                    *)
(* ===================================================================== *)

Section Flags.
Context {F : Framework}.

Lemma main_unsupported_method (params : Params) (w : world) (dir : string) :
  data_dir !! params_dataset params = Some dir →
  params_method params ≠ "S2M2_R"%string → params_method params ≠ "rotation"%string →
  main params w = Ok (select_model (main_params params) w).
Proof.
  intros Hdir H1%String.eqb_neq H2%String.eqb_neq. unfold main, getitem. simpl.
  rewrite Hdir. simpl. fold (main_params params).
  destruct (select_model (main_params params) w) as [model w0].
  by rewrite H1, H2.
Qed.

Lemma main_S2M2_R_unbound (params : Params) (w : world) (dir : string) :
  data_dir !! params_dataset params = Some dir →
  select_model (main_params params) w = (None, w) →
  params_method params = "S2M2_R"%string →
  main params w = Raise (NameError "model").
Proof.
  intros Hdir Hsel Hmethod. unfold main, getitem. simpl. rewrite Hdir. simpl.
  fold (main_params params). rewrite Hsel, Hmethod. done.
Qed.

Lemma main_rotation_unbound_gpu (params : Params) (w : world) (dir : string) :
  data_dir !! params_dataset params = Some dir →
  select_model (main_params params) w = (None, w) →
  params_method params = "rotation"%string →
  use_gpu = true →
  main params w = Raise (NameError "model").
Proof.
  intros Hdir Hsel Hmethod Hgpu. unfold main, getitem. simpl. rewrite Hdir. simpl.
  fold (main_params params). rewrite Hsel, Hmethod, Hgpu. simpl.
  by destruct (1 <? device_count)%nat.
Qed.

Lemma main_rotation_unbound_cpu (params : Params) (w : world) (dir path : string) tmp :
  data_dir !! params_dataset params = Some dir →
  select_model (main_params params) w = (None, w) →
  params_method params = "rotation"%string →
  use_gpu = false →
  get_resume_file (dom (fs w)) (checkpoint_dir_of params) = Some path →
  fs w !! path = Some tmp →
  main params w = Raise (NameError "model").
Proof.
  intros Hdir Hsel Hmethod Hgpu Hfile Hpath. unfold main, getitem. simpl. rewrite Hdir. simpl.
  fold (main_params params). rewrite Hsel, Hmethod, Hgpu. simpl.
  unfold resume_rotation. simpl.
  change (checkpoint_dir_of (set_resume true params)) with (checkpoint_dir_of params).
  rewrite Hfile. unfold torch_load. simpl. by rewrite Hpath.
Qed.

Lemma train_rotation_unbound (base_loader base_loader_test : loader) (model : module)
    (s e : Z) (params : Params) tmp (w : world) :
  select_rotate_classifier params w = (None, w) →
  train_rotation base_loader base_loader_test model s e params tmp w
  = Raise (NameError "rotate_classifier").
Proof.
  intros Hsel. unfold train_rotation, init_rotation. rewrite Hsel.
  destruct use_gpu; simpl; [done|].
  by destruct tmp as [[epoch state [rotate|]]|].
Qed.

End Flags.

(** C7, as the code has it.  On a dataset that [configs.data_dir] holds, for
    a model name outside WideResNet28_10 and ResNet18 both dispatches are
    silent: [model] and [rotate_classifier] stay unbound.  The entry point
    then fails with a [NameError] at its first use of [model], which exists
    only under the methods S2M2_R (line 242) and rotation (lines 294-295 on a
    GPU, line 304 after the resume file is loaded otherwise); the rotation
    driver fails with a [NameError] at its first use of [rotate_classifier].
    For a method name outside S2M2_R and rotation neither regimen runs: on
    such a dataset the entry point ends without an error, whatever the model
    name.  On any other dataset the entry point fails with a [KeyError] at
    line 225, before either dispatch, whatever the model and the method. *)
Theorem unsupported_model_fails_at_first_use {F : Framework} (params : Params) (w : world)
    (dir : string) :
  params_model params ≠ "WideResNet28_10"%string →
  params_model params ≠ "ResNet18"%string →
  data_dir !! params_dataset params = Some dir →
  select_model (main_params params) w = (None, w)
  ∧ select_rotate_classifier params w = (None, w)
  ∧ (params_method params = "S2M2_R"%string → main params w = Raise (NameError "model"))
  ∧ (params_method params = "rotation"%string → use_gpu = true →
       main params w = Raise (NameError "model"))
  ∧ (params_method params = "rotation"%string → use_gpu = false →
       ∀ path tmp,
         get_resume_file (dom (fs w)) (checkpoint_dir_of params) = Some path →
         fs w !! path = Some tmp →
         main params w = Raise (NameError "model"))
  ∧ (∀ base_loader base_loader_test model s e tmp,
        train_rotation base_loader base_loader_test model s e params tmp w
        = Raise (NameError "rotate_classifier"))
  ∧ (params_method params ≠ "S2M2_R"%string → params_method params ≠ "rotation"%string →
       main params w = Ok (None, w))
  ∧ (∀ (params' : Params) (w' : world) dir',
        data_dir !! params_dataset params' = Some dir' →
        params_method params' ≠ "S2M2_R"%string →
        params_method params' ≠ "rotation"%string →
        main params' w' = Ok (select_model (main_params params') w'))
  ∧ (∀ (params' : Params) (w' : world),
        data_dir !! params_dataset params' = None →
        main params' w' = Raise (KeyError (params_dataset params'))).
Proof.
  intros H1 H2 Hdir.
  assert (select_model (main_params params) w = (None, w)) as Hsel
    by (by apply select_model_unsupported).
  assert (select_rotate_classifier params w = (None, w)) as Hrot
    by (by apply select_rotate_classifier_unsupported).
  split; [done|]. split; [done|]. repeat split.
  - intros Hm. by eapply main_S2M2_R_unbound.
  - intros Hm Hgpu. by eapply main_rotation_unbound_gpu.
  - intros Hm Hgpu path tmp Hfile Hpath. by eapply main_rotation_unbound_cpu.
  - intros. by apply train_rotation_unbound.
  - intros Hm1 Hm2. rewrite (main_unsupported_method params w dir) by done. by rewrite Hsel.
  - intros params' w' dir'. apply main_unsupported_method.
  - intros params' w' Hnone. unfold main, getitem. simpl. by rewrite Hnone.
Qed.

(** The model name Conv4 under the method S2M2_R. *)
Lemma unsupported_model_fails_at_first_use_witness :
  @main (Toy.framework true) (Toy.params "Conv4" "S2M2_R" 3 2) Toy.empty_world
  = Raise (NameError "model").
Proof.
  destruct (@unsupported_model_fails_at_first_use (Toy.framework true)
    (Toy.params "Conv4" "S2M2_R" 3 2) Toy.empty_world "data/cifar/")
    as (_ & _ & Hmain & _); [discriminate | discriminate | reflexivity |].
  apply Hmain. reflexivity.
Defined.

(** C7, as the spec has it, fails: with a model name and a method name that
    are both unsupported, on a dataset that [configs.data_dir] holds, [model]
    is unbound and never used, and the entry point ends without any
    failure. *)
Lemma unsupported_method_never_fails :
  (@select_model (Toy.framework true)
     (@main_params (Toy.framework true) (Toy.params "Conv4" "baseline" 3 2))
     Toy.empty_world).1 = None
  ∧ ¬ (∃ e, @main (Toy.framework true) (Toy.params "Conv4" "baseline" 3 2) Toy.empty_world
            = Raise e).
Proof.
  split; [reflexivity|]. intros [e He].
  rewrite (@main_unsupported_method (Toy.framework true) _ _ "data/cifar/") in He;
    [discriminate | reflexivity | discriminate | discriminate].
Qed.

(* ===================================================================== *)
(** * The rotation head on resume                                          *)
(* ===================================================================== *)

Section Head.
Context {F : Framework}.

(** A finished run of the entry point under the rotation regimen. *)
Lemma main_rotation_inv (params : Params) (w : world) r :
  params_method params = "rotation"%string →
  main params w = Ok r →
  ∃ dir model0 w0 model1 start_epoch w1 model' w',
    data_dir !! params_dataset params = Some dir
    ∧ fs w0 = fs w
    ∧ resume_rotation (main_params params) (Some model0) (params_start_epoch params) w0
      = Ok (model1, start_epoch, w1)
    ∧ train_rotation (main_base_loader params dir) (main_base_loader_test params dir)
        model1 start_epoch (params_stop_epoch params) (main_params params) None w1
      = Ok (model', w')
    ∧ r = (Some model', w').
Proof.
  intros Hmethod. unfold main, getitem. simpl.
  destruct (data_dir !! params_dataset params) as [dir|]; simpl; [|done].
  fold (main_params params).
  pose proof (select_model_fs (main_params params) w) as Hfs.
  destruct (select_model (main_params params) w) as [model w0]. simpl in Hfs.
  rewrite Hmethod. simpl.
  set (placed := if use_gpu then _ else _).
  destruct placed as [model0|] eqn:Hplaced; simpl; [|done].
  destruct (resume_rotation _ _ _ _) as [[[model1 start_epoch] w1]|] eqn:Hres; simpl; [|done].
  destruct (train_rotation _ _ _ _ _ _ _ _) as [[model' w']|] eqn:Hrun; simpl; [|done].
  intros [= <-].
  destruct (resume_rotation_inv (main_params params) _ _ _ _ _ _ eq_refl Hres)
    as (_ & _ & m & _ & _ & _ & -> & _).
  exists dir, m, w0, model1, start_epoch, w1, model', w'. done.
Qed.

(** Without a saved state the head is the freshly initialised linear layer,
    and nothing is printed. *)
Lemma init_rotation_None (model : module) (params : Params) (w w' : world)
    (rotate_classifier : module) (optimizer : adam) :
  init_rotation model params None w = Ok (rotate_classifier, optimizer, w') →
  ∃ d, (d = 640 ∨ d = 512)
       ∧ rotate_classifier = (if use_gpu then cuda else id) (Linear d 4 (gen w)).1
       ∧ gen w' = (Linear d 4 (gen w)).2
       ∧ stdout w' = stdout w.
Proof.
  unfold init_rotation, select_rotate_classifier, draw.
  destruct (String.eqb _ _); [|destruct (String.eqb _ _)].
  - destruct (Linear 640 4 (gen w)) as [m g] eqn:HL. simpl.
    destruct use_gpu; simpl; intros [= <- _ <-]; exists 640; rewrite HL; simpl; auto.
  - destruct (Linear 512 4 (gen w)) as [m g] eqn:HL. simpl.
    destruct use_gpu; simpl; intros [= <- _ <-]; exists 512; rewrite HL; simpl; auto.
  - simpl. by destruct use_gpu.
Qed.

End Head.

(** C8.  Under the rotation method the entry point calls the rotation driver
    with [None] for the saved state, whatever the resumed checkpoint holds
    under ['rotate']: the head of the run is the freshly initialised linear
    layer, nothing is loaded into it, and "loading rotate model" is not
    printed. *)
Theorem rotation_head_starts_fresh {F : Framework} (params : Params) (w : world)
    (r : option module * world) :
  params_method params = "rotation"%string →
  main params w = Ok r →
  ∃ path tmp dir model1 w1 model' w',
    get_resume_file (dom (fs w)) (checkpoint_dir_of params) = Some path
    ∧ fs w !! path = Some tmp
    ∧ train_rotation (main_base_loader params dir) (main_base_loader_test params dir)
        model1 (ck_epoch tmp + 1) (params_stop_epoch params) (main_params params) None w1
      = Ok (model', w')
    ∧ r = (Some model', w')
    ∧ ∃ rotate_classifier optimizer w2 d,
        init_rotation model1 (main_params params) None w1
        = Ok (rotate_classifier, optimizer, w2)
        ∧ (d = 640 ∨ d = 512)
        ∧ rotate_classifier = (if use_gpu then cuda else id) (Linear d 4 (gen w1)).1
        ∧ stdout w2 = stdout w1.
Proof.
  intros Hmethod Hmain.
  destruct (main_rotation_inv params w r Hmethod Hmain)
    as (dir & model0 & w0 & model1 & start_epoch & w1 & model' & w' & Hdir & Hfs & Hres
        & Hrun & ->).
  destruct (resume_rotation_inv (main_params params) _ _ _ _ _ _ eq_refl Hres)
    as (path & tmp & m & Hfile & Hpath & -> & _).
  rewrite Hfs in Hfile, Hpath.
  exists path, tmp, dir, model1, w1, model', w'.
  split; [done|]. split; [done|]. split; [done|]. split; [done|].
  unfold train_rotation in Hrun.
  destruct (init_rotation model1 (main_params params) None w1)
    as [[[rotate_classifier optimizer] w2]|] eqn:Hinit; simpl in Hrun; [|done].
  destruct (init_rotation_None _ _ _ _ _ _ Hinit) as (d & Hd & Hrc & _ & Hout).
  exists rotate_classifier, optimizer, w2, d. done.
Qed.

(** The entry point resumed, under the rotation method, from a checkpoint of
    epoch 0 that holds a ['rotate'] entry. *)
Lemma rotation_head_starts_fresh_witness :
  ∃ r path tmp,
    @main (Toy.framework true) (Toy.params "ResNet18" "rotation" 3 2)
      (Toy.resume_world (Toy.main_dir "rotation") 0 Toy.full_state (Some (Toy.head 7 7 0).1))
    = Ok r
    ∧ fs (Toy.resume_world (Toy.main_dir "rotation") 0 Toy.full_state (Some (Toy.head 7 7 0).1))
        !! path = Some tmp
    ∧ is_Some (ck_rotate tmp).
Proof.
  assert (returned (@main (Toy.framework true) (Toy.params "ResNet18" "rotation" 3 2)
            (Toy.resume_world (Toy.main_dir "rotation") 0 Toy.full_state
               (Some (Toy.head 7 7 0).1))) = true) as Hret by (vm_compute; reflexivity).
  destruct (@main (Toy.framework true) (Toy.params "ResNet18" "rotation" 3 2)
              (Toy.resume_world (Toy.main_dir "rotation") 0 Toy.full_state
                 (Some (Toy.head 7 7 0).1))) as [r|] eqn:Hr; [|discriminate Hret].
  destruct (@rotation_head_starts_fresh (Toy.framework true)
    (Toy.params "ResNet18" "rotation" 3 2)
    (Toy.resume_world (Toy.main_dir "rotation") 0 Toy.full_state (Some (Toy.head 7 7 0).1))
    r eq_refl Hr) as (path & tmp & _ & _ & _ & _ & _ & Hfile & Hpath & _).
  exists r, path, tmp. split; [reflexivity|]. split; [exact Hpath|].
  unfold Toy.resume_world in Hpath. simpl in Hpath.
  apply lookup_singleton_Some in Hpath as [_ <-]. simpl. eauto.
Defined.

(* ===================================================================== *)
(** * Failing runs                                                         *)
(* ===================================================================== *)

(** An empty batch: [torch.stack] refuses the empty list. *)
Example rotate_batch_empty :
  @rotate_batch (Toy.framework true) ([], [])
  = Raise (RuntimeError "stack expects a non-empty TensorList").
Proof. reflexivity. Qed.

(** A 2 x 3 image: its quarter turn is 3 x 2 and the stack is ragged. *)
Example rotate_batch_not_square :
  @rotate_batch (Toy.framework true) ([Tensor3 1 2 3 (fun _ _ _ => 0)], [7])
  = Raise (RuntimeError "stack expects each tensor to be equal size").
Proof. reflexivity. Qed.

(** A label vector shorter than the batch. *)
Example rotate_batch_short_labels :
  @rotate_batch (Toy.framework true) ([Toy.img 100; Toy.img 200], [7]) = Raise IndexError.
Proof. reflexivity. Qed.

(** A save frequency of 0 ends the first epoch of either driver. *)
Example save_freq_zero :
  @train_manifold_mixup (Toy.framework true) Toy.batches Toy.batches (Toy.backbone 3 0).1
    0 5 (Toy.params "ResNet18" "S2M2_R" 5 0) Toy.empty_world = Raise ZeroDivisionError
  ∧ @train_rotation (Toy.framework true) Toy.batches Toy.batches (Toy.backbone 3 0).1
      0 5 (Toy.params "ResNet18" "rotation" 5 0) None Toy.empty_world
    = Raise ZeroDivisionError.
Proof. split; vm_compute; reflexivity. Qed.

(** An empty held-out stream ends the first epoch at the accuracy line. *)
Example empty_held_out_stream :
  @train_manifold_mixup (Toy.framework true) Toy.batches [] (Toy.backbone 3 0).1
    0 5 (Toy.params "ResNet18" "S2M2_R" 5 2) Toy.empty_world = Raise ZeroDivisionError
  ∧ @train_rotation (Toy.framework true) Toy.batches [] (Toy.backbone 3 0).1
      0 5 (Toy.params "ResNet18" "rotation" 5 2) None Toy.empty_world
    = Raise ZeroDivisionError.
Proof. split; vm_compute; reflexivity. Qed.

(** Given a saved state with a ['rotate'] entry, the rotation driver loads it
    into the head and says so; the entry point never gives one. *)
Example init_rotation_loads_rotate :
  match @init_rotation (Toy.framework true) (Toy.backbone 3 0).1
          (Toy.params "ResNet18" "rotation" 3 2)
          (Some (Checkpoint 0 Toy.full_state (Some (Toy.head 7 7 0).1))) Toy.empty_world with
  | Ok (rotate_classifier, _, w') => Some (rotate_classifier, stdout w')
  | Raise _ => None
  end = Some ((Toy.head 7 7 0).1, [MsgLoadingRotate]).
Proof. vm_compute. reflexivity. Qed.

(** Without a resume file the mixup regimen stops at [torch.load]. *)
Example main_without_resume_file :
  @main (Toy.framework true) (Toy.params "ResNet18" "S2M2_R" 3 2) Toy.empty_world
  = Raise AttributeError.
Proof. vm_compute. reflexivity. Qed.

(* ===================================================================== *)
(** * Further properties: file names, empty ranges, failing epochs         *)
(* ===================================================================== *)

(** X1.  Two epochs have the same checkpoint file only if they are the same
    epoch, in any directory: a later save never overwrites the checkpoint of
    another epoch. *)
Theorem checkpoint_files_are_distinct (dir : string) (e1 e2 : Z) :
  outfile dir e1 = outfile dir e2 ↔ e1 = e2.
Proof. split; [apply outfile_inj | by intros ->]. Qed.

Lemma range_empty (s e : Z) : e ≤ s → range s e = [].
Proof. intros H. unfold range. apply seqZ_nil. lia. Qed.

Lemma range_first (s e : Z) : s < e → range s e = s :: range (s + 1) e.
Proof.
  intros H. unfold range. rewrite seqZ_cons by lia. f_equal.
  replace (Z.succ s) with (s + 1) by lia. f_equal. lia.
Qed.

(** X2.  Over an empty epoch range ([stop_epoch <= start_epoch]) the mixup
    driver returns the network it was given and only prints its first line:
    nothing is trained, evaluated or saved, whatever the save frequency and
    the loaders.  The rotation driver does the same once its head is set
    up. *)
Theorem drivers_skip_an_empty_range {F : Framework}
    (base_loader base_loader_test : loader) (model : module) (s e : Z) (params : Params)
    (tmp : option (checkpoint tensor)) (w : world) :
  e ≤ s →
  train_manifold_mixup base_loader base_loader_test model s e params w
  = Ok (model, print (MsgStopEpoch s e) w)
  ∧ train_rotation base_loader base_loader_test model s e params tmp w
    = ('(rotate_classifier, optimizer, w0) ←r init_rotation model params tmp w;
       Ok (model, print (MsgStopEpoch s e) w0)).
Proof.
  intros H. unfold train_manifold_mixup, train_rotation. rewrite (range_empty s e H).
  split; [done|]. by destruct (init_rotation _ _ _ _) as [[[rc opt] w0]|].
Qed.

Lemma drivers_skip_an_empty_range_witness :
  @train_manifold_mixup (Toy.framework true) Toy.batches [] (Toy.backbone 3 0).1 4 4
    (Toy.params "ResNet18" "S2M2_R" 0 0) Toy.empty_world
  = Ok ((Toy.backbone 3 0).1, World ∅ O [MsgStopEpoch 4 4]).
Proof.
  destruct (@drivers_skip_an_empty_range (Toy.framework true) Toy.batches []
    (Toy.backbone 3 0).1 4 4 (Toy.params "ResNet18" "S2M2_R" 0 0) None Toy.empty_world)
    as [H _]; [lia|].
  exact H.
Defined.

(** X3.  With a save frequency of 0 the test [epoch % save_freq] of the first
    epoch raises [ZeroDivisionError]: the mixup driver fails on every
    non-empty epoch range, and so does the rotation driver once the training
    pass of its first epoch has gone through. *)
Theorem save_freq_zero_fails_the_first_epoch {F : Framework}
    (base_loader base_loader_test : loader) (model : module) (s e : Z) (params : Params)
    (tmp : option (checkpoint tensor)) (w w0 : world)
    (rotate_classifier : module) (optimizer : adam) :
  params_save_freq params = 0 →
  s < e →
  train_manifold_mixup base_loader base_loader_test model s e params w
  = Raise ZeroDivisionError
  ∧ ((∀ g, Forall (fun xy => well_formed xy = true) (iterate base_loader g).1) →
     init_rotation model params tmp w = Ok (rotate_classifier, optimizer, w0) →
     train_rotation base_loader base_loader_test model s e params tmp w
     = Raise ZeroDivisionError).
Proof.
  intros HF Hse. split.
  - unfold train_manifold_mixup. rewrite (range_first s e Hse). simpl.
    unfold mixup_epoch, save_checkpoint, save_due. by rewrite HF.
  - intros Htrain Hinit. unfold train_rotation. rewrite Hinit. simpl.
    rewrite (range_first s e Hse). simpl. unfold rotation_epoch.
    destruct (rotation_train_run base_loader
      (RotationState model rotate_classifier optimizer (print (MsgStopEpoch s e) w0)) s Htrain)
      as [v ->].
    simpl. unfold save_checkpoint, save_due. by rewrite HF.
Qed.

Lemma save_freq_zero_fails_the_first_epoch_witness :
  @train_manifold_mixup (Toy.framework true) Toy.batches Toy.batches (Toy.backbone 3 0).1 0 5
    (Toy.params "ResNet18" "S2M2_R" 5 0) Toy.empty_world = Raise ZeroDivisionError
  ∧ @train_rotation (Toy.framework true) Toy.batches Toy.batches (Toy.backbone 3 0).1 0 5
      (Toy.params "ResNet18" "S2M2_R" 5 0) None Toy.empty_world = Raise ZeroDivisionError.
Proof.
  edestruct (@save_freq_zero_fails_the_first_epoch (Toy.framework true) Toy.batches Toy.batches
    (Toy.backbone 3 0).1 0 5 (Toy.params "ResNet18" "S2M2_R" 5 0) None Toy.empty_world)
    as [Hmixup Hrotation]; [reflexivity | lia |].
  split; [exact Hmixup|]. apply Hrotation.
  - intros g. simpl. repeat constructor.
  - reflexivity.
Defined.

Lemma mixup_batch_idx {F : Framework} (params : Params) (base_loader : loader)
    (l : list (nat * batch)) (v : mixup_vars) :
  l ≠ [] → is_Some (mx_batch_idx (fold_left (mixup_batch params base_loader) l v)).
Proof.
  revert v. induction l as [|b l IH]; intros v Hl; [done|]. simpl.
  destruct l as [|b' l]; [|by apply IH].
  simpl. destruct b as [batch_idx [input_var target_var]]. unfold mixup_batch.
  destruct (draw (np_random_beta _ _) _) as [lam w1].
  destruct (draw (forward_mixup _ _ _ _ _) _) as [[[outputs target_a] target_b] w2].
  destruct (adam_step _ _ _) as [optimizer model]. simpl. eauto.
Qed.

(** X4.  An empty held-out stream fails the accuracy line of the first
    epoch.  The evaluation of the rotation driver divides by [total = 0]; the
    mixup driver divides by [total = 0] as well when a training batch has
    bound [batch_idx], and reads the unbound [batch_idx] otherwise.  So with
    a non-zero save frequency both drivers fail on every non-empty epoch
    range whose held-out stream is empty, the rotation driver once its head
    is set up and its training pass has gone through. *)
Theorem empty_held_out_stream_fails {F : Framework}
    (base_loader base_loader_test : loader) (model : module) (s e : Z) (params : Params)
    (tmp : option (checkpoint tensor)) (w w0 : world)
    (rotate_classifier : module) (optimizer : adam) :
  params_save_freq params ≠ 0 →
  s < e →
  (∀ g, (iterate base_loader_test g).1 = []) →
  (∀ model rotate_classifier, rotation_test model rotate_classifier [] = Raise ZeroDivisionError)
  ∧ (∀ model batch_idx,
        mixup_test model batch_idx []
        = Raise (if batch_idx is Some _ then ZeroDivisionError else NameError "batch_idx"))
  ∧ ((∀ g, (iterate base_loader g).1 ≠ []) →
     train_manifold_mixup base_loader base_loader_test model s e params w
     = Raise ZeroDivisionError)
  ∧ ((∀ g, (iterate base_loader g).1 = []) →
     train_manifold_mixup base_loader base_loader_test model s e params w
     = Raise (NameError "batch_idx"))
  ∧ ((∀ g, Forall (fun xy => well_formed xy = true) (iterate base_loader g).1) →
     init_rotation model params tmp w = Ok (rotate_classifier, optimizer, w0) →
     train_rotation base_loader base_loader_test model s e params tmp w
     = Raise ZeroDivisionError).
Proof.
  intros HF Hse Htests. split; [done|]. split; [by intros model' [idx|]|].
  assert (∀ s0 : mixup_state,
    mixup_epoch base_loader base_loader_test e params s0 s
    = (let v := mixup_train base_loader params s0 s in
       '(line, batch_idx) ←r mixup_test (train_mode false (mx_model v)) (mx_batch_idx v) [];
       Raise ZeroDivisionError)) as Hepoch.
  { intros s0. unfold mixup_epoch.
    destruct (save_checkpoint_ok params s e
      (Checkpoint s (state_dict (mx_model (mixup_train base_loader params s0 s))) None)
      (mx_world (mixup_train base_loader params s0 s)) HF) as [w1 ->]. simpl.
    pose proof (Htests (gen w1)) as Hnil. unfold draw.
    destruct (iterate base_loader_test (gen w1)) as [tests g]. simpl in Hnil. subst tests.
    simpl. by destruct (mx_batch_idx _). }
  split; [|split]; intros Htrain.
  - unfold train_manifold_mixup. rewrite (range_first s e Hse). simpl.
    rewrite Hepoch. simpl. unfold mixup_train, draw.
    pose proof (Htrain (gen (print (MsgEpoch s) (print (MsgStopEpoch s e) w)))) as Hne.
    destruct (iterate base_loader _) as [batches g]. simpl in Hne.
    edestruct (mixup_batch_idx params base_loader (enumerate batches)) as [idx ->];
      [by intros ?%enumerate_nil | done].
  - unfold train_manifold_mixup. rewrite (range_first s e Hse). simpl.
    rewrite Hepoch. simpl. unfold mixup_train, draw.
    pose proof (Htrain (gen (print (MsgEpoch s) (print (MsgStopEpoch s e) w)))) as Hnil.
    destruct (iterate base_loader _) as [batches g]. simpl in Hnil. by subst batches.
  - intros Hinit. unfold train_rotation. rewrite Hinit. simpl.
    rewrite (range_first s e Hse). simpl. unfold rotation_epoch.
    destruct (rotation_train_run base_loader
      (RotationState model rotate_classifier optimizer (print (MsgStopEpoch s e) w0)) s Htrain)
      as [v ->]. simpl.
    destruct (save_checkpoint_ok params s e
      (Checkpoint s (state_dict (rv_model v)) (Some (state_dict (rv_rotate_classifier v))))
      (rv_world v) HF) as [w1 ->]. simpl.
    pose proof (Htests (gen w1)) as Hnil. unfold draw.
    destruct (iterate base_loader_test (gen w1)) as [tests g]. simpl in Hnil. by subst tests.
Qed.

Lemma empty_held_out_stream_fails_witness :
  @train_manifold_mixup (Toy.framework true) Toy.batches [] (Toy.backbone 3 0).1 0 5
    (Toy.params "ResNet18" "S2M2_R" 5 2) Toy.empty_world = Raise ZeroDivisionError
  ∧ @train_rotation (Toy.framework true) Toy.batches [] (Toy.backbone 3 0).1 0 5
      (Toy.params "ResNet18" "S2M2_R" 5 2) None Toy.empty_world = Raise ZeroDivisionError.
Proof.
  edestruct (@empty_held_out_stream_fails (Toy.framework true) Toy.batches []
    (Toy.backbone 3 0).1 0 5 (Toy.params "ResNet18" "S2M2_R" 5 2) None Toy.empty_world)
    as (_ & _ & Hmixup & _ & Hrotation); [simpl; lia | lia | reflexivity |].
  split.
  - apply Hmixup. intros g. simpl. discriminate.
  - apply Hrotation; [intros g; simpl; repeat constructor | reflexivity].
Defined.

(* ===================================================================== *)
(** * Further properties: the remap                                        *)
(* ===================================================================== *)

(** X5.  The remap needs both linear-layer entries: without
    ['module.linear.weight'] it raises [KeyError] on that key, with it but
    without ['module.linear.bias'] it raises [KeyError] on the bias key, and
    the mixup resume path then fails before anything is loaded into the
    network. *)
Theorem remap_needs_weight_and_bias {F : Framework} (state : gmap string tensor) :
  (state !! "module.linear.weight" = None →
   remap_linear state = Raise (KeyError "module.linear.weight"))
  ∧ (is_Some (state !! "module.linear.weight") → state !! "module.linear.bias" = None →
     remap_linear state = Raise (KeyError "module.linear.bias"))
  ∧ (returned (remap_linear state) = true
     ↔ is_Some (state !! "module.linear.weight") ∧ is_Some (state !! "module.linear.bias"))
  ∧ (∀ (params : Params) (model : module) (w : world) path tmp e,
        params_resume params = true →
        get_resume_file (dom (fs w)) (params_checkpoint_dir params) = Some path →
        fs w !! path = Some tmp →
        ck_state tmp = state →
        remap_linear state = Raise e →
        resume_S2M2_R params model w = Raise e).
Proof.
  assert (∀ weight, state !! "module.linear.weight" = Some weight →
            state !! "module.linear.bias" = None →
            remap_linear state = Raise (KeyError "module.linear.bias")) as Hbias.
  { intros weight Hw Hb. unfold remap_linear, getitem. rewrite Hw. simpl.
    rewrite lookup_insert_ne by done. by rewrite Hb. }
  assert (state !! "module.linear.weight" = None →
          remap_linear state = Raise (KeyError "module.linear.weight")) as Hweight.
  { intros Hw. unfold remap_linear, getitem. by rewrite Hw. }
  split; [done|]. split; [by intros [weight Hw]; eauto|]. split.
  - split.
    + destruct (state !! "module.linear.weight") as [weight|] eqn:Hw;
        [|by rewrite Hweight].
      destruct (state !! "module.linear.bias") as [bias|] eqn:Hb;
        [eauto | by rewrite (Hbias weight)].
    + intros [[weight Hw] [bias Hb]]. by rewrite (remap_linear_run state weight bias).
  - intros params model w path tmp e Hres Hfile Hpath Hstate Hremap.
    unfold resume_S2M2_R. rewrite Hres, Hfile. unfold torch_load. simpl.
    rewrite Hpath. simpl. by rewrite Hstate, Hremap.
Qed.

(** X6.  The remap is idempotent: a state that has been remapped is left as
    it is by a second remap, so resuming from a checkpoint of an already
    remapped network changes nothing more. *)
Theorem remap_twice_is_remap_once {F : Framework} (state state' : gmap string tensor) :
  remap_linear state = Ok state' → remap_linear state' = Ok state'.
Proof.
  intros (weight & bias & Hw & Hb & ->)%remap_linear_inv.
  rewrite (remap_linear_run _ weight bias); [| by rewrite !lookup_insert_ne
                                            | by rewrite !lookup_insert_ne].
  f_equal. apply map_eq. intros k.
  destruct (decide (k = "module.linear.L.weight_v"%string)) as [->|Hv].
  { by rewrite !lookup_insert_eq. }
  rewrite (lookup_insert_ne _ "module.linear.L.weight_v" k) by done.
  destruct (decide (k = "module.linear.L.weight_g"%string)) as [->|Hg].
  { rewrite lookup_insert_eq. by rewrite lookup_insert_ne, lookup_insert_eq. }
  by rewrite !lookup_insert_ne.
Qed.

Lemma remap_twice_is_remap_once_witness :
  ∃ state', @remap_linear (Toy.framework true) Toy.plain_state = Ok state'
            ∧ @remap_linear (Toy.framework true) state' = Ok state'.
Proof.
  pose proof (@remap_linear_run (Toy.framework true) Toy.plain_state 5 6
                eq_refl eq_refl) as Hremap.
  eexists. split; [exact Hremap|].
  exact (@remap_twice_is_remap_once (Toy.framework true) Toy.plain_state _ Hremap).
Defined.

(* ===================================================================== *)
(** * Further properties: the rotated batch                                *)
(* ===================================================================== *)

(** X7.  A quarter turn swaps height and width and keeps the channels, and
    four quarter turns give the image back: the fourth rotation of the loop
    over [j] would be the image itself, so [x270] is the last new one. *)
Theorem four_quarter_turns_are_the_identity {F : Framework} (t : image) :
  shape (rot90 t) = (size0 t, size2 t, size1 t)
  ∧ shape (rot90 (rot90 t)) = shape t
  ∧ same_tensor (rot90 (rot90 (rot90 (rot90 t)))) t.
Proof.
  split; [done|]. split; [done|]. split; [done|].
  simpl. intros c i j Hc Hi Hj. f_equal; lia.
Qed.

(** X8.  The three ways in which building the rotated batch fails: an empty
    batch makes [torch.stack] refuse the empty list; a batch with fewer
    labels than images makes [y[j]] fail on the first image without a label;
    a batch whose first image is not square, or that has an image of another
    shape than the first, makes [torch.stack] refuse the unequal sizes. *)
Theorem rotate_batch_failures {F : Framework} (x : list image) (y : list Z) :
  (x = [] →
   rotate_batch (x, y) = Raise (RuntimeError "stack expects a non-empty TensorList"))
  ∧ ((length y < length x)%nat → rotate_batch (x, y) = Raise IndexError)
  ∧ (∀ x0 xs, x = x0 :: xs → (length x ≤ length y)%nat →
       size1 x0 ≠ size2 x0 ∨ Exists (fun u => shape u ≠ shape x0) xs →
       rotate_batch (x, y)
       = Raise (RuntimeError "stack expects each tensor to be equal size")).
Proof.
  split; [by intros ->|]. split.
  - intros Hlt. unfold rotate_batch. rewrite rotate_loop.
    by rewrite decide_False by lia.
  - intros x0 xs Hx Hle Hbad. unfold rotate_batch. rewrite rotate_loop.
    rewrite decide_True by done. simpl.
    assert (stack shape (x ≫= rotations)
            = Raise (RuntimeError "stack expects each tensor to be equal size")) as ->;
      [|done].
    subst x. unfold stack. rewrite bind_cons.
    change (rotations x0 ++ (xs ≫= rotations))
      with (x0 :: ([rot90 x0; rot90 (rot90 x0); rot90 (rot90 (rot90 x0))]
                     ++ (xs ≫= rotations))).
    cbv beta iota.
    match goal with |- context [forallb ?f ?l] => destruct (forallb f l) eqn:Hall end;
      [exfalso | done].
    rewrite forallb_forall in Hall.
    destruct Hbad as [Hsq|(u & Hu & Hshape)%Exists_exists].
    + specialize (Hall (rot90 x0)). rewrite bool_decide_eq_true in Hall.
      apply Hsq. symmetry.
      assert (shape (rot90 x0) = shape x0) as Heq by (apply Hall; simpl; auto).
      unfold shape in Heq. simpl in Heq. congruence.
    + apply Hshape. specialize (Hall u). rewrite bool_decide_eq_true in Hall.
      apply Hall. right. apply in_or_app. right. apply list_elem_of_In.
      apply list_elem_of_bind. exists u. split; [left | done].
Qed.

Lemma rotate_batch_failures_witness :
  @rotate_batch (Toy.framework true) ([], [7]) 
  = Raise (RuntimeError "stack expects a non-empty TensorList")
  ∧ @rotate_batch (Toy.framework true) ([Toy.img 100; Toy.img 200], [7]) = Raise IndexError
  ∧ @rotate_batch (Toy.framework true)
      ([Toy.img 100; Tensor3 1 2 3 (fun _ _ _ => 0)], [7; 8])
    = Raise (RuntimeError "stack expects each tensor to be equal size").
Proof.
  split; [|split].
  - apply (@rotate_batch_failures (Toy.framework true) [] [7]). reflexivity.
  - apply (@rotate_batch_failures (Toy.framework true) [Toy.img 100; Toy.img 200] [7]).
    simpl. lia.
  - apply (proj2 (proj2 (@rotate_batch_failures (Toy.framework true)
             [Toy.img 100; Tensor3 1 2 3 (fun _ _ _ => 0)] [7; 8]))
             (Toy.img 100) [Tensor3 1 2 3 (fun _ _ _ => 0)]);
      [reflexivity | simpl; lia |].
    right. apply Exists_cons_hd. discriminate.
Defined.

(** X9.  Labels beyond the number of images are never read: the rotated
    batch of [(x, y)] is that of [x] with the first [len(x)] labels, and with
    images of one square shape it is the four rotations of each image with
    those labels, each four times. *)
Theorem rotate_batch_ignores_surplus_labels {F : Framework} (x : list image) (y : list Z) :
  (length x ≤ length y)%nat →
  rotate_batch (x, y) = rotate_batch (x, take (length x) y)
  ∧ (well_formed (x, take (length x) y) = true →
     rotate_batch (x, y)
     = Ok (x ≫= rotations, take (length x) y ≫= replicate 4,
           x ≫= fun _ => [0; 1; 2; 3])).
Proof.
  intros Hle.
  assert (rotate_batch (x, y) = rotate_batch (x, take (length x) y)) as Heq.
  { unfold rotate_batch. rewrite !rotate_loop.
    rewrite !decide_True by (rewrite ?length_take; lia).
    by rewrite take_take, Nat.min_id. }
  split; [done|]. intros Hwf. rewrite Heq. by apply rotate_batch_ok.
Qed.

Lemma rotate_batch_ignores_surplus_labels_witness :
  @rotate_batch (Toy.framework true) ([Toy.img 100], [7; 8; 9])
  = @rotate_batch (Toy.framework true) ([Toy.img 100], [7]).
Proof.
  refine (proj1 (@rotate_batch_ignores_surplus_labels (Toy.framework true)
                   [Toy.img 100] [7; 8; 9] _)).
  simpl. lia.
Defined.

(* ===================================================================== *)
(** * Further properties: the held-out passes                              *)
(* ===================================================================== *)

(** X10.  The accuracy line of the rotation driver is over four samples per
    image of the first ten held-out batches: when the evaluation returns,
    [total] is four times the number of those images and positive, each of
    those batches has an image and a label per image, and both counts of
    correct predictions lie between 0 and [total]. *)
Theorem rotation_test_counts {F : Framework} (model rotate_classifier : module)
    (tests : list batch) (correct rcorrect total : Z) :
  rotation_test model rotate_classifier tests = Ok (correct, rcorrect, total) →
  total = 4 * Z.of_nat (length (take 10 tests ≫= fst))
  ∧ 0 < total
  ∧ 0 ≤ correct ≤ total
  ∧ 0 ≤ rcorrect ≤ total
  ∧ Forall (fun xy => xy.1 ≠ [] ∧ (length xy.1 ≤ length xy.2)%nat) (take 10 tests).
Proof.
  unfold rotation_test, enumerate. rewrite rotation_test_from.
  change (10 - 0)%nat with 10%nat.
  destruct (for_each _ _ _) as [[[c r] t]|] eqn:Hloop; simpl; [|done].
  apply rotation_test_samples_counts in Hloop as (Ht & Hc & Hr & Hall).
  destruct (Z.eqb_spec t 0) as [|Hne]; [done|]. intros [= <- <- <-].
  repeat split; try done; lia.
Qed.

Lemma rotation_test_counts_witness :
  ∃ correct rcorrect,
    @rotation_test (Toy.framework true) (Toy.backbone 3 0).1 (Toy.head 512 4 0).1 Toy.batches
    = Ok (correct, rcorrect, 12)
    ∧ 0 ≤ correct ≤ 12 ∧ 0 ≤ rcorrect ≤ 12.
Proof.
  destruct (@rotation_test (Toy.framework true) (Toy.backbone 3 0).1 (Toy.head 512 4 0).1
              Toy.batches) as [[[correct rcorrect] total]|] eqn:Htest;
    [|vm_compute in Htest; discriminate Htest].
  destruct (@rotation_test_counts (Toy.framework true) _ _ _ _ _ _ Htest)
    as (Ht & _ & Hc & Hr & _).
  simpl in Ht. subst total. exists correct, rcorrect. split; [reflexivity|]. split; assumption.
Defined.




(* ===================================================================== *)
(** * Further properties: the evaluations of a rotation run                *)
(* ===================================================================== *)

Lemma rotation_batch_test_lines {F : Framework} (epoch : Z) (base_loader : loader)
    (v v' : rotation_vars) (b : nat * batch) :
  rotation_batch epoch base_loader v b = Ok v' →
  rotation_test_lines (stdout (rv_world v')) = rotation_test_lines (stdout (rv_world v)).
Proof.
  destruct b as [i xy]. unfold rotation_batch.
  destruct (rotate_batch xy) as [[[x_ y_] a_]|]; simpl; [|done].
  destruct (forward _ _) as [f scores].
  destruct (adam_step2 _ _ _ _) as [optimizer [model rotate_classifier]].
  intros [= <-]. simpl. destruct (_ =? _)%nat; [|done].
  simpl. unfold rotation_test_lines. rewrite omap_app. simpl. by rewrite app_nil_r.
Qed.

Lemma rotation_train_test_lines {F : Framework} (base_loader : loader) (s : rotation_state)
    (epoch : Z) (v : rotation_vars) :
  rotation_train base_loader s epoch = Ok v →
  rotation_test_lines (stdout (rv_world v)) = rotation_test_lines (stdout (rs_world s)).
Proof.
  unfold rotation_train.
  destruct (draw (iterate base_loader) _) as [batches w1] eqn:H1.
  pose proof (stdout_draw (iterate base_loader) (rs_world s)) as Hout.
  rewrite H1 in Hout. simpl in Hout.
  apply (for_each_invariant
    (fun v => rotation_test_lines (stdout (rv_world v))
              = rotation_test_lines (stdout (rs_world s)))); [by simpl; rewrite Hout|].
  intros v1 b v2 _ Hv1 Hb. by rewrite (rotation_batch_test_lines _ _ _ _ _ Hb).
Qed.

Lemma rotation_epoch_test_lines {F : Framework} (base_loader base_loader_test : loader)
    (params : Params) (stop_epoch : Z) (s s' : rotation_state) (epoch : Z) :
  rotation_epoch base_loader base_loader_test stop_epoch params s epoch = Ok s' →
  rotation_test_lines (stdout (rs_world s'))
  = rotation_test_lines (stdout (rs_world s)) ++ [epoch].
Proof.
  unfold rotation_epoch.
  destruct (rotation_train base_loader s epoch) as [v|] eqn:Htrain; simpl; [|done].
  apply rotation_train_test_lines in Htrain.
  destruct (save_checkpoint _ _ _ _ _) as [w1|] eqn:Hsave; simpl; [|done].
  apply save_checkpoint_inv in Hsave as (_ & Hout1 & _).
  destruct (draw (iterate base_loader_test) w1) as [tests w2] eqn:H2.
  pose proof (stdout_draw (iterate base_loader_test) w1) as Hout2.
  rewrite H2 in Hout2. simpl in Hout2.
  destruct (rotation_test _ _ _) as [[[correct rcorrect] total]|]; simpl; [|done].
  intros [= <-]. simpl. unfold rotation_test_lines in *. rewrite omap_app. simpl.
  by rewrite Hout2, Hout1, Htrain.
Qed.

Lemma rotation_loop_test_lines {F : Framework} (base_loader base_loader_test : loader)
    (params : Params) (stop_epoch : Z) (l : list Z) (s s' : rotation_state) :
  for_each (rotation_epoch base_loader base_loader_test stop_epoch params) l s = Ok s' →
  rotation_test_lines (stdout (rs_world s'))
  = rotation_test_lines (stdout (rs_world s)) ++ l.
Proof.
  revert s. induction l as [|epoch l IH]; intros s; simpl.
  - intros [= <-]. by rewrite app_nil_r.
  - destruct (rotation_epoch _ _ _ _ _ _) as [s1|] eqn:Hstep; simpl; [|done].
    intros Hrun. rewrite (IH _ Hrun).
    apply rotation_epoch_test_lines in Hstep as ->. by rewrite <- app_assoc.
Qed.

Lemma init_rotation_test_lines {F : Framework} (model : module) (params : Params) tmp
    (w w' : world) (rotate_classifier : module) (optimizer : adam) :
  init_rotation model params tmp w = Ok (rotate_classifier, optimizer, w') →
  rotation_test_lines (stdout w') = rotation_test_lines (stdout w).
Proof.
  unfold init_rotation. pose proof (stdout_draw (Linear 640 4) w) as H1.
  pose proof (stdout_draw (Linear 512 4) w) as H2.
  assert (stdout (select_rotate_classifier params w).2 = stdout w) as Hsel.
  { unfold select_rotate_classifier. repeat case_match; simplify_eq; simpl in *; done. }
  destruct (select_rotate_classifier params w) as [rc0 w1]. simpl in Hsel.
  destruct use_gpu, rc0 as [rc0|], tmp as [[epoch state [rotate|]]|]; simpl; try done.
  all: try (destruct (load_state_dict _ _); simpl; [|done]).
  all: intros [= _ _ <-]; simpl; rewrite Hsel; try done.
  all: unfold rotation_test_lines; rewrite omap_app; simpl; by rewrite app_nil_r.
Qed.

(** X13.  A finished run of the rotation driver prints one accuracy line per
    epoch of [range(start_epoch, stop_epoch)], in order, and no other: every
    epoch that trains is evaluated, also the epochs that save nothing. *)
Theorem rotation_evaluates_every_epoch {F : Framework}
    (base_loader base_loader_test : loader) (model : module) (s e : Z) (params : Params)
    (tmp : option (checkpoint tensor)) (w w0 : world)
    (rotate_classifier : module) (optimizer : adam) :
  params_save_freq params ≠ 0 →
  (∀ g, Forall (fun xy => well_formed xy = true) (iterate base_loader g).1) →
  (∀ g, (iterate base_loader_test g).1 ≠ []
        ∧ Forall (fun xy => well_formed xy = true) (take 10 (iterate base_loader_test g).1)) →
  init_rotation model params tmp w = Ok (rotate_classifier, optimizer, w0) →
  ∃ model' w',
    train_rotation base_loader base_loader_test model s e params tmp w = Ok (model', w')
    ∧ rotation_test_lines (stdout w') = rotation_test_lines (stdout w) ++ range s e.
Proof.
  intros HF Htrain Htests Hinit.
  destruct (train_rotation_run base_loader base_loader_test params model s e tmp w w0
    rotate_classifier optimizer HF Htrain Htests Hinit) as (s' & Hloop & Hrun & _).
  exists (rs_model s'), (rs_world s'). split; [done|].
  rewrite (rotation_loop_test_lines _ _ _ _ _ _ _ Hloop).
  rewrite <- (init_rotation_test_lines _ _ _ _ _ _ _ Hinit). f_equal.
  unfold rotation_test_lines. simpl. rewrite omap_app. simpl. by rewrite app_nil_r.
Qed.

Lemma rotation_evaluates_every_epoch_witness :
  ∃ model' w',
    @train_rotation (Toy.framework true) Toy.batches Toy.batches (Toy.backbone 3 0).1
      1 4 (Toy.params "ResNet18" "rotation" 4 2) None Toy.empty_world = Ok (model', w')
    ∧ rotation_test_lines (stdout w') = [1; 2; 3].
Proof.
  edestruct (@rotation_evaluates_every_epoch (Toy.framework true) Toy.batches Toy.batches
    (Toy.backbone 3 0).1 1 4 (Toy.params "ResNet18" "rotation" 4 2) None Toy.empty_world)
    as (model' & w' & Hrun & Hout).
  - simpl. lia.
  - intros g. simpl. repeat constructor.
  - intros g. simpl. split; [discriminate | repeat constructor].
  - reflexivity.
  - exists model', w'. split; [exact Hrun | exact Hout].
Defined.

(* ===================================================================== *)
(** * Further properties: the head of the rotation driver                  *)
(* ===================================================================== *)

(** X14.  Given a saved state with a ['rotate'] entry, the rotation driver
    announces "loading rotate model" and loads that entry into the fresh
    linear head (640 inputs for WideResNet28_10, 512 for ResNet18, moved to
    the GPU when there is one); an error of [load_state_dict] is the error of
    the driver.  A saved state without the entry is treated as no saved
    state at all. *)
Theorem init_rotation_loads_saved_head {F : Framework} (model : module) (params : Params)
    (epoch : Z) (state rotate : gmap string tensor) (w : world) :
  params_model params = "WideResNet28_10"%string ∨ params_model params = "ResNet18"%string →
  let d := if String.eqb (params_model params) "WideResNet28_10" then 640 else 512 in
  let fresh := (if use_gpu then cuda else id) (Linear d 4 (gen w)).1 in
  init_rotation model params (Some (Checkpoint epoch state (Some rotate))) w
  = (rc ←r load_state_dict fresh rotate;
     Ok (rc, Adam [model; rc],
         World (fs w) (Linear d 4 (gen w)).2 (stdout w ++ [MsgLoadingRotate])))
  ∧ init_rotation model params (Some (Checkpoint epoch state None)) w
    = init_rotation model params None w
  ∧ (∀ err base_loader base_loader_test s e,
        load_state_dict fresh rotate = Raise err →
        train_rotation base_loader base_loader_test model s e params
          (Some (Checkpoint epoch state (Some rotate))) w = Raise err).
Proof.
  intros Hmodel d fresh.
  assert (init_rotation model params (Some (Checkpoint epoch state (Some rotate))) w
          = (rc ←r load_state_dict fresh rotate;
             Ok (rc, Adam [model; rc],
                 World (fs w) (Linear d 4 (gen w)).2 (stdout w ++ [MsgLoadingRotate]))))
    as Hinit.
  { unfold init_rotation, select_rotate_classifier, draw, fresh, d.
    destruct Hmodel as [-> | ->]; simpl.
    - destruct (Linear 640 4 (gen w)) as [m g]. simpl.
      destruct use_gpu; simpl; by destruct (load_state_dict _ _).
    - destruct (Linear 512 4 (gen w)) as [m g]. simpl.
      destruct use_gpu; simpl; by destruct (load_state_dict _ _). }
  split; [done|]. split; [done|].
  intros err base_loader base_loader_test s e Herr.
  unfold train_rotation. rewrite Hinit, Herr. done.
Qed.

Lemma init_rotation_loads_saved_head_witness :
  @init_rotation (Toy.framework true) (Toy.backbone 3 0).1
    (Toy.params "ResNet18" "rotation" 3 2)
    (Some (Checkpoint 0 Toy.full_state (Some (Toy.head 7 7 0).1))) Toy.empty_world
  = Ok ((Toy.head 7 7 0).1, O, World ∅ 1%nat [MsgLoadingRotate]).
Proof.
  destruct (@init_rotation_loads_saved_head (Toy.framework true) (Toy.backbone 3 0).1
    (Toy.params "ResNet18" "rotation" 3 2) 0 Toy.full_state (Toy.head 7 7 0).1
    Toy.empty_world) as (H & _); [right; reflexivity|].
  etransitivity; [exact H | reflexivity].
Defined.

(* ===================================================================== *)
(** * Further properties: the entry point                                  *)
(* ===================================================================== *)

(** X15.  The entry point does not read the flags [--resume] and
    [--start_epoch]: line 220 forces [resume], and both regimens then replace
    [start_epoch] by the epoch after the resumed checkpoint. *)
Theorem entry_point_ignores_resume_flags {F : Framework} (params : Params) (w : world)
    (resume : bool) (start_epoch : Z) :
  main (set_resume resume params) w = main params w
  ∧ main (set_start_epoch start_epoch params) w = main params w
  ∧ main (set_resume resume (set_start_epoch start_epoch params)) w = main params w.
Proof. split; [|split]; reflexivity. Qed.

Lemma select_model_Some {F : Framework} (params : Params) (w w0 : world) (model0 : module) :
  select_model params w = (Some model0, w0) →
  (params_model params = "WideResNet28_10"%string ∨ params_model params = "ResNet18"%string)
  ∧ fs w0 = fs w ∧ stdout w0 = stdout w.
Proof.
  unfold select_model.
  pose proof (fs_draw (wrn28_10 64) w). pose proof (fs_draw (resnet18 64) w).
  pose proof (stdout_draw (wrn28_10 64) w). pose proof (stdout_draw (resnet18 64) w).
  destruct (String.eqb_spec (params_model params) "WideResNet28_10");
    [|destruct (String.eqb_spec (params_model params) "ResNet18")].
  - destruct (draw (wrn28_10 64) w) as [m w1]. intros [= _ <-]. auto.
  - destruct (draw (resnet18 64) w) as [m w1]. intros [= _ <-]. auto.
  - done.
Qed.

(** X16.  The entry point cannot start from scratch.  An unknown dataset
    fails the lookup of line 225 under every method and model; and under
    either regimen a run whose checkpoint directory has no resume file
    fails, since the resume path is always taken. *)
Theorem entry_point_cannot_start_from_scratch {F : Framework} (params : Params) (w : world) :
  (data_dir !! params_dataset params = None →
   main params w = Raise (KeyError (params_dataset params)))
  ∧ (get_resume_file (dom (fs w)) (checkpoint_dir_of params) = None →
     params_method params = "S2M2_R"%string ∨ params_method params = "rotation"%string →
     returned (main params w) = false).
Proof.
  split.
  - intros Hdir. unfold main, getitem. simpl. by rewrite Hdir.
  - intros Hfile Hmethod. unfold main, getitem. simpl.
    destruct (data_dir !! params_dataset params) as [dir|]; simpl; [|done].
    fold (main_params params).
    pose proof (select_model_fs (main_params params) w) as Hfs.
    destruct (select_model (main_params params) w) as [model w0]. simpl in Hfs.
    destruct Hmethod as [-> | ->]; simpl.
    + destruct model as [model0|]; simpl; [|done].
      unfold module_cuda. destruct use_gpu; simpl; [|done].
      unfold resume_S2M2_R. simpl.
      change (checkpoint_dir_of (set_resume true params)) with (checkpoint_dir_of params).
      by rewrite Hfs, Hfile.
    + assert (∀ model1,
        returned ('(model, start_epoch, w) ←r
                    resume_rotation (main_params params) model1 (params_start_epoch params) w0;
                  '(model, w) ←r
                    train_rotation
                      (get_data_loader 32 (params_batch_size params) (dir +:+ "base.json")
                         (params_train_aug params))
                      (get_data_loader 32 (params_test_batch_size params) (dir +:+ "base.json")
                         false)
                      model start_epoch (params_stop_epoch params) (main_params params) None w;
                  Ok (Some model, w)) = false) as Hresume.
      { intros model1. unfold resume_rotation. simpl.
        change (checkpoint_dir_of (set_resume true params)) with (checkpoint_dir_of params).
        by rewrite Hfs, Hfile. }
      unfold module_cuda. destruct use_gpu; simpl; [|apply Hresume].
      destruct (1 <? device_count)%nat, model as [model0|]; simpl; try done; apply Hresume.
Qed.

Lemma entry_point_cannot_start_from_scratch_witness :
  returned (@main (Toy.framework true) (Toy.params "ResNet18" "rotation" 3 2)
              Toy.empty_world) = false.
Proof.
  apply (proj2 (@entry_point_cannot_start_from_scratch (Toy.framework true)
                  (Toy.params "ResNet18" "rotation" 3 2) Toy.empty_world));
    [reflexivity | right; reflexivity].
Defined.

(** X17.  Under the rotation regimen [stop_epoch] is an absolute bound, not
    a number of epochs: resumed from a checkpoint of epoch [n] with
    [stop_epoch <= n + 1], the entry point loads the checkpoint into the
    network, prints the resume lines and the epoch range, and ends without
    training, evaluating or writing anything. *)
Theorem rotation_stop_epoch_is_absolute {F : Framework} (params : Params) (w w0 : world)
    (dir path : string) (tmp : checkpoint tensor) (model0 model1 : module) :
  params_method params = "rotation"%string →
  data_dir !! params_dataset params = Some dir →
  select_model (main_params params) w = (Some model0, w0) →
  get_resume_file (dom (fs w)) (checkpoint_dir_of params) = Some path →
  fs w !! path = Some tmp →
  load_state_dict
    (if use_gpu
     then cuda (if (1 <? device_count)%nat then DataParallel model0 (seq 0 device_count)
                else model0)
     else model0) (ck_state tmp) = Ok model1 →
  params_stop_epoch params ≤ ck_epoch tmp + 1 →
  ∃ w', main params w = Ok (Some model1, w')
        ∧ fs w' = fs w
        ∧ stdout w' = stdout w ++ [MsgResumeFile (Some path); MsgRestoredEpoch (ck_epoch tmp);
                                   MsgStopEpoch (ck_epoch tmp + 1) (params_stop_epoch params)].
Proof.
  intros Hmethod Hdir Hsel Hfile Hpath Hload Hstop.
  destruct (select_model_Some _ _ _ _ Hsel) as (Hmodel & Hfs & Hout).
  change (params_model (main_params params)) with (params_model params) in Hmodel.
  assert (∀ model,
    load_state_dict model (ck_state tmp) = Ok model1 →
    ∃ w', ('(model, start_epoch, w) ←r
             resume_rotation (main_params params) (Some model) (params_start_epoch params) w0;
           '(model, w) ←r
             train_rotation
               (get_data_loader 32 (params_batch_size params) (dir +:+ "base.json")
                  (params_train_aug params))
               (get_data_loader 32 (params_test_batch_size params) (dir +:+ "base.json")
                  false)
               model start_epoch (params_stop_epoch params) (main_params params) None w;
           Ok (Some model, w)) = Ok (Some model1, w')
          ∧ fs w' = fs w
          ∧ stdout w' = stdout w ++ [MsgResumeFile (Some path);
                                     MsgRestoredEpoch (ck_epoch tmp);
                                     MsgStopEpoch (ck_epoch tmp + 1) (params_stop_epoch params)])
    as Hrest.
  { intros model Hm. unfold resume_rotation. simpl.
    change (checkpoint_dir_of (set_resume true params)) with (checkpoint_dir_of params).
    rewrite Hfs, Hfile. unfold torch_load. simpl. rewrite Hfs, Hpath. simpl.
    rewrite Hm. simpl. unfold train_rotation.
    rewrite (range_empty _ _ Hstop).
    unfold init_rotation, select_rotate_classifier, draw. simpl.
    destruct Hmodel as [-> | ->]; simpl.
    - destruct (Linear 640 4 (gen w0)) as [m g]. simpl.
      destruct use_gpu; simpl; eexists; (split; [done|]); simpl;
        rewrite Hfs, Hout, <- !app_assoc; done.
    - destruct (Linear 512 4 (gen w0)) as [m g]. simpl.
      destruct use_gpu; simpl; eexists; (split; [done|]); simpl;
        rewrite Hfs, Hout, <- !app_assoc; done. }
  unfold main, getitem. simpl. rewrite Hdir. simpl. fold (main_params params).
  rewrite Hsel, Hmethod. simpl.
  unfold module_cuda. destruct use_gpu; simpl; [|by apply Hrest].
  destruct (1 <? device_count)%nat; simpl; by apply Hrest.
Qed.

Lemma rotation_stop_epoch_is_absolute_witness :
  ∃ w',
    @main (Toy.framework true) (Toy.params "ResNet18" "rotation" 3 2)
      (Toy.resume_world (Toy.main_dir "rotation") 5 Toy.full_state None)
    = Ok (Some Toy.full_state, w')
    ∧ fs w' = fs (Toy.resume_world (Toy.main_dir "rotation") 5 Toy.full_state None).
Proof.
  destruct (@rotation_stop_epoch_is_absolute (Toy.framework true)
    (Toy.params "ResNet18" "rotation" 3 2)
    (Toy.resume_world (Toy.main_dir "rotation") 5 Toy.full_state None)
    (World {[ outfile (Toy.main_dir "rotation") 5 := Checkpoint 5 Toy.full_state None ]}
       1%nat [])
    "data/cifar/" (outfile (Toy.main_dir "rotation") 5) (Checkpoint 5 Toy.full_state None)
    (Toy.backbone 64 0).1 Toy.full_state)
    as (w' & Hmain & Hfs & _).
  - reflexivity.
  - reflexivity.
  - reflexivity.
  - reflexivity.
  - reflexivity.
  - reflexivity.
  - simpl. lia.
  - exists w'. split; [exact Hmain | exact Hfs].
Defined.

(* ===================================================================== *)
(** * Further properties: the dictionary loaded on resume                  *)
(* ===================================================================== *)

(** X18.  The dictionary that the mixup resume path hands to
    [load_state_dict] is the network's own dictionary updated with the
    remapped checkpoint: its keys are the keys of the network, the keys of
    the checkpoint and the two new keys; a key of the checkpoint keeps the
    checkpoint's value, whatever the network holds there; any other key of
    the network keeps the network's value. *)
Theorem resume_lays_checkpoint_over_network {F : Framework} (model : module)
    (state state' : gmap string tensor) :
  remap_linear state = Ok state' →
  dom (model_dict_load model state')
  = dom (state_dict model) ∪ dom state
    ∪ {[ "module.linear.L.weight_g"%string; "module.linear.L.weight_v"%string ]}
  ∧ (∀ k v, k ≠ "module.linear.L.weight_g"%string → k ≠ "module.linear.L.weight_v"%string →
            state !! k = Some v → model_dict_load model state' !! k = Some v)
  ∧ (∀ k, k ≠ "module.linear.L.weight_g"%string → k ≠ "module.linear.L.weight_v"%string →
          state !! k = None → model_dict_load model state' !! k = state_dict model !! k).
Proof.
  intros (weight & bias & Hw & Hb & ->)%remap_linear_inv. unfold model_dict_load.
  split; [|split].
  - rewrite dom_union_L, !dom_insert_L. apply set_eq. intros k.
    rewrite !elem_of_union, !elem_of_singleton. tauto.
  - intros k v Hg Hv Hk. apply lookup_union_Some_l. by rewrite !lookup_insert_ne.
  - intros k Hg Hv Hk. apply lookup_union_r. by rewrite !lookup_insert_ne.
Qed.

Lemma resume_lays_checkpoint_over_network_witness :
  ∃ state',
    @remap_linear (Toy.framework true) Toy.plain_state = Ok state'
    ∧ @model_dict_load (Toy.framework true) (Toy.backbone 3 0).1 state'
        !! "module.conv1.weight" = Some 1.
Proof.
  pose proof (@remap_linear_run (Toy.framework true) Toy.plain_state 5 6
                eq_refl eq_refl) as Hremap.
  eexists. split; [exact Hremap|].
  apply (proj1 (proj2 (@resume_lays_checkpoint_over_network (Toy.framework true)
                         (Toy.backbone 3 0).1 Toy.plain_state _ Hremap)));
    [congruence | congruence | reflexivity].
Defined.

(* ===================================================================== *)
(** * Further properties: the last checkpoint of a run                     *)
(* ===================================================================== *)

(** X19.  A finished run of the entry point leaves the checkpoint of its
    last epoch in its checkpoint directory.  Resumed from a checkpoint of
    epoch [n], the mixup regimen with [stop_epoch > 0] leaves the checkpoint
    of epoch [n + stop_epoch], without a ['rotate'] entry; the rotation
    regimen with [n + 1 < stop_epoch] leaves the checkpoint of epoch
    [stop_epoch - 1], with a ['rotate'] entry. *)
Theorem finished_run_leaves_its_last_checkpoint {F : Framework} (params : Params)
    (w : world) (r : option module * world) :
  main params w = Ok r →
  (params_method params = "S2M2_R"%string → 0 < params_stop_epoch params →
   ∃ path tmp record,
     get_resume_file (dom (fs w)) (checkpoint_dir_of params) = Some path
     ∧ fs w !! path = Some tmp
     ∧ fs r.2 !! outfile (checkpoint_dir_of params) (ck_epoch tmp + params_stop_epoch params)
       = Some record
     ∧ ck_epoch record = ck_epoch tmp + params_stop_epoch params
     ∧ ck_rotate record = None)
  ∧ (params_method params = "rotation"%string →
     ∃ path tmp,
       get_resume_file (dom (fs w)) (checkpoint_dir_of params) = Some path
       ∧ fs w !! path = Some tmp
       ∧ (ck_epoch tmp + 1 < params_stop_epoch params →
          ∃ record,
            fs r.2 !! outfile (checkpoint_dir_of params) (params_stop_epoch params - 1)
            = Some record
            ∧ ck_epoch record = params_stop_epoch params - 1
            ∧ is_Some (ck_rotate record))).
Proof.
  intros Hmain. split; intros Hmethod.
  - intros Hstop.
    destruct (main_S2M2_R_inv params w r Hmethod Hmain)
      as (dir & model0 & w0 & model1 & start_epoch & w1 & model' & w' & Hdir & Hsel & Hres
          & Hrun & ->).
    destruct (resume_S2M2_R_inv (main_params params) _ _ _ _ _ eq_refl Hres)
      as (path & tmp & state & Hfile & Hpath & -> & _).
    pose proof (select_model_fs (main_params params) w) as Hfs.
    rewrite Hsel in Hfs. simpl in Hfs. rewrite Hfs in Hfile, Hpath.
    exists path, tmp.
    unfold train_manifold_mixup in Hrun.
    destruct (for_each _ _ _) as [s'|] eqn:Hloop; simpl in Hrun; [|done].
    injection Hrun as _ <-.
    assert (∀ st epoch st',
      mixup_epoch (main_base_loader params dir) (main_base_loader_test params dir)
        (ck_epoch tmp + 1 + params_stop_epoch params) (main_params params) st epoch = Ok st' →
      params_save_freq (main_params params) ≠ 0
      ∧ ∃ r, mixup_saved (main_base_loader params dir) (main_params params) st epoch r
        ∧ ((checkpoint_epoch (params_save_freq (main_params params))
              (ck_epoch tmp + 1 + params_stop_epoch params) epoch
            ∧ fs (ms_world st')
              = <[outfile (params_checkpoint_dir (main_params params)) epoch := r]>
                  (fs (ms_world st)))
           ∨ (¬ checkpoint_epoch (params_save_freq (main_params params))
                  (ck_epoch tmp + 1 + params_stop_epoch params) epoch
              ∧ fs (ms_world st') = fs (ms_world st)))) as Hstep.
    { intros st epoch st' (H1 & _ & H2)%mixup_epoch_inv. done. }
    destruct (loop_written ms_world _ (main_params params)
                (ck_epoch tmp + 1 + params_stop_epoch params) _ Hstep _ _ s'
                (ck_epoch tmp + params_stop_epoch params) (NoDup_range _ _) Hloop)
      as (l1 & l2 & s1 & record & _ & _ & -> & Hrecord).
    + apply elem_of_range. lia.
    + right. lia.
    + exists (Checkpoint (ck_epoch tmp + params_stop_epoch params)
                (state_dict (mx_model (mixup_train (main_base_loader params dir)
                                         (main_params params) s1
                                         (ck_epoch tmp + params_stop_epoch params)))) None).
      done.
  - destruct (main_rotation_inv params w r Hmethod Hmain)
      as (dir & model0 & w0 & model1 & start_epoch & w1 & model' & w' & Hdir & Hfs & Hres
          & Hrun & ->).
    destruct (resume_rotation_inv (main_params params) _ _ _ _ _ _ eq_refl Hres)
      as (path & tmp & m & Hfile & Hpath & -> & _).
    rewrite Hfs in Hfile, Hpath.
    exists path, tmp. split; [done|]. split; [done|]. intros Hstop.
    unfold train_rotation in Hrun.
    destruct (init_rotation _ _ _ _) as [[[rotate_classifier optimizer] w2]|]; simpl in Hrun;
      [|done].
    destruct (for_each _ _ _) as [s'|] eqn:Hloop; simpl in Hrun; [|done].
    injection Hrun as _ <-.
    pose proof (fun st epoch st' =>
      rotation_epoch_inv (main_base_loader params dir) (main_base_loader_test params dir)
        (main_params params) (params_stop_epoch params) st st' epoch) as Hstep.
    destruct (loop_written rs_world _ (main_params params) (params_stop_epoch params) _
                Hstep _ _ s' (params_stop_epoch params - 1) (NoDup_range _ _) Hloop)
      as (l1 & l2 & s1 & record & _ & _ & (v & _ & ->) & Hrecord).
    + apply elem_of_range. lia.
    + by right.
    + eexists. split; [exact Hrecord|]. simpl. eauto.
Qed.

Lemma finished_run_leaves_its_last_checkpoint_witness :
  ∃ r record,
    @main (Toy.framework true) (Toy.params "ResNet18" "S2M2_R" 3 2)
      (Toy.resume_world (Toy.main_dir "S2M2_R") 0 Toy.plain_state None) = Ok r
    ∧ fs r.2 !! outfile (Toy.main_dir "S2M2_R") 3 = Some record
    ∧ ck_epoch record = 3.
Proof.
  assert (returned (@main (Toy.framework true) (Toy.params "ResNet18" "S2M2_R" 3 2)
            (Toy.resume_world (Toy.main_dir "S2M2_R") 0 Toy.plain_state None)) = true)
    as Hret by (vm_compute; reflexivity).
  destruct (@main (Toy.framework true) (Toy.params "ResNet18" "S2M2_R" 3 2)
              (Toy.resume_world (Toy.main_dir "S2M2_R") 0 Toy.plain_state None))
    as [r|] eqn:Hr; [|discriminate Hret].
  destruct (proj1 (@finished_run_leaves_its_last_checkpoint (Toy.framework true)
    (Toy.params "ResNet18" "S2M2_R" 3 2)
    (Toy.resume_world (Toy.main_dir "S2M2_R") 0 Toy.plain_state None) r Hr) eq_refl)
    as (path & tmp & record & _ & Hpath & Hrecord & Hepoch & _); [simpl; lia|].
  unfold Toy.resume_world in Hpath. simpl in Hpath.
  apply lookup_singleton_Some in Hpath as [_ <-].
  exists r, record. split; [reflexivity|]. split; [exact Hrecord | exact Hepoch].
Defined.

(* ===================================================================== *)
(** * Further properties: the progress lines of a training pass           *)
(* ===================================================================== *)

Lemma mixup_batch_lines {F : Framework} (params : Params) (base_loader : loader)
    (v : mixup_vars) (k : nat) (b : batch) :
  stdout (mx_world (mixup_batch params base_loader v (k, b)))
  = stdout (mx_world v)
    ++ (if (k mod 100 =? 0)%nat
        then [MsgMixupTrain k (len base_loader)
                (mx_train_loss (mixup_batch params base_loader v (k, b)))
                (mx_correct (mixup_batch params base_loader v (k, b)))
                (mx_total (mixup_batch params base_loader v (k, b)))]
        else []).
Proof.
  destruct b as [input_var target_var]. unfold mixup_batch.
  pose proof (stdout_draw (np_random_beta (params_alpha params) (params_alpha params))
                (mx_world v)) as H1.
  destruct (draw (np_random_beta _ _) _) as [lam w1]. simpl in H1.
  pose proof (stdout_draw (forward_mixup (mx_model v) input_var target_var
                             (params_alpha params) lam) w1) as H2.
  destruct (draw (forward_mixup _ _ _ _ _) _) as [[[outputs target_a] target_b] w2].
  simpl in H2.
  destruct (adam_step _ _ _) as [optimizer model]. simpl.
  destruct (_ =? _)%nat; simpl; rewrite H2, H1; [done | by rewrite app_nil_r].
Qed.

Lemma mixup_fold_lines {F : Framework} (params : Params) (base_loader : loader)
    (l : list batch) (k : nat) (v : mixup_vars) :
  mixup_train_lines
    (stdout (mx_world (fold_left (mixup_batch params base_loader)
                         (zip (seq k (length l)) l) v)))
  = mixup_train_lines (stdout (mx_world v))
    ++ filter (fun i => (i mod 100 = 0)%nat) (seq k (length l)).
Proof.
  revert k v. induction l as [|b l IH]; intros k v.
  - simpl. by rewrite app_nil_r.
  - cbn [length seq zip_with fold_left]. rewrite IH, mixup_batch_lines.
    unfold mixup_train_lines at 1. rewrite omap_app.
    fold (mixup_train_lines (stdout (mx_world v))). rewrite <- app_assoc. f_equal.
    destruct (Nat.eqb_spec (k mod 100) 0) as [Hk|Hk].
    + by rewrite filter_cons_True.
    + by rewrite filter_cons_False.
Qed.

Lemma rotation_batch_progress {F : Framework} (epoch : Z) (base_loader : loader)
    (v v' : rotation_vars) (k : nat) (b : batch) :
  rotation_batch epoch base_loader v (k, b) = Ok v' →
  rotation_train_lines (stdout (rv_world v'))
  = rotation_train_lines (stdout (rv_world v))
    ++ (if (k mod 50 =? 0)%nat then [(epoch, k)] else []).
Proof.
  unfold rotation_batch.
  destruct (rotate_batch b) as [[[x_ y_] a_]|]; simpl; [|done].
  destruct (forward _ _) as [f scores].
  destruct (adam_step2 _ _ _ _) as [optimizer [model rotate_classifier]].
  intros [= <-]. simpl. destruct (_ =? _)%nat; [|by rewrite app_nil_r].
  simpl. unfold rotation_train_lines. by rewrite omap_app.
Qed.

Lemma rotation_fold_progress {F : Framework} (epoch : Z) (base_loader : loader)
    (l : list batch) (k : nat) (v v' : rotation_vars) :
  for_each (rotation_batch epoch base_loader) (zip (seq k (length l)) l) v = Ok v' →
  rotation_train_lines (stdout (rv_world v'))
  = rotation_train_lines (stdout (rv_world v))
    ++ ((fun i => (epoch, i)) <$> filter (fun i => (i mod 50 = 0)%nat) (seq k (length l))).
Proof.
  revert k v. induction l as [|b l IH]; intros k v.
  - simpl. intros [= <-]. by rewrite app_nil_r.
  - cbn [length seq zip_with for_each].
    destruct (rotation_batch epoch base_loader v (k, b)) as [v1|] eqn:Hb; simpl; [|done].
    intros Hrun. rewrite (IH _ _ Hrun), (rotation_batch_progress _ _ _ _ _ _ Hb).
    rewrite <- app_assoc. f_equal.
    destruct (Nat.eqb_spec (k mod 50) 0) as [Hk|Hk].
    + by rewrite filter_cons_True.
    + by rewrite filter_cons_False.
Qed.

(** X20.  The progress lines of a training pass over [n] batches: the mixup
    driver prints one at the batches 0, 100, 200, ... below [n], the rotation
    driver one at the batches 0, 50, 100, ... below [n], each with the epoch,
    and neither prints any other progress line. *)
Theorem training_pass_progress_lines {F : Framework} (base_loader : loader) (params : Params)
    (epoch : Z) :
  (∀ s : mixup_state,
      let n := length (iterate base_loader (gen (ms_world s))).1 in
      mixup_train_lines (stdout (mx_world (mixup_train base_loader params s epoch)))
      = mixup_train_lines (stdout (ms_world s))
        ++ filter (fun i => (i mod 100 = 0)%nat) (seq 0 n))
  ∧ (∀ (s : rotation_state) (v : rotation_vars),
        let n := length (iterate base_loader (gen (rs_world s))).1 in
        rotation_train base_loader s epoch = Ok v →
        rotation_train_lines (stdout (rv_world v))
        = rotation_train_lines (stdout (rs_world s))
          ++ ((fun i => (epoch, i)) <$> filter (fun i => (i mod 50 = 0)%nat) (seq 0 n))).
Proof.
  split.
  - intros s n. unfold mixup_train, draw, enumerate. subst n. simpl.
    destruct (iterate base_loader (gen (ms_world s))) as [batches g]. simpl.
    rewrite mixup_fold_lines. simpl. f_equal.
    unfold mixup_train_lines. rewrite omap_app. simpl. by rewrite app_nil_r.
  - intros s v n. unfold rotation_train, draw, enumerate. subst n.
    destruct (iterate base_loader (gen (rs_world s))) as [batches g]. simpl.
    intros Hrun. by rewrite (rotation_fold_progress _ _ _ _ _ _ Hrun).
Qed.

Lemma training_pass_progress_lines_witness :
  ∃ v, @rotation_train (Toy.framework true) Toy.batches
         (RotationState (Toy.backbone 3 0).1 (Toy.head 512 4 0).1 O Toy.empty_world) 7 = Ok v
       ∧ rotation_train_lines (stdout (rv_world v)) = [(7, O)].
Proof.
  destruct (@rotation_train_run (Toy.framework true) Toy.batches
              (RotationState (Toy.backbone 3 0).1 (Toy.head 512 4 0).1 O Toy.empty_world) 7)
    as [v Hv]; [intros g; simpl; repeat constructor|].
  exists v. split; [exact Hv|].
  exact (proj2 (@training_pass_progress_lines (Toy.framework true) Toy.batches
                  (Toy.params "ResNet18" "rotation" 3 2) 7) _ v Hv).
Defined.
